(** * Metadata inventory service: a shallow embedding and its properties

    The development follows the layout of the service:

    - [Text]: the Python string operations the sources rely on;
    - [UrlLib]: the parts of [urllib.parse] called by the canonicalizer;
    - [UrlNormalizer]: [app/utils/url_normalizer.py];
    - [Py]: results of Python calls (a value or a raised exception);
    - [Mongo]: the document collection behind the repository;
    - [Repository]: [app/infrastructure/db/repository.py];
    - [Fetcher]: [app/infrastructure/crawler/http_client.py];
    - [Producer]: [app/infrastructure/messaging/producer.py];
    - [Service]: [app/domain/metadata_service.py];
    - [Consumer]: [app/worker/worker.py] and the per-message protocol of
      [app/infrastructure/messaging/consumer.py];
    - [MongoLife]: the connection life cycle of
      [app/infrastructure/db/mongo.py];
    - [Frame], [Trace]: relations and observations used in the
      statements about what each layer may change.

    Text is modelled by 8-bit strings: the model is exact on ASCII text,
    which is all the statements below evaluate it on. *)

From Stdlib Require Import ZArith Ascii String List Lia DecimalString.
From Stdlib Require QArith.
From stdpp Require Import base strings gmap list.

Local Open Scope string_scope.
Local Open Scope list_scope.

(** ** Python string operations *)

Module Text.

Definition is_upper (c : ascii) : bool :=
  (65 <=? nat_of_ascii c)%nat && (nat_of_ascii c <=? 90)%nat.

Definition is_lower (c : ascii) : bool :=
  (97 <=? nat_of_ascii c)%nat && (nat_of_ascii c <=? 122)%nat.

Definition is_digit (c : ascii) : bool :=
  (48 <=? nat_of_ascii c)%nat && (nat_of_ascii c <=? 57)%nat.

Definition is_alpha (c : ascii) : bool := is_upper c || is_lower c.

Definition lower_char (c : ascii) : ascii :=
  if is_upper c then ascii_of_nat (nat_of_ascii c + 32) else c.

(** [s.lower()] *)
Fixpoint lower (s : string) : string :=
  match s with
  | EmptyString => EmptyString
  | String c t => String (lower_char c) (lower t)
  end.

Definition is_empty (s : string) : bool :=
  match s with EmptyString => true | _ => false end.

(** [s.startswith(p)] *)
Definition startswith (p s : string) : bool := String.prefix p s.

(** [c in s] for a one-character [c] *)
Fixpoint contains_char (c : ascii) (s : string) : bool :=
  match s with
  | EmptyString => false
  | String a t => Ascii.eqb a c || contains_char c t
  end.

(** [s.partition(c)]: text before the first [c], whether [c] was found,
    text after it; [(s, false, "")] when [c] does not occur. *)
Fixpoint partition (c : ascii) (s : string) : string * bool * string :=
  match s with
  | EmptyString => (EmptyString, false, EmptyString)
  | String a t =>
      if Ascii.eqb a c then (EmptyString, true, t)
      else let '(h, f, r) := partition c t in (String a h, f, r)
  end.

(** [s.rpartition(c)]: the same around the last [c]; [("", false, s)]
    when [c] does not occur. *)
Fixpoint rpartition (c : ascii) (s : string) : string * bool * string :=
  match s with
  | EmptyString => (EmptyString, false, EmptyString)
  | String a t =>
      let '(h, f, r) := rpartition c t in
      if f then (String a h, true, r)
      else if Ascii.eqb a c then (EmptyString, true, t)
      else (EmptyString, false, String a r)
  end.

(** [s.split(c)] *)
Fixpoint split (c : ascii) (s : string) : list string :=
  match s with
  | EmptyString => [EmptyString]
  | String a t =>
      if Ascii.eqb a c then EmptyString :: split c t
      else match split c t with
           | h :: r => String a h :: r
           | [] => [String a EmptyString]
           end
  end.

(** [s.endswith(c)] for a one-character [c] *)
Fixpoint endswith_char (c : ascii) (s : string) : bool :=
  match s with
  | EmptyString => false
  | String a EmptyString => Ascii.eqb a c
  | String _ t => endswith_char c t
  end.

(** [s.rstrip(c)] for a one-character [c] *)
Fixpoint rstrip (c : ascii) (s : string) : string :=
  match s with
  | EmptyString => EmptyString
  | String a t =>
      let t' := rstrip c t in
      if Ascii.eqb a c && is_empty t' then EmptyString else String a t'
  end.

(** [s.lstrip(chars)] with the set of characters given as a predicate *)
Fixpoint lstrip (p : ascii -> bool) (s : string) : string :=
  match s with
  | EmptyString => EmptyString
  | String a t => if p a then lstrip p t else s
  end.

(** [s.replace(c, "")] for each [c] satisfying [p] *)
Fixpoint remove_chars (p : ascii -> bool) (s : string) : string :=
  match s with
  | EmptyString => EmptyString
  | String a t => if p a then remove_chars p t else String a (remove_chars p t)
  end.

(** [s.replace(a, b)] for one-character [a] and [b] *)
Fixpoint replace_char (a b : ascii) (s : string) : string :=
  match s with
  | EmptyString => EmptyString
  | String c t => String (if Ascii.eqb c a then b else c) (replace_char a b t)
  end.

Fixpoint forallb_string (p : ascii -> bool) (s : string) : bool :=
  match s with
  | EmptyString => true
  | String a t => p a && forallb_string p t
  end.

(** [s.isdigit() and s.isascii()] *)
Definition isdigit (s : string) : bool :=
  negb (is_empty s) && forallb_string is_digit s.

(** [int(s)] on a string of ASCII digits *)
Fixpoint int_of_digits (acc : N) (s : string) : N :=
  match s with
  | EmptyString => acc
  | String a t => int_of_digits (acc * 10 + N.of_nat (nat_of_ascii a - 48)) t
  end.

(** [str(n)] *)
Definition str_of_N (n : N) : string := NilEmpty.string_of_uint (N.to_uint n).
Definition str_of_Z (z : Z) : string := NilZero.string_of_int (Z.to_int z).

(** [needle in hay] *)
Fixpoint contains (needle hay : string) : bool :=
  String.prefix needle hay
  || match hay with
     | EmptyString => false
     | String _ t => contains needle t
     end.

(** ["sep".join(l)] *)
Fixpoint join (sep : string) (l : list string) : string :=
  match l with
  | [] => EmptyString
  | [x] => x
  | x :: r => x +:+ sep +:+ join sep r
  end.

Definition hex_digit (n : nat) : ascii :=
  if (n <? 10)%nat then ascii_of_nat (48 + n) else ascii_of_nat (55 + n).

Definition hex_value (c : ascii) : option nat :=
  let n := nat_of_ascii c in
  if is_digit c then Some (n - 48)
  else if (65 <=? n)%nat && (n <=? 70)%nat then Some (n - 55)
  else if (97 <=? n)%nat && (n <=? 102)%nat then Some (n - 87)
  else None.

End Text.

(** ** Results of Python calls *)

Module Py.

(** The exception classes the service raises or handles.  The two
    [pymongo] constructors stand for [DuplicateKeyError] and for every
    other subclass of [PyMongoError]; [DatabaseError] and the three
    collection errors are those of [app/core/exceptions.py]. *)
Inductive exn : Type :=
| ValueError (msg : string)
| TypeError (msg : string)
| RuntimeError (msg : string)
| BufferError (msg : string)
| KafkaException (msg : string)
| DuplicateKeyError (msg : string)
| PyMongoError (msg : string)
| DatabaseError (operation reason : string)
| CollectionError (url reason : string)
| PermanentCollectionError (url reason : string)
| TransientCollectionError (url reason : string)
| OtherException (msg : string).

(** [isinstance(e, PyMongoError)]: [DuplicateKeyError] is a subclass. *)
Definition is_PyMongoError (e : exn) : bool :=
  match e with
  | DuplicateKeyError _ | PyMongoError _ => true
  | _ => false
  end.

(** [str(e)].  [MetadataServiceError.__init__] passes the formatted
    message to [Exception.__init__]. *)
Definition str (e : exn) : string :=
  match e with
  | ValueError m | TypeError m | RuntimeError m | BufferError m
  | KafkaException m | DuplicateKeyError m | PyMongoError m
  | OtherException m => m
  | DatabaseError op r =>
      "Database error during '" +:+ op +:+ "': " +:+ r
  | CollectionError u r | PermanentCollectionError u r
  | TransientCollectionError u r =>
      "Failed to collect metadata for '" +:+ u +:+ "': " +:+ r
  end.

Inductive result (A : Type) : Type :=
| Ret (a : A)
| Raise (e : exn).
Arguments Ret {A} a.
Arguments Raise {A} e.

Definition bind {A B} (m : result A) (k : A -> result B) : result B :=
  match m with
  | Ret a => k a
  | Raise e => Raise e
  end.

End Py.

#[global] Instance result_bind : MBind Py.result := fun A B k m => Py.bind m k.

(** ** [urllib.parse] *)

Module UrlLib.
Import Text.

Definition scheme_char (c : ascii) : bool :=
  is_alpha c || is_digit c || contains_char c "+-.".

(** [_WHATWG_C0_CONTROL_OR_SPACE] *)
Definition c0_control_or_space (c : ascii) : bool :=
  (nat_of_ascii c <=? 32)%nat.

(** [_UNSAFE_URL_BYTES_TO_REMOVE]: tab, carriage return, line feed *)
Definition unsafe_url_byte (c : ascii) : bool :=
  let n := nat_of_ascii c in
  (n =? 9)%nat || (n =? 13)%nat || (n =? 10)%nat.

Definition uses_params : list string :=
  [""; "ftp"; "hdl"; "prospero"; "http"; "imap"; "https"; "shttp"; "rtsp";
   "rtspu"; "sip"; "sips"; "mms"; "sftp"; "tel"].

Definition uses_netloc : list string :=
  [""; "ftp"; "http"; "gopher"; "nntp"; "telnet"; "imap"; "wais"; "file";
   "mms"; "https"; "shttp"; "snews"; "prospero"; "rtsp"; "rtspu"; "rsync";
   "svn"; "svn+ssh"; "sftp"; "nfs"; "git"; "git+ssh"; "ws"; "wss"; "itms-services"].

Definition mem (s : string) (l : list string) : bool :=
  existsb (String.eqb s) l.

Record SplitResult : Type := mkSplit {
  s_scheme : string;
  s_netloc : string;
  s_path : string;
  s_query : string;
  s_fragment : string
}.

Record ParseResult : Type := mkParse {
  scheme : string;
  netloc : string;
  path : string;
  params : string;
  query : string;
  fragment : string
}.

(** The scheme test of [urlsplit]: a colon at a positive index whose
    prefix starts with a letter and holds scheme characters only. *)
Definition split_scheme (url : string) : string * string :=
  let '(before, found, after) := partition ":" url in
  match before with
  | String c0 _ =>
      if found && is_alpha c0 && forallb_string scheme_char before
      then (lower before, after)
      else (EmptyString, url)
  | EmptyString => (EmptyString, url)
  end.

(** [_splitnetloc(url, 2)] applied to the text after the two slashes *)
Fixpoint splitnetloc (s : string) : string * string :=
  match s with
  | EmptyString => (EmptyString, EmptyString)
  | String a t =>
      if contains_char a "/?#" then (EmptyString, s)
      else let '(n, r) := splitnetloc t in (String a n, r)
  end.

Section Urlsplit.
(** [_check_bracketed_netloc] validates a bracketed host with the
    [ipaddress] module; the validator is a parameter. *)
Variable bracketed_netloc_ok : string -> bool.

Definition urlsplit (url : string) : Py.result SplitResult :=
  let url := remove_chars unsafe_url_byte (lstrip c0_control_or_space url) in
  let '(sch, url) := split_scheme url in
  '(nl, url) ←
    (match url with
     | String "/" (String "/" rest) =>
         let '(n, r) := splitnetloc rest in
         let ob := contains_char "[" n in
         let cb := contains_char "]" n in
         if (ob && negb cb) || (cb && negb ob)
         then Py.Raise (Py.ValueError "Invalid IPv6 URL")
         else if ob && cb && negb (bracketed_netloc_ok n)
         then Py.Raise (Py.ValueError "Invalid IPv6 URL")
         else Py.Ret (n, r)
     | _ => Py.Ret (EmptyString, url)
     end);
  let '(url, _, frag) := partition "#" url in
  let '(url, _, qry) := partition "?" url in
  Py.Ret (mkSplit sch nl url qry frag).

(** [_splitparams] *)
Definition splitparams (url : string) : string * string :=
  if contains_char "/" url then
    let '(dir, _, last) := rpartition "/" url in
    let '(seg, found, par) := partition ";" last in
    if found then (dir +:+ "/" +:+ seg, par) else (url, EmptyString)
  else
    let '(seg, _, par) := partition ";" url in (seg, par).

Definition urlparse (url : string) : Py.result ParseResult :=
  r ← urlsplit url;
  let '(p, par) :=
    if mem (s_scheme r) uses_params && contains_char ";" (s_path r)
    then splitparams (s_path r) else (s_path r, EmptyString) in
  Py.Ret (mkParse (s_scheme r) (s_netloc r) p par (s_query r) (s_fragment r)).
End Urlsplit.

(** [_hostinfo]: the host and the port text of a netloc, [None] for an
    empty port. *)
Definition hostinfo (nl : string) : string * option string :=
  let '(_, _, hi) := rpartition "@" nl in
  let '(_, have_open_br, bracketed) := partition "[" hi in
  let '(h, p) :=
    if have_open_br then
      let '(h, _, p) := partition "]" bracketed in
      let '(_, _, p) := partition ":" p in (h, p)
    else
      let '(h, _, p) := partition ":" hi in (h, p) in
  (h, if is_empty p then None else Some p).

(** The [hostname] property: lower case, except a zone after [%]. *)
Definition hostname (r : ParseResult) : option string :=
  let h := fst (hostinfo (netloc r)) in
  if is_empty h then None
  else
    let '(h, percent, zone) := partition "%" h in
    Some (lower h +:+ (if percent then "%" else EmptyString) +:+ zone).

(** The [port] property. *)
Definition port (r : ParseResult) : Py.result (option N) :=
  match snd (hostinfo (netloc r)) with
  | None => Py.Ret None
  | Some p =>
      if isdigit p then
        let n := int_of_digits 0 p in
        if (n <=? 65535)%N then Py.Ret (Some n)
        else Py.Raise (Py.ValueError "Port out of range 0-65535")
      else Py.Raise (Py.ValueError "Port could not be cast to integer value")
  end.

(** [unquote]: percent-escapes replaced by the byte they denote. *)
Fixpoint unquote (s : string) : string :=
  match s with
  | EmptyString => EmptyString
  | String c t1 =>
      if Ascii.eqb c "%" then
        match t1 with
        | String a (String b t2) =>
            match hex_value a, hex_value b with
            | Some x, Some y => String (ascii_of_nat (16 * x + y)) (unquote t2)
            | _, _ => String c (unquote t1)
            end
        | _ => String c (unquote t1)
        end
      else String c (unquote t1)
  end.

(** [parse_qsl(qs, keep_blank_values=True)] *)
Definition parse_qsl (qs : string) : list (string * string) :=
  flat_map
    (fun name_value =>
       if is_empty name_value then []
       else
         let '(n, _, v) := partition "=" name_value in
         [(unquote (replace_char "+" " " n), unquote (replace_char "+" " " v))])
    (split "&" qs).

(** The dictionary built by [parse_qs], in insertion order. *)
Fixpoint dict_append (k v : string) (d : list (string * list string))
  : list (string * list string) :=
  match d with
  | [] => [(k, [v])]
  | (k', vs) :: r =>
      if String.eqb k' k then (k', vs ++ [v]) :: r
      else (k', vs) :: dict_append k v r
  end.

Definition parse_qs (qs : string) : list (string * list string) :=
  fold_left (fun d kv => dict_append (fst kv) (snd kv) d) (parse_qsl qs) [].

Definition always_safe (c : ascii) : bool :=
  is_alpha c || is_digit c || contains_char c "_.-~".

(** [quote_plus(s, safe="")] *)
Fixpoint quote_plus (s : string) : string :=
  match s with
  | EmptyString => EmptyString
  | String c t =>
      if always_safe c then String c (quote_plus t)
      else if Ascii.eqb c " " then String "+" (quote_plus t)
      else
        let n := nat_of_ascii c in
        String "%" (String (hex_digit (n / 16)) (String (hex_digit (n mod 16))
          (quote_plus t)))
  end.

(** [urlencode] of a list of pairs of strings *)
Definition urlencode (q : list (string * string)) : string :=
  join "&" (map (fun kv => quote_plus (fst kv) +:+ "=" +:+ quote_plus (snd kv)) q).

(** [urlunsplit] *)
Definition urlunsplit (sch nl url qry frag : string) : string :=
  let url :=
    if negb (is_empty nl)
       || (negb (is_empty sch) && mem sch uses_netloc
           && negb (startswith "//" url))
    then
      let url :=
        if negb (is_empty url) && negb (startswith "/" url)
        then "/" +:+ url else url in
      "//" +:+ nl +:+ url
    else url in
  let url := if is_empty sch then url else sch +:+ ":" +:+ url in
  let url := if is_empty qry then url else url +:+ "?" +:+ qry in
  if is_empty frag then url else url +:+ "#" +:+ frag.

(** [urlunparse] *)
Definition urlunparse (sch nl url par qry frag : string) : string :=
  let url := if is_empty par then url else url +:+ ";" +:+ par in
  urlunsplit sch nl url qry frag.

(** [sorted(l, key=lambda x: x[0])]: a stable insertion sort on the
    first components, compared as Python compares strings. *)
Fixpoint insert_sorted (x : string * string) (l : list (string * string))
  : list (string * string) :=
  match l with
  | [] => [x]
  | y :: r =>
      if String.ltb (fst x) (fst y) then x :: l else y :: insert_sorted x r
  end.

Definition sorted_by_key (l : list (string * string)) : list (string * string) :=
  fold_right insert_sorted [] l.

End UrlLib.

(** ** [app/utils/url_normalizer.py] *)

Module UrlNormalizer.
Import Text UrlLib.

Section Normalize.
Variable bracketed_netloc_ok : string -> bool.

Definition normalize_url (url : string) : Py.result string :=
  (* Ensure scheme is present (case-insensitive check) *)
  let url :=
    if negb (startswith "http://" (lower url)
             || startswith "https://" (lower url))
    then "https://" +:+ url else url in
  parsed ← urlparse bracketed_netloc_ok url;
  (* Lowercase scheme and hostname *)
  let scheme := lower (scheme parsed) in
  let hostname := lower (default EmptyString (hostname parsed)) in
  (* Remove default ports *)
  port ← port parsed;
  let port :=
    if (String.eqb scheme "http" && bool_decide (port = Some 80%N))
       || (String.eqb scheme "https" && bool_decide (port = Some 443%N))
    then None else port in
  (* Reconstruct netloc: [if port] is false for [None] and for [0] *)
  let netloc :=
    match port with
    | Some p => if (p =? 0)%N then hostname
                else hostname +:+ ":" +:+ str_of_N p
    | None => hostname
    end in
  (* Clean path *)
  let path := path parsed in
  let path :=
    if negb (String.eqb path "/") && endswith_char "/" path
    then rstrip "/" path else path in
  let path := if is_empty path then "/" else path in
  (* Sort query parameters for consistent ordering *)
  let query_params := parse_qs (query parsed) in
  let sorted_query :=
    match query_params with
    | [] => EmptyString
    | _ => urlencode (sorted_by_key
             (map (fun kv => (fst kv, hd EmptyString (snd kv))) query_params))
    end in
  (* Drop fragment entirely *)
  Py.Ret (urlunparse scheme netloc path EmptyString sorted_query EmptyString).
End Normalize.

End UrlNormalizer.

(** ** The document collection *)

Module Mongo.

(** Field values of the documents the service stores. *)
Inductive value : Type :=
| VStr (s : string)
| VInt (n : Z)
| VTime (t : Z)
| VOid (n : nat)
| VDict (d : gmap string string).

#[global] Instance value_eq_dec : EqDecision value.
Proof. solve_decision. Defined.

(** A document maps top-level field names to values. *)
Abbreviation document := (gmap string value).

(** [str(v)] for an identifier *)
Definition str_value (v : value) : string :=
  match v with
  | VStr s => s
  | VInt n => Text.str_of_N (Z.to_N n)
  | VTime t => Text.str_of_N (Z.to_N t)
  | VOid n => "oid" +:+ Text.str_of_N (N.of_nat n)
  | VDict _ => "{}"
  end.

(** The two filters the repository uses:
    [{"url": u}] and [{"url": u, "status": {"$nin": l}}]. *)
Record query : Type := mkQuery {
  q_url : string;
  q_status_nin : list string
}.

Definition status_in (l : list string) (d : document) : bool :=
  match d !! "status" with
  | Some (VStr s) => bool_decide (s ∈ l)
  | _ => false
  end.

Definition has_url (u : string) (d : document) : bool :=
  bool_decide (d !! "url" = Some (VStr u)).

Definition matches (q : query) (d : document) : bool :=
  has_url (q_url q) d && negb (status_in (q_status_nin q) d).

(** [UpdateResult] *)
Record UpdateResult : Type := mkUpdateResult {
  matched_count : nat;
  modified_count : nat;
  upserted_id : option value
}.

(** [find_one(filter)]: the first matching document. *)
Definition find_one (q : query) (c : list document) : option document :=
  snd <$> list_find (λ d, matches q d) c.

(** An identifier no stored document carries. *)
Definition oid_bound (d : document) : nat :=
  match d !! "_id" with Some (VOid n) => S n | _ => 0 end.

Definition fresh_oid (c : list document) : nat :=
  foldr (λ d m, Nat.max (oid_bound d) m) 0 c.

(** The unique index [idx_url_unique] (and the one on [_id]): a write
    that would give two documents the same key is refused. *)
Definition key_taken (k : string) (v : option value) (c : list document) : bool :=
  existsb (λ d, bool_decide (d !! k = v)) c.

(** [update_one(filter, {"$set": set, "$setOnInsert": on_insert}, upsert)].

    The server refuses an update whose two operators name the same
    field and one that would change [_id].  With no match and [upsert],
    the new document is built from the equality part of the filter,
    then the two operators, and receives an identifier if it has none. *)
Definition update_one (q : query) (set on_insert : document) (upsert : bool)
    (c : list document) : Py.result (UpdateResult * list document) :=
  if bool_decide (dom set ∩ dom on_insert ≠ ∅) then
    Py.Raise (Py.PyMongoError "Updating the path would create a conflict")
  else
    match list_find (λ d, matches q d) c with
    | Some (i, d) =>
        let d' := set ∪ d in
        if bool_decide (d' !! "_id" ≠ d !! "_id") then
          Py.Raise (Py.PyMongoError "would modify the immutable field '_id'")
        else if bool_decide (d' !! "url" ≠ d !! "url")
                && key_taken "url" (d' !! "url") c then
          Py.Raise (Py.DuplicateKeyError "E11000 duplicate key error")
        else
          Py.Ret (mkUpdateResult 1 (if bool_decide (d' = d) then 0 else 1) None,
                  <[i := d']> c)
    | None =>
        if upsert then
          let d0 := on_insert ∪ (set ∪ {["url" := VStr (q_url q)]}) in
          let d1 :=
            match d0 !! "_id" with
            | Some _ => d0
            | None => <["_id" := VOid (fresh_oid c)]> d0
            end in
          if key_taken "url" (d1 !! "url") c || key_taken "_id" (d1 !! "_id") c then
            Py.Raise (Py.DuplicateKeyError "E11000 duplicate key error")
          else
            Py.Ret (mkUpdateResult 0 0 (d1 !! "_id"), c ++ [d1])
        else Py.Ret (mkUpdateResult 0 0 None, c)
    end.

End Mongo.

(** ** The process and its surroundings *)

Module Sys.
Import Mongo.

(** [app/core/config.py] (the settings the modelled code reads) *)
Record Settings : Type := mkSettings {
  http_timeout : Z;
  kafka_topic : string;
  kafka_dlq_topic : string;
  kafka_max_retries : Z
}.

Definition default_settings : Settings :=
  mkSettings 30 "metadata-tasks" "metadata-tasks-dlq" 3.

(** A driver round trip, as recorded in the trace of the store. *)
Inductive db_call : Type :=
| CallFindOne (q : query)
| CallUpdateOne (q : query) (set on_insert : document) (upsert : bool).

(** The database handle of [mongo.py], the collection, the outcome the
    environment imposes on the next round trips ([Some e]: the call
    raises [e] and writes nothing) and the round trips made so far. *)
Record db : Type := mkDb {
  database : bool;
  docs : list document;
  db_faults : list (option Py.exn);
  db_calls : list db_call
}.

(** A [retry_count] that is present and is not a number: JSON [null], a
    string, an array or an object. *)
Inductive not_a_number : Type :=
| NullCount
| TextCount (s : string)
| ArrayCount
| ObjectCount.

(** What the value of a message is once read as JSON:
    - [Task]: an object ([{url, retry_count}], with [error] on the
      dead-letter topic) whose [retry_count] is absent or an integer;
      an absent [url] also stands for one that is [null], [0], [false]
      or an empty array or object, which [if not url] treats alike;
    - [Uncounted]: such an object whose [retry_count] is not a number;
    - [NotAnObject]: JSON of another Python type (a list, a str, an
      int, ...), named by [python_type];
    - [Undecodable]: bytes that [decode] or [json.loads] refuses.
    Not represented: a [retry_count] that is a JSON float or boolean,
    and a [url] that is a non-empty array or object, [true] or a
    non-zero number. *)
Inductive payload : Type :=
| Task (url : option string) (retry_count : option Z) (error : option string)
| Uncounted (url : option string) (retry_count : not_a_number)
            (error : option string)
| NotAnObject (python_type : string)
| Undecodable.

(** What [consumer.poll] may hand back besides a message of the topic. *)
Inductive poll_event : Type :=
| PartitionEof
| ConsumerError.

(** The producer handle of [producer.py], the topics, the consumer's
    position in the main topic and the offsets it has committed. *)
Record kafka : Type := mkKafka {
  producer : bool;
  topics : gmap string (list payload);
  produce_faults : list (option Py.exn);
  poll_events : list (option poll_event);
  position : nat;
  committed : list nat;
  commit_faults : list (option Py.exn);
  shutdown : bool
}.

(** The exception classes of [httpx] that [fetch_url] tells apart. *)
Inductive httpx_class : Type :=
| TimeoutException | ConnectTimeout | ReadTimeout | WriteTimeout | PoolTimeout
| TooManyRedirects
| ConnectError
| ReadError | WriteError | CloseError
| ProtocolError | LocalProtocolError | RemoteProtocolError
| ProxyError | UnsupportedProtocol | DecodingError
| HTTPStatusError (status : Z).

Record Response : Type := mkResponse {
  r_status_code : Z;
  r_headers : gmap string string;
  r_cookies : gmap string string;
  r_text : string
}.

(** The outcome of [client.get(url)]: the final response, an [httpx]
    exception with its message, or another exception. *)
Inductive outcome : Type :=
| Responds (r : Response)
| HttpxRaises (cls : httpx_class) (msg : string)
| OtherRaises (e : Py.exn).

(** The network answers the [n]-th request of the process; the URLs
    requested so far are recorded. *)
Record net : Type := mkNet {
  answers : nat -> string -> outcome;
  requests : list string
}.

Record world : Type := mkWorld {
  w_db : db;
  w_kafka : kafka;
  w_net : net;
  clock : Z
}.

Definition set_db (f : db -> db) (w : world) : world :=
  mkWorld (f (w_db w)) (w_kafka w) (w_net w) (clock w).
Definition set_kafka (f : kafka -> kafka) (w : world) : world :=
  mkWorld (w_db w) (f (w_kafka w)) (w_net w) (clock w).
Definition set_net (f : net -> net) (w : world) : world :=
  mkWorld (w_db w) (w_kafka w) (f (w_net w)) (clock w).

(** Computations of the process: a result and the world after it; the
    world changes made before an exception is raised persist. *)
Definition M (A : Type) : Type := world -> Py.result A * world.

Definition ret {A} (a : A) : M A := fun w => (Py.Ret a, w).
Definition raise {A} (e : Py.exn) : M A := fun w => (Py.Raise e, w).
Definition bind {A B} (m : M A) (k : A -> M B) : M B :=
  fun w =>
    match m w with
    | (Py.Ret a, w') => k a w'
    | (Py.Raise e, w') => (Py.Raise e, w')
    end.

(** [try: m  except ...: h]: [h e] is the handler of the first clause
    matching [e], [None] when no clause matches. *)
Definition try_except {A} (m : M A) (h : Py.exn -> option (M A)) : M A :=
  fun w =>
    match m w with
    | (Py.Ret a, w') => (Py.Ret a, w')
    | (Py.Raise e, w') =>
        match h e with
        | Some k => k w'
        | None => (Py.Raise e, w')
        end
    end.

Definition lift {A} (r : Py.result A) : M A := fun w => (r, w).

(** The fault, if any, that a script of outcomes imposes on the next call. *)
Definition next_fault (fs : list (option Py.exn)) : option Py.exn :=
  match fs with
  | Some e :: _ => Some e
  | _ => None
  end.

(** [datetime.now(timezone.utc)] *)
Definition datetime_now : M Z := fun w => (Py.Ret (clock w), w).

End Sys.

#[global] Instance M_bind : MBind Sys.M := fun A B k m => Sys.bind m k.

(** ** [app/infrastructure/db/repository.py] *)

Module Repository.
Import Mongo Sys.

(** [get_database()] of [mongo.py], behind [_get_collection]. *)
Definition get_collection : M unit :=
  fun w =>
    if database (w_db w) then (Py.Ret (), w)
    else (Py.Raise (Py.RuntimeError
            "MongoDB is not connected. Ensure connect_to_mongo() has been called during application startup."), w).

(** The store after a round trip: the collection it leaves, one fault
    consumed, the call recorded. *)
Definition logged (call : db_call) (c : list document) (w : world) : world :=
  set_db (fun d => mkDb (database d) c (tail (db_faults d))
                        (db_calls d ++ [call])) w.

(** One round trip to the server. *)
Definition round_trip {A} (call : db_call)
    (op : list document -> Py.result (A * list document)) : M A :=
  fun w =>
    match next_fault (db_faults (w_db w)) with
    | Some e => (Py.Raise e, logged call (docs (w_db w)) w)
    | None =>
        match op (docs (w_db w)) with
        | Py.Ret (a, c) => (Py.Ret a, logged call c w)
        | Py.Raise e => (Py.Raise e, logged call (docs (w_db w)) w)
        end
    end.

Definition coll_find_one (q : query) : M (option document) :=
  round_trip (CallFindOne q) (fun c => Py.Ret (Mongo.find_one q c, c)).

Definition coll_update_one (q : query) (set on_insert : document) (upsert : bool)
  : M UpdateResult :=
  round_trip (CallUpdateOne q set on_insert upsert)
             (Mongo.update_one q set on_insert upsert).

(** [doc["_id"]] on the result of [find_one] *)
Definition subscript_id (doc : option document) : M value :=
  match doc with
  | None => raise (Py.TypeError "'NoneType' object is not subscriptable")
  | Some d =>
      match d !! "_id" with
      | Some v => ret v
      | None => raise (Py.OtherException "KeyError: '_id'")
      end
  end.

Definition find_by_url (url : string) : M (option document) :=
  try_except
    (_ ← get_collection;
     coll_find_one (mkQuery url []))
    (fun exc =>
       if Py.is_PyMongoError exc
       then Some (raise (Py.DatabaseError "find_by_url" (Py.str exc)))
       else None).

Definition upsert (url : string) (data : document) : M string :=
  try_except
    (now ← datetime_now;
     _ ← get_collection;
     result ← coll_update_one
       (mkQuery url [])
       (<["updated_at" := VTime now]>
          (<["status" := VStr "completed"]> (<["url" := VStr url]> data)))
       {["created_at" := VTime now]}
       true;
     doc_id ← match upserted_id result with
              | Some i => ret i
              | None =>
                  _ ← get_collection;
                  found ← coll_find_one (mkQuery url []);
                  subscript_id found
              end;
     ret (str_value doc_id))
    (fun exc =>
       match exc with
       | Py.DuplicateKeyError _ =>
           (* Race condition on concurrent upserts — safe to retry once *)
           Some (existing ← find_by_url url;
                 match existing with
                 | Some d => i ← subscript_id (Some d); ret (str_value i)
                 | None =>
                     raise (Py.DatabaseError "upsert"
                              ("Duplicate key conflict for " +:+ url))
                 end)
       | Py.PyMongoError _ =>
           Some (raise (Py.DatabaseError "upsert" (Py.str exc)))
       | _ => None
       end).

Definition mark_pending (url : string) : M bool :=
  try_except
    (now ← datetime_now;
     _ ← get_collection;
     result ← coll_update_one
       (mkQuery url ["completed"; "pending"])
       (<["updated_at" := VTime now]>
          (<["status" := VStr "pending"]> {["url" := VStr url]}))
       {["created_at" := VTime now]}
       true;
     let was_created := bool_decide (is_Some (upserted_id result)) in
     let was_modified := (0 <? modified_count result)%nat in
     if was_created || was_modified then ret true else ret false)
    (fun exc =>
       match exc with
       | Py.DuplicateKeyError _ =>
           (* Another request already created a record — safe to skip *)
           Some (ret false)
       | Py.PyMongoError _ =>
           Some (raise (Py.DatabaseError "mark_pending" (Py.str exc)))
       | _ => None
       end).

Definition mark_failed (url reason : string) : M unit :=
  try_except
    (_ ← get_collection;
     now ← datetime_now;
     _ ← coll_update_one
       (mkQuery url [])
       (<["updated_at" := VTime now]>
          (<["error" := VStr reason]> {["status" := VStr "failed"]}))
       ∅
       false;
     ret ())
    (fun exc =>
       (* the error is logged *)
       if Py.is_PyMongoError exc then Some (ret ()) else None).

End Repository.

(** ** [app/infrastructure/crawler/http_client.py] *)

Module Fetcher.
Import Sys.

(** HTTP status codes that indicate permanent failure (never retry) *)
Definition PERMANENT_STATUS_CODES : list Z :=
  [400; 401; 403; 404; 405; 406; 410; 414; 451]%Z.

(** HTTP status codes that indicate transient failure (worth retrying) *)
Definition TRANSIENT_STATUS_CODES : list Z :=
  [408; 429; 500; 502; 503; 504]%Z.

Definition status_in (l : list Z) (s : Z) : bool := bool_decide (s ∈ l).

Record CollectedData : Type := mkCollected {
  headers : gmap string string;
  cookies : gmap string string;
  page_source : string;
  status_code : Z
}.

(** [isinstance(exc, httpx.TimeoutException)] *)
Definition is_TimeoutException (c : httpx_class) : bool :=
  match c with
  | TimeoutException | ConnectTimeout | ReadTimeout | WriteTimeout
  | PoolTimeout => true
  | _ => false
  end.

(** The low-level texts that [fetch_url] takes for a failed DNS lookup. *)
Definition dns_failure_text (error_str : string) : bool :=
  Text.contains "name or service not known" error_str
  || Text.contains "nodename nor servname" error_str
  || Text.contains "no address associated" error_str
  || Text.contains "getaddrinfo failed" error_str.

(** [await client.get(url)] *)
Definition client_get (url : string) : M outcome :=
  fun w =>
    let n := w_net w in
    (Py.Ret (answers n (length (requests n)) url),
     set_net (fun _ => mkNet (answers n) (requests n ++ [url])) w).

Section WithSettings.
Variable settings : Settings.

(** The body of [fetch_url] once [client.get] has answered: the
    status tests on a response and the [except] clauses, in order. *)
Definition classify (url : string) (o : outcome) : Py.result CollectedData :=
  match o with
  | Responds response =>
      (* Classify HTTP status codes *)
      if status_in PERMANENT_STATUS_CODES (r_status_code response) then
        Py.Raise (Py.PermanentCollectionError url
                 ("HTTP " +:+ Text.str_of_Z (r_status_code response)
                  +:+ " — permanent failure"))
      else if status_in TRANSIENT_STATUS_CODES (r_status_code response) then
        Py.Raise (Py.TransientCollectionError url
                 ("HTTP " +:+ Text.str_of_Z (r_status_code response)
                  +:+ " — server error, retryable"))
      else
        Py.Ret (mkCollected (r_headers response) (r_cookies response)
                            (r_text response) (r_status_code response))
  | HttpxRaises cls msg =>
      if is_TimeoutException cls then
        Py.Raise (Py.TransientCollectionError url
                 ("Request timed out after "
                  +:+ Text.str_of_Z (http_timeout settings) +:+ "s"))
      else
        match cls with
        | TooManyRedirects =>
            Py.Raise (Py.PermanentCollectionError url "Too many redirects")
        | ConnectError =>
            (* DNS resolution failure for non-existent domains → permanent *)
            if dns_failure_text (Text.lower msg) then
              Py.Raise (Py.PermanentCollectionError url
                       ("DNS resolution failed — domain does not exist: " +:+ msg))
            else
              (* Other connection errors (refused, reset) → transient *)
              Py.Raise (Py.TransientCollectionError url
                       ("Connection failed: " +:+ msg))
        | HTTPStatusError status =>
            if status_in PERMANENT_STATUS_CODES status then
              Py.Raise (Py.PermanentCollectionError url
                       ("HTTP " +:+ Text.str_of_Z status))
            else if status_in TRANSIENT_STATUS_CODES status then
              Py.Raise (Py.TransientCollectionError url
                       ("HTTP " +:+ Text.str_of_Z status))
            else
              Py.Raise (Py.CollectionError url ("HTTP " +:+ Text.str_of_Z status))
        | _ =>
            (* any other httpx.HTTPError *)
            Py.Raise (Py.TransientCollectionError url msg)
        end
  | OtherRaises e => Py.Raise e
  end.

Definition fetch_url (url : string) : M CollectedData :=
  o ← client_get url;
  lift (classify url o).
End WithSettings.

End Fetcher.

(** ** [app/infrastructure/messaging/producer.py] *)

Module Producer.
Import Sys.

Definition with_producer (b : bool) (k : kafka) : kafka :=
  mkKafka b (topics k) (produce_faults k) (poll_events k) (position k)
          (committed k) (commit_faults k) (shutdown k).

Definition init_producer : M unit :=
  fun w => (Py.Ret (), set_kafka (with_producer true) w).

Definition close_producer : M unit :=
  fun w =>
    if producer (w_kafka w) then (Py.Ret (), set_kafka (with_producer false) w)
    else (Py.Ret (), w).

(** [_producer.produce(topic=..., value=...)]; [poll(0)] only runs
    delivery callbacks, which log. *)
Definition produce (topic : string) (value : payload) : M unit :=
  fun w =>
    let k := w_kafka w in
    match next_fault (produce_faults k) with
    | Some e =>
        (Py.Raise e,
         set_kafka (fun _ =>
           mkKafka (producer k) (topics k) (tail (produce_faults k))
                   (poll_events k) (position k) (committed k)
                   (commit_faults k) (shutdown k)) w)
    | None =>
        (Py.Ret (),
         set_kafka (fun _ =>
           mkKafka (producer k)
                   (<[topic := default [] (topics k !! topic) ++ [value]]> (topics k))
                   (tail (produce_faults k))
                   (poll_events k) (position k) (committed k)
                   (commit_faults k) (shutdown k)) w)
    end.

(** [_producer is None] *)
Definition producer_is_none : M bool :=
  fun w => (Py.Ret (negb (producer (w_kafka w))), w).

Section WithSettings.
Variable settings : Settings.

Definition enqueue (url : string) : M unit :=
  none ← producer_is_none;
  if none : bool then
    raise (Py.RuntimeError
      "Kafka producer is not initialized. Ensure init_producer() was called during startup.")
  else
    try_except
      (produce (kafka_topic settings) (Task (Some url) None None))
      (fun exc =>
         match exc with
         | Py.BufferError _ => Some (raise exc)
         | _ => None
         end).

Definition publish_with_retry (url : string) (retry_count : Z) : M unit :=
  none ← producer_is_none;
  if none : bool then
    raise (Py.RuntimeError "Kafka producer is not initialized.")
  else
    produce (kafka_topic settings) (Task (Some url) (Some retry_count) None).

Definition publish_to_dlq (url : string) (retry_count : Z) (error : string)
  : M unit :=
  none ← producer_is_none;
  if none : bool then
    raise (Py.RuntimeError "Kafka producer is not initialized.")
  else
    produce (kafka_dlq_topic settings)
            (Task (Some url) (Some retry_count) (Some error)).

(** [publish_to_dlq] when the caller hands it a [retry_count] that is
    not a number: [json.dumps] writes it as it came. *)
Definition publish_to_dlq_uncounted (url : string) (retry_count : not_a_number)
    (error : string) : M unit :=
  none ← producer_is_none;
  if none : bool then
    raise (Py.RuntimeError "Kafka producer is not initialized.")
  else
    produce (kafka_dlq_topic settings)
            (Uncounted (Some url) retry_count (Some error)).
End WithSettings.

End Producer.

(** ** [app/domain/models.py] and [app/domain/metadata_service.py] *)

Module Service.
Import Mongo Sys.

Record MetadataRecord : Type := mkRecord {
  id : string;
  url : value;
  headers : value;
  cookies : value;
  page_source : value;
  status_code : value;
  status : value;
  error : option value;
  created_at : option value;
  updated_at : option value
}.

(** [MetadataRecord.from_mongo] on a document (the field validation
    of the model class is not represented). *)
Definition from_mongo (doc : document) : MetadataRecord :=
  mkRecord
    (str_value (default (VStr "") (doc !! "_id")))
    (default (VStr "") (doc !! "url"))
    (default (VDict ∅) (doc !! "headers"))
    (default (VDict ∅) (doc !! "cookies"))
    (default (VStr "") (doc !! "page_source"))
    (default (VInt 0) (doc !! "status_code"))
    (default (VStr "pending") (doc !! "status"))
    (doc !! "error")
    (doc !! "created_at")
    (doc !! "updated_at").

(** The payload both callers of [upsert] prepare. *)
Definition payload_of (c : Fetcher.CollectedData) : document :=
  <["status_code" := VInt (Fetcher.status_code c)]>
    (<["page_source" := VStr (Fetcher.page_source c)]>
       (<["cookies" := VDict (Fetcher.cookies c)]>
          {["headers" := VDict (Fetcher.headers c)]})).

Section WithSettings.
Variable settings : Settings.
Variable bracketed_netloc_ok : string -> bool.

Definition create_metadata (raw_url : string) : M MetadataRecord :=
  url ← lift (UrlNormalizer.normalize_url bracketed_netloc_ok raw_url);
  collected ← Fetcher.fetch_url settings url;
  doc_id ← Repository.upsert url (payload_of collected);
  doc ← Repository.find_by_url url;
  match doc with
  | Some d => ret (from_mongo d)
  | None => raise (Py.ValueError "Cannot create MetadataRecord from None")
  end.

Definition get_metadata (raw_url : string)
  : M (option MetadataRecord * bool) :=
  url ← lift (UrlNormalizer.normalize_url bracketed_netloc_ok raw_url);
  (* Check the database *)
  doc ← Repository.find_by_url url;
  let miss : M (option MetadataRecord * bool) :=
    (* Cache miss — schedule background collection *)
    was_marked ← Repository.mark_pending url;
    _ ← (if was_marked : bool then
           try_except (Producer.enqueue settings url)
                      (fun exc => Some (ret ()))
         else ret ());
    ret (None, false) in
  match doc with
  | Some d =>
      if bool_decide (d !! "status" = Some (VStr "completed"))
      then ret (Some (from_mongo d), true)
      else miss
  | None => miss
  end.
End WithSettings.

End Service.

(** ** [app/worker/worker.py] and [app/infrastructure/messaging/consumer.py] *)

Module Consumer.
Import Mongo Sys.

Inductive polled : Type :=
| NoMessage
| ErrorEvent (e : poll_event)
| Message (offset : nat) (value : payload).

Definition with_consumer (events : list (option poll_event)) (pos : nat)
    (cm : list nat) (cf : list (option Py.exn)) (k : kafka) : kafka :=
  mkKafka (producer k) (topics k) (produce_faults k) events pos cm cf
          (shutdown k).

Section WithSettings.
Variable settings : Settings.

(** [consumer.poll(1.0)]: an event of the consumer, the next message
    of the subscribed topic, or nothing within the timeout. *)
Definition poll : M polled :=
  fun w =>
    let k := w_kafka w in
    match poll_events k with
    | Some e :: _ =>
        (Py.Ret (ErrorEvent e),
         set_kafka (with_consumer (tail (poll_events k)) (position k)
                                  (committed k) (commit_faults k)) w)
    | _ =>
        match default [] (topics k !! kafka_topic settings) !! position k with
        | Some v =>
            (Py.Ret (Message (position k) v),
             set_kafka (with_consumer (tail (poll_events k)) (S (position k))
                                      (committed k) (commit_faults k)) w)
        | None =>
            (Py.Ret NoMessage,
             set_kafka (with_consumer (tail (poll_events k)) (position k)
                                      (committed k) (commit_faults k)) w)
        end
    end.

(** [consumer.commit(message=msg)] *)
Definition commit (offset : nat) : M unit :=
  fun w =>
    let k := w_kafka w in
    match next_fault (commit_faults k) with
    | Some e =>
        (Py.Raise e,
         set_kafka (with_consumer (poll_events k) (position k) (committed k)
                                  (tail (commit_faults k))) w)
    | None =>
        (Py.Ret (),
         set_kafka (with_consumer (poll_events k) (position k)
                                  (committed k ++ [offset])
                                  (tail (commit_faults k))) w)
    end.

(** [process_url] of [worker.py] *)
Definition process_url (url : string) : M unit :=
  collected ← Fetcher.fetch_url settings url;
  doc_id ← Repository.upsert url (Service.payload_of collected);
  ret ().

Definition mark_failed_in_db (url reason : string) : M unit :=
  try_except (Repository.mark_failed url reason) (fun exc => Some (ret ())).

(** The dead-letter branch shared by the two handlers. *)
Definition to_dlq (url : string) (retry_count : Z) (error_msg : string)
  : M unit :=
  try_except
    (_ ← Producer.publish_to_dlq settings url retry_count error_msg;
     mark_failed_in_db url error_msg)
    (fun dlq_exc => Some (ret ())).

(** The body of the loop for a message that carries a URL. *)
Definition dispatch (offset : nat) (url : string) (retry_count : Z) : M unit :=
  try_except
    (_ ← process_url url;
     (* Success — commit offset *)
     commit offset)
    (fun exc =>
       match exc with
       | Py.PermanentCollectionError _ _ =>
           (* Non-retryable (404, bad DNS, etc) → DLQ immediately *)
           Some (_ ← to_dlq url retry_count (Py.str exc);
                 commit offset)
       | _ =>
           (* Retryable (5xx, timeout, etc) → retry up to max *)
           let retry_count := (retry_count + 1)%Z in
           Some (_ ← (if (kafka_max_retries settings <=? retry_count)%Z then
                        to_dlq url retry_count (Py.str exc)
                      else
                        try_except
                          (Producer.publish_with_retry settings url retry_count)
                          (fun retry_exc => Some (ret ())));
                 commit offset)
       end).

(** The [TypeError] of [retry_count += 1] on a value that is not a
    number. *)
Definition increment_error (v : not_a_number) : Py.exn :=
  Py.TypeError
    match v with
    | NullCount => "unsupported operand type(s) for +=: 'NoneType' and 'int'"
    | TextCount _ =>
        "can only concatenate str (not " +:+ String (ascii_of_nat 34) "int"
        +:+ String (ascii_of_nat 34) ") to str"
    | ArrayCount => "'int' object is not iterable"
    | ObjectCount => "unsupported operand type(s) for +=: 'dict' and 'int'"
    end.

(** The dead-letter branch when the [retry_count] read is not a
    number: it is handed to [publish_to_dlq] as it came. *)
Definition to_dlq_uncounted (url : string) (retry_count : not_a_number)
    (error_msg : string) : M unit :=
  try_except
    (_ ← Producer.publish_to_dlq_uncounted settings url retry_count error_msg;
     mark_failed_in_db url error_msg)
    (fun dlq_exc => Some (ret ())).

(** The body of the loop for a message that carries a URL and a
    [retry_count] that is not a number.  [retry_count += 1] raises
    inside the second handler, past the [try] it belongs to, so that
    the exception leaves the loop. *)
Definition dispatch_uncounted (offset : nat) (url : string)
    (retry_count : not_a_number) : M unit :=
  try_except
    (_ ← process_url url;
     (* Success — commit offset *)
     commit offset)
    (fun exc =>
       match exc with
       | Py.PermanentCollectionError _ _ =>
           (* Non-retryable (404, bad DNS, etc) → DLQ immediately *)
           Some (_ ← to_dlq_uncounted url retry_count (Py.str exc);
                 commit offset)
       | _ =>
           (* Retryable (5xx, timeout, etc) → retry up to max *)
           Some (raise (increment_error retry_count))
       end).

(** One turn of the [while] loop. *)
Definition iteration : M unit :=
  msg ← poll;
  match msg with
  | NoMessage => ret ()
  | ErrorEvent _ => ret ()
  | Message offset Undecodable => ret ()
  | Message offset (NotAnObject python_type) =>
      (* [data.get("url")]: not among the exceptions the [try] names *)
      raise (Py.OtherException
               ("AttributeError: '" +:+ python_type
                +:+ "' object has no attribute 'get'"))
  | Message offset (Task url retry_count _) =>
      match url with
      | None => ret ()
      | Some u =>
          if Text.is_empty u then ret ()
          else dispatch offset u (default 0%Z retry_count)
      end
  | Message offset (Uncounted url retry_count _) =>
      match url with
      | None => ret ()
      | Some u =>
          if Text.is_empty u then ret ()
          else dispatch_uncounted offset u retry_count
      end
  end.

(** [_consume_loop], for at most [fuel] turns. *)
Fixpoint consume_loop (fuel : nat) : M unit :=
  match fuel with
  | O => ret ()
  | S n =>
      fun w =>
        if shutdown (w_kafka w) then (Py.Ret (), w)
        else (_ ← iteration; consume_loop n) w
  end.
End WithSettings.

End Consumer.

(** ** Observations used in the statements *)

Module Obs.
Import Mongo Sys.

(** The world in which every request is answered by [o]. *)
Definition answering (o : outcome) (w : world) : world :=
  set_net (fun n => mkNet (fun _ _ => o) (requests n)) w.

Definition is_permanent {A} (r : Py.result A) : bool :=
  match r with
  | Py.Raise (Py.PermanentCollectionError _ _) => true
  | _ => false
  end.

Definition is_transient {A} (r : Py.result A) : bool :=
  match r with
  | Py.Raise (Py.TransientCollectionError _ _) => true
  | _ => false
  end.

(** The collection and the record stored for a URL. *)
Definition coll (w : world) : list document := docs (w_db w).

Definition record_of (url : string) (w : world) : option document :=
  Mongo.find_one (mkQuery url []) (coll w).

(** The invariant kept by the unique index on [url]. *)
Definition unique_urls (c : list document) : Prop :=
  NoDup ((λ d : document, d !! "url") <$> c).


(** The fault the store imposes on the next round trip, and on the one
    after it. *)
Definition db_fault (w : world) : option Py.exn :=
  next_fault (db_faults (w_db w)).

Definition db_fault_after (w : world) : option Py.exn :=
  next_fault (tail (db_faults (w_db w))).

Definition connected (w : world) : Prop := database (w_db w) = true.

(** The update document [upsert] sends. *)
Definition completed_fields (url : string) (now : Z) (data : document) : document :=
  <["updated_at" := VTime now]>
    (<["status" := VStr "completed"]> (<["url" := VStr url]> data)).

(** The store, the producer and the consumer meet no fault, and the
    process is up and running. *)
Record quiet (w : world) : Prop := mkQuiet {
  q_connected : database (w_db w) = true;
  q_db : db_faults (w_db w) = [];
  q_producer : producer (w_kafka w) = true;
  q_produce : produce_faults (w_kafka w) = [];
  q_poll : poll_events (w_kafka w) = [];
  q_commit : commit_faults (w_kafka w) = [];
  q_running : shutdown (w_kafka w) = false
}.

(** The messages of a topic, in publication order. *)
Definition topic_log (topic : string) (w : world) : list payload :=
  default [] (topics (w_kafka w) !! topic).

(** The text with which [httpx] reports a certificate that fails
    verification, as a [ConnectError]. *)
Definition tls_failure_text : string :=
  "[SSL: CERTIFICATE_VERIFY_FAILED] certificate verify failed: unable to get local issuer certificate (_ssl.c:1007)".

End Obs.

(** ** Worlds used to exercise the statements *)

Module Example.
Import Mongo Sys.

Definition url : string := "https://example.com/".

(** A stored record for [url] in the given state. *)
Definition doc (st : string) : document :=
  <["_id" := VOid 7]>
    (<["url" := VStr url]>
       (<["status" := VStr st]>
          (<["created_at" := VTime 5]> {["updated_at" := VTime 6]}))).

Definition hello : Response := mkResponse 200 ∅ ∅ "<html>Hello</html>".
Definition unavailable : Response := mkResponse 503 ∅ ∅ "".

Definition kafka0 (queued : list payload) : kafka :=
  mkKafka true {["metadata-tasks" := queued]} [] [] 0 [] [] false.

(** A connected store holding [c], with the given faults ahead, at time 10. *)
Definition world_with (c : list document) (faults : list (option Py.exn)) : world :=
  mkWorld (mkDb true c faults []) (kafka0 []) (mkNet (fun _ _ => Responds hello) []) 10.

Definition payload : document := {["page_source" := VStr "<html>Hello</html>"]}.

(** The process before [init_producer], or after [close_producer]. *)
Definition without_producer : world :=
  mkWorld (mkDb true [] [] [])
          (mkKafka false ∅ [] [] 0 [] [] false)
          (mkNet (fun _ _ => Responds hello) [])
          10.

(** Retries exhausted: the URL is queued, its record is pending, the target
    answers 503 to every request, and the settings are the defaults
    ([KAFKA_MAX_RETRIES = 3]). *)
Definition always_unavailable : world :=
  mkWorld (mkDb true [doc "pending"] [] [])
          (kafka0 [Task (Some url) None None])
          (mkNet (fun _ _ => Responds unavailable) [])
          10.

End Example.

(** ** What a computation may change *)

Module Frame.
Import Mongo Sys.

(** [moves R m]: running [m] takes every world to one related to it by
    [R], whether [m] returns or raises. *)
Definition moves {A} (R : world -> world -> Prop) (m : M A) : Prop :=
  forall w, R w (snd (m w)).

(** [preserves f m]: running [m] leaves the observation [f] as it was. *)
Definition preserves {A B} (f : world -> B) (m : M A) : Prop :=
  moves (fun w w' => f w' = f w) m.

(** One write on the record of [url]: a stored document of that URL is
    replaced by one with the same URL, identifier and creation time, or
    a document of that URL is appended when none is stored. *)
Inductive write (url : string) (c : list document) : list document -> Prop :=
| write_replace i d d' :
    c !! i = Some d ->
    d !! "url" = Some (VStr url) ->
    d' !! "url" = Some (VStr url) ->
    d' !! "_id" = d !! "_id" ->
    d' !! "created_at" = d !! "created_at" ->
    write url c (<[i := d']> c)
| write_append d' :
    find_one (mkQuery url []) c = None ->
    d' !! "url" = Some (VStr url) ->
    write url c (c ++ [d']).

(** Any number of such writes. *)
Definition writes (url : string) (w w' : world) : Prop :=
  rtc (write url) (docs (w_db w)) (docs (w_db w')).

(** The state of the queue that belongs to the consumer. *)
Definition consumer_state (w : world)
  : list (option poll_event) * nat * list nat * list (option Py.exn) * bool :=
  let k := w_kafka w in
  (poll_events k, position k, committed k, commit_faults k, shutdown k).

(** Changes confined to the store, to the network, to the topics. *)
Definition only_store (w w' : world) : Prop :=
  w_kafka w' = w_kafka w /\ w_net w' = w_net w /\ clock w' = clock w.

Definition only_net (w w' : world) : Prop :=
  w_db w' = w_db w /\ w_kafka w' = w_kafka w /\ clock w' = clock w.

Definition only_topics (w w' : world) : Prop :=
  w_db w' = w_db w /\ w_net w' = w_net w /\ clock w' = clock w
  /\ consumer_state w' = consumer_state w
  /\ producer (w_kafka w') = producer (w_kafka w).

Definition same_consumer (w w' : world) : Prop :=
  consumer_state w' = consumer_state w.

(** A completed record of [url] is still there, and still completed. *)
Definition stays_completed (url : string) (w w' : world) : Prop :=
  forall d,
    find_one (mkQuery url []) (docs (w_db w)) = Some d ->
    d !! "status" = Some (VStr "completed") ->
    exists d',
      find_one (mkQuery url []) (docs (w_db w')) = Some d'
      /\ d' !! "status" = Some (VStr "completed").

(** The queue (topics, producer and consumer) is as it was; no request
    was made. *)
Definition same_queue (w w' : world) : Prop := w_kafka w' = w_kafka w.

Definition same_net (w w' : world) : Prop := w_net w' = w_net w.

(** The connection is as it was, and a store with no fault ahead still
    has none ahead. *)
Definition same_link (w w' : world) : Prop :=
  database (w_db w') = database (w_db w)
  /\ (db_faults (w_db w) = [] -> db_faults (w_db w') = []).

End Frame.

(** ** Traces of the worker *)

Module Trace.
Import Sys.


(** A message that decodes to an object without a usable [url]. *)
Definition no_url (v : payload) : Prop :=
  match v with
  | Task u _ _ | Uncounted u _ _ => u = None \/ u = Some EmptyString
  | _ => False
  end.


End Trace.

(** ** Further worlds used to exercise the statements *)

Module Scenario.
Import Mongo Sys.

(** A running process with [c] stored and [queued] on the main topic,
    whose every request meets the outcome [o]. *)
Definition running (c : list document) (queued : list payload) (o : outcome)
  : world :=
  mkWorld (mkDb true c [] []) (Example.kafka0 queued) (mkNet (fun _ _ => o) []) 10.

Definition not_found : Response := mkResponse 404 ∅ ∅ "".

(** The same process when the next [commit] of the consumer fails. *)
Definition failing_commit (msg : string) (w : world) : world :=
  set_kafka (fun k => mkKafka (producer k) (topics k) (produce_faults k)
                              (poll_events k) (position k) (committed k)
                              [Some (Py.KafkaException msg)] (shutdown k)) w.

(** The process before [connect_to_mongo]. *)
Definition disconnected (w : world) : world :=
  set_db (fun d => mkDb false (docs d) (db_faults d) (db_calls d)) w.

(** A connected store that holds a pending record of the example URL
    and whose next round trips meet the given outcomes. *)
Definition store_with_faults (faults : list (option Py.exn)) : world :=
  Example.world_with [Example.doc "pending"] faults.

(** The driver error of a connection that drops. *)
Definition connection_closed : option Py.exn :=
  Some (Py.PyMongoError "connection closed").


End Scenario.

(** ** [app/infrastructure/db/mongo.py]: the connection life cycle *)

Module MongoLife.

(** What [_client.admin.command("ping")] meets: the server answers; the
    driver raises [ConnectionFailure] or [ServerSelectionTimeoutError];
    or it raises something else. *)
Inductive ping : Type :=
| Reached
| Unreachable (msg : string)
| Broken (e : Py.exn).

(** The two module-level references, the outcome of the [n]-th ping of
    the process, the number of pings made, and the delays slept, in
    seconds.  [base_delay] and the delays are finite floats, held as
    the rationals they denote. *)
Record state : Type := mkState {
  client : bool;
  database : bool;
  answers : nat -> ping;
  pinged : nat;
  slept : list QArith_base.Q
}.

(** One more client constructed and pinged. *)
Definition dialled (s : state) : state :=
  mkState true (database s) (answers s) (S (pinged s)) (slept s).

(** [float(2 ** e)], which the product of a float and an int computes
    first: the conversion raises from [2 ** 1024] on. *)
Definition float_of_power (e : Z) : Py.result QArith_base.Q :=
  if (1024 <=? e)%Z then
    Py.Raise (Py.OtherException "OverflowError: int too large to convert to float")
  else Py.Ret (QArith_base.inject_Z (2 ^ e)).

(** The largest finite float, and the numbers within its range.  A
    float times a power of two is exact as long as the product is in
    range; beyond it the product is infinite, which is not
    represented. *)
Definition float_max : QArith_base.Q :=
  QArith_base.inject_Z (2 ^ 1024 - 2 ^ 971).

Definition finite (q : QArith_base.Q) : Prop :=
  QArith_base.Qle (QArith_base.Qopp float_max) q /\ QArith_base.Qle q float_max.

(** The body of the [for] loop, for the [n] values of [attempt] that
    [range] has left. *)
Fixpoint attempts (max_retries : Z) (base_delay : QArith_base.Q) (n : nat) (attempt : Z)
    (s : state) : Py.result unit * state :=
  match n with
  | O => (Py.Ret (), s)
  | S n' =>
      match answers s (pinged s) with
      | Reached =>
          (* Verify the connection is alive *)
          (Py.Ret (),
           mkState true true (answers s) (S (pinged s)) (slept s))
      | Unreachable msg =>
          if (attempt =? max_retries)%Z then
            (Py.Raise (Py.PyMongoError
               ("Could not connect to MongoDB after "
                +:+ Text.str_of_Z max_retries +:+ " attempts")),
             dialled s)
          else
            (* [base_delay * (2 ** (attempt - 1))], inside the handler *)
            match float_of_power (attempt - 1) with
            | Py.Raise e => (Py.Raise e, dialled s)
            | Py.Ret power =>
                let delay := QArith_base.Qmult base_delay power in
                attempts max_retries base_delay n' (attempt + 1)
                  (mkState true (database s) (answers s) (S (pinged s))
                           (slept s ++ [delay]))
            end
      | Broken e => (Py.Raise e, dialled s)
      end
  end.

(** [connect_to_mongo]: [range(1, max_retries + 1)] has
    [max_retries] values, none when [max_retries] is not positive. *)
Definition connect_to_mongo (max_retries : Z) (base_delay : QArith_base.Q) (s : state)
  : Py.result unit * state :=
  attempts max_retries base_delay (Z.to_nat max_retries) 1 s.

Definition close_mongo (s : state) : Py.result unit * state :=
  if client s then
    (Py.Ret (), mkState false false (answers s) (pinged s) (slept s))
  else (Py.Ret (), s).

Definition get_database (s : state) : Py.result unit :=
  if database s then Py.Ret ()
  else Py.Raise (Py.RuntimeError
         "MongoDB is not connected. Ensure connect_to_mongo() has been called during application startup.").

(** The delays of a run of [k] failed attempts that started with
    [attempt = 1]: [base_delay], twice that, four times that, ... *)
Definition backoff (base_delay : QArith_base.Q) (k : nat) : list QArith_base.Q :=
  (fun j => QArith_base.Qmult base_delay (QArith_base.inject_Z (2 ^ Z.of_nat j))) <$> seq 0 k.

(** A process that has not connected, facing a server that does not
    answer the first [k] pings. *)
Definition down_for (k : nat) : state :=
  mkState false false
          (fun n => if (n <? k)%nat then Unreachable "connection refused"
                    else Reached)
          0 [].

End MongoLife.

(** ** Texts free of a fragment mark *)

Module Shape.

(** No [#] occurs in the text. *)
Definition clean (s : string) : Prop := Text.contains_char "#" s = false.

End Shape.

(** * Properties *)

(** ** The canonicalizer *)

Section NormalizerProperties.
Import UrlNormalizer.
Variable ok : string -> bool.

(** [urlparse] looks for parameters in the last path segment only: a
    trailing slash hides them, and stripping the slash exposes them. *)
Lemma urlparse_keeps_params_before_slash :
  UrlLib.urlparse ok "https://a.com/a;b/"
  = Py.Ret (UrlLib.mkParse "https" "a.com" "/a;b/" "" "" "").
Proof. reflexivity. Qed.

Lemma urlparse_splits_params_of_last_segment :
  UrlLib.urlparse ok "https://a.com/a;b"
  = Py.Ret (UrlLib.mkParse "https" "a.com" "/a" "b" "" "").
Proof. reflexivity. Qed.

(** C7. The canonicalizer yields the expected text on each of the nine
    inputs of the table of canonicalization cases. *)
Theorem normalize_url_table :
  normalize_url ok "google.com" = Py.Ret "https://google.com/"
  /\ normalize_url ok "HTTP://GOOGLE.COM/Path" = Py.Ret "http://google.com/Path"
  /\ normalize_url ok "http://google.com:80/path" = Py.Ret "http://google.com/path"
  /\ normalize_url ok "https://google.com:443/path" = Py.Ret "https://google.com/path"
  /\ normalize_url ok "http://google.com:8080/path"
     = Py.Ret "http://google.com:8080/path"
  /\ normalize_url ok "https://google.com/page#section"
     = Py.Ret "https://google.com/page"
  /\ normalize_url ok "https://google.com/search?z=1&a=2&m=3"
     = Py.Ret "https://google.com/search?a=2&m=3&z=1"
  /\ normalize_url ok "https://google.com/path/" = Py.Ret "https://google.com/path"
  /\ normalize_url ok "https://google.com" = Py.Ret "https://google.com/".
Proof. repeat split; vm_compute; reflexivity. Qed.

(** Each expected text of the table is a fixed point. *)
Lemma normalize_url_table_fixed_points :
  Forall (fun u => normalize_url ok u = Py.Ret u)
    ["https://google.com/"; "http://google.com/Path"; "http://google.com/path";
     "https://google.com/path"; "http://google.com:8080/path";
     "https://google.com/page"; "https://google.com/search?a=2&m=3&z=1"].
Proof. repeat constructor. Qed.

(** C6. Canonicalizing twice differs from canonicalizing once on
    [https://a.com/a;b/]: the first pass strips the trailing slash and
    keeps [;b], the second pass reads [;b] as parameters and drops it. *)
Theorem normalize_url_not_idempotent :
  normalize_url ok "https://a.com/a;b/" = Py.Ret "https://a.com/a;b"
  /\ normalize_url ok "https://a.com/a;b" = Py.Ret "https://a.com/a"
  /\ (normalize_url ok "https://a.com/a;b/" ≫= normalize_url ok)
     <> normalize_url ok "https://a.com/a;b/".
Proof. repeat split; vm_compute; congruence. Qed.
End NormalizerProperties.

(** ** The fetcher *)

Section FetcherProperties.
Import Sys Fetcher Obs.
Variable settings : Settings.

Lemma fetch_url_classify url w :
  fst (fetch_url settings url w)
  = classify settings url (answers (w_net w) (length (requests (w_net w))) url).
Proof. reflexivity. Qed.

(** On a final response the classification is by the two sets of status
    codes, and every other status is a success carrying the response. *)
Lemma classify_response url r :
  (is_permanent (classify settings url (Responds r)) = true
   <-> r_status_code r ∈ PERMANENT_STATUS_CODES)
  /\ (is_transient (classify settings url (Responds r)) = true
      <-> r_status_code r ∈ TRANSIENT_STATUS_CODES)
  /\ (r_status_code r ∉ PERMANENT_STATUS_CODES ->
      r_status_code r ∉ TRANSIENT_STATUS_CODES ->
      classify settings url (Responds r)
      = Py.Ret (mkCollected (r_headers r) (r_cookies r) (r_text r)
                            (r_status_code r))).
Proof.
  unfold classify, status_in.
  assert (Hd : r_status_code r ∈ PERMANENT_STATUS_CODES ->
               r_status_code r ∈ TRANSIENT_STATUS_CODES -> False).
  { unfold PERMANENT_STATUS_CODES, TRANSIENT_STATUS_CODES.
    rewrite !elem_of_cons, !elem_of_nil. lia. }
  repeat case_bool_decide; simpl; repeat split; intros; try done;
    exfalso; eauto.
Qed.

(** When [httpx] raises, a permanent failure comes from exactly three
    places: the redirect limit, a connect error whose text names a failed
    DNS lookup, and a status error with a permanent code. *)
Lemma classify_httpx_permanent url cls msg :
  is_permanent (classify settings url (HttpxRaises cls msg)) = true
  <-> cls = TooManyRedirects
      \/ (cls = ConnectError /\ dns_failure_text (Text.lower msg) = true)
      \/ (exists st, cls = HTTPStatusError st /\ st ∈ PERMANENT_STATUS_CODES).
Proof.
  unfold classify, status_in. split.
  - destruct cls; simpl; try done; auto.
    + destruct (dns_failure_text _); simpl; auto; done.
    + repeat case_bool_decide; simpl; try done. eauto.
  - intros [-> | [[-> Hd] | [st [-> Hst]]]]; simpl; auto.
    + by rewrite Hd.
    + by rewrite bool_decide_eq_true_2.
Qed.

(** A timeout and a connect error without such a text are transient. *)
Lemma classify_httpx_timeout url cls msg :
  is_TimeoutException cls = true ->
  is_transient (classify settings url (HttpxRaises cls msg)) = true.
Proof. intros H. unfold classify. by rewrite H. Qed.

Lemma classify_connect_error url msg :
  dns_failure_text (Text.lower msg) = false ->
  classify settings url (HttpxRaises ConnectError msg)
  = Py.Raise (Py.TransientCollectionError url ("Connection failed: " +:+ msg)).
Proof. intros H. unfold classify. simpl. by rewrite H. Qed.

(** C5. A TLS verification failure reaches [fetch_url] as a connect
    error whose text names no DNS lookup; [fetch_url] raises a transient
    failure for it, not a permanent one. *)
Theorem fetch_url_tls_failure_is_transient url w :
  fst (fetch_url settings url
         (answering (HttpxRaises ConnectError tls_failure_text) w))
  = Py.Raise (Py.TransientCollectionError url
                ("Connection failed: " +:+ tls_failure_text))
  /\ is_permanent
       (fst (fetch_url settings url
               (answering (HttpxRaises ConnectError tls_failure_text) w)))
     = false.
Proof. split; reflexivity. Qed.

End FetcherProperties.

(** ** The producer *)

Section ProducerProperties.
Import Sys Producer.
Variable settings : Settings.

Lemma close_producer_none w : producer (w_kafka (snd (close_producer w))) = false.
Proof.
  unfold close_producer. destruct (producer (w_kafka w)) eqn:E; simpl; auto.
Qed.

Lemma init_producer_some w : producer (w_kafka (snd (init_producer w))) = true.
Proof. reflexivity. Qed.

(** C10. While the producer handle is [None], each of the three publish
    operations raises [RuntimeError] and leaves the world, hence every
    topic, as it was. *)
Theorem publish_without_producer url retry_count error w :
  producer (w_kafka w) = false ->
  enqueue settings url w
  = (Py.Raise (Py.RuntimeError
       "Kafka producer is not initialized. Ensure init_producer() was called during startup."), w)
  /\ publish_with_retry settings url retry_count w
     = (Py.Raise (Py.RuntimeError "Kafka producer is not initialized."), w)
  /\ publish_to_dlq settings url retry_count error w
     = (Py.Raise (Py.RuntimeError "Kafka producer is not initialized."), w).
Proof.
  intros H.
  unfold enqueue, publish_with_retry, publish_to_dlq, producer_is_none.
  unfold mbind, M_bind, bind. rewrite H. simpl. auto.
Qed.

End ProducerProperties.

Lemma publish_without_producer_witness :
  Producer.enqueue Sys.default_settings Example.url Example.without_producer
  = (Py.Raise (Py.RuntimeError
       "Kafka producer is not initialized. Ensure init_producer() was called during startup."),
     Example.without_producer)
  /\ Sys.topics (Sys.w_kafka
        (snd (Producer.publish_to_dlq Sys.default_settings Example.url 3 "HTTP 503"
                Example.without_producer))) = ∅.
Proof.
  destruct (publish_without_producer Sys.default_settings Example.url 3
              "HTTP 503" Example.without_producer eq_refl) as (He & _ & Hd).
  split; [exact He|]. by rewrite Hd.
Defined.

(** ** The collection *)

Section MongoProperties.
Import Mongo Sys Obs.

Lemma matches_url_only u d : matches (mkQuery u []) d = has_url u d.
Proof.
  unfold matches; simpl.
  replace (status_in [] d) with false; [by rewrite andb_true_r|].
  unfold status_in. by destruct (d !! "status") as [[]|].
Qed.

Lemma matches_has_url q d : matches q d -> has_url (q_url q) d.
Proof. unfold matches. intros H. apply andb_prop_elim in H. tauto. Qed.

Lemma has_url_lookup u d : has_url u d <-> d !! "url" = Some (VStr u).
Proof. unfold has_url. apply bool_decide_spec. Qed.

Lemma find_one_Some u c d :
  find_one (mkQuery u []) c = Some d <->
  exists i, list_find (λ d, matches (mkQuery u []) d) c = Some (i, d).
Proof.
  unfold find_one. split.
  - destruct (list_find _ c) as [[i x]|]; simpl; [|done].
    intros [= ->]. eauto.
  - intros [i ->]. done.
Qed.

Lemma find_one_None u c :
  find_one (mkQuery u []) c = None <->
  list_find (λ d, matches (mkQuery u []) d) c = None.
Proof.
  unfold find_one. destruct (list_find _ c) as [[i x]|]; simpl; split; done.
Qed.

(** No stored document carries the identifier [fresh_oid] computes. *)
Lemma oid_bound_le c d : d ∈ c -> oid_bound d <= fresh_oid c.
Proof.
  induction c as [|x c IH]; [by intros ?%elem_of_nil|].
  intros [->|H]%elem_of_cons; simpl; [lia|].
  specialize (IH H). lia.
Qed.

Lemma fresh_oid_not_taken c :
  key_taken "_id" (Some (VOid (fresh_oid c))) c = false.
Proof.
  unfold key_taken. apply not_true_iff_false. intros H.
  apply existsb_exists in H as (d & Hin & Hd).
  apply bool_decide_eq_true in Hd.
  apply list_elem_of_In in Hin. apply oid_bound_le in Hin.
  unfold oid_bound in Hin. rewrite Hd in Hin. lia.
Qed.

Lemma key_taken_url_true u c i d :
  c !! i = Some d -> d !! "url" = Some (VStr u) ->
  key_taken "url" (Some (VStr u)) c = true.
Proof.
  intros Hi Hd. unfold key_taken. apply existsb_exists.
  exists d. split; [|by apply bool_decide_eq_true].
  apply list_elem_of_In. by eapply list_elem_of_lookup_2.
Qed.

Lemma key_taken_url_false u c :
  find_one (mkQuery u []) c = None ->
  key_taken "url" (Some (VStr u)) c = false.
Proof.
  intros H%find_one_None. rewrite list_find_None in H.
  unfold key_taken. apply not_true_iff_false. intros Hk.
  apply existsb_exists in Hk as (d & Hin & Hd).
  apply bool_decide_eq_true in Hd.
  apply list_elem_of_In in Hin.
  rewrite Forall_forall in H. apply (H d Hin).
  rewrite matches_url_only. by apply has_url_lookup.
Qed.

(** The conditional filter of [mark_pending] against the plain lookup. *)
Lemma conditional_find_None u l c :
  find_one (mkQuery u []) c = None ->
  list_find (λ d, matches (mkQuery u l) d) c = None.
Proof.
  intros H%find_one_None. rewrite list_find_None in *.
  eapply Forall_impl; [exact H|]. intros d Hd Hm. apply Hd.
  rewrite matches_url_only. by apply matches_has_url in Hm.
Qed.

Lemma conditional_find_Some u l c i d :
  list_find (λ d, matches (mkQuery u []) d) c = Some (i, d) ->
  status_in l d = false ->
  list_find (λ d, matches (mkQuery u l) d) c = Some (i, d).
Proof.
  rewrite !list_find_Some. intros (Hi & Hm & Hlt) Hs. split_and!; [done| |].
  - rewrite matches_url_only in Hm. unfold matches. simpl. rewrite Hs.
    by rewrite andb_true_r.
  - intros j y Hj Hji Hy. apply (Hlt j y Hj Hji).
    rewrite matches_url_only. by apply matches_has_url in Hy.
Qed.

Lemma conditional_find_blocked u l c i d :
  unique_urls c ->
  list_find (λ d, matches (mkQuery u []) d) c = Some (i, d) ->
  status_in l d = true ->
  list_find (λ d, matches (mkQuery u l) d) c = None.
Proof.
  intros Hu (Hi & Hm & _)%list_find_Some Hs.
  rewrite matches_url_only in Hm. apply has_url_lookup in Hm.
  apply list_find_None, Forall_forall. intros y Hy Hmy.
  apply list_elem_of_lookup in Hy as [j Hj].
  pose proof (matches_has_url _ _ Hmy) as Hyu. simpl in Hyu.
  apply has_url_lookup in Hyu.
  assert (j = i) as ->.
  { eapply (NoDup_lookup _ j i (Some (VStr u))); [exact Hu| |];
      rewrite list_lookup_fmap; [rewrite Hj|rewrite Hi]; simpl; congruence. }
  assert (y = d) as -> by congruence.
  unfold matches in Hmy. cbn [q_url q_status_nin] in Hmy.
  rewrite Hs in Hmy. simpl in Hmy. by rewrite andb_false_r in Hmy.
Qed.

(** [update_one] on a matching document: the fields of [$set] are laid
    over it, in place. *)
Lemma update_one_matched q set oi up c i d :
  list_find (λ d, matches q d) c = Some (i, d) ->
  dom set ∩ dom oi = ∅ ->
  set !! "_id" = None ->
  (set ∪ d) !! "url" = d !! "url" ->
  update_one q set oi up c
  = Py.Ret (mkUpdateResult 1 (if bool_decide (set ∪ d = d) then 0 else 1) None,
            <[i := set ∪ d]> c).
Proof.
  intros Hf Hdom Hid Hurl. unfold update_one.
  rewrite bool_decide_eq_false_2 by (intros H; by apply H).
  rewrite Hf.
  rewrite bool_decide_eq_false_2
    by (intros H; apply H; by rewrite lookup_union_r).
  rewrite (bool_decide_eq_false_2 (_ !! "url" ≠ _)) by (intros H; by apply H).
  done.
Qed.

(** [update_one] with [upsert] and no match: a new document is appended,
    unless the unique index on [url] refuses it. *)
Lemma update_one_inserted q set oi c :
  list_find (λ d, matches q d) c = None ->
  dom set ∩ dom oi = ∅ ->
  (oi ∪ (set ∪ {["url" := VStr (q_url q)]})) !! "_id" = None ->
  (oi ∪ (set ∪ {["url" := VStr (q_url q)]})) !! "url" = Some (VStr (q_url q)) ->
  key_taken "url" (Some (VStr (q_url q))) c = false ->
  update_one q set oi true c
  = Py.Ret (mkUpdateResult 0 0 (Some (VOid (fresh_oid c))),
            c ++ [<["_id" := VOid (fresh_oid c)]>
                    (oi ∪ (set ∪ {["url" := VStr (q_url q)]}))]).
Proof.
  intros Hf Hdom Hid Hurl Hk. unfold update_one.
  rewrite bool_decide_eq_false_2 by (intros H; by apply H).
  rewrite Hf, Hid.
  rewrite lookup_insert_ne by done. rewrite Hurl, Hk.
  rewrite lookup_insert_eq, fresh_oid_not_taken. done.
Qed.

Lemma update_one_duplicate q set oi c :
  list_find (λ d, matches q d) c = None ->
  dom set ∩ dom oi = ∅ ->
  (oi ∪ (set ∪ {["url" := VStr (q_url q)]})) !! "_id" = None ->
  (oi ∪ (set ∪ {["url" := VStr (q_url q)]})) !! "url" = Some (VStr (q_url q)) ->
  key_taken "url" (Some (VStr (q_url q))) c = true ->
  update_one q set oi true c
  = Py.Raise (Py.DuplicateKeyError "E11000 duplicate key error").
Proof.
  intros Hf Hdom Hid Hurl Hk. unfold update_one.
  rewrite bool_decide_eq_false_2 by (intros H; by apply H).
  rewrite Hf, Hid.
  rewrite lookup_insert_ne by done. rewrite Hurl, Hk. done.
Qed.

Lemma update_one_absent q set oi c :
  list_find (λ d, matches q d) c = None ->
  dom set ∩ dom oi = ∅ ->
  update_one q set oi false c = Py.Ret (mkUpdateResult 0 0 None, c).
Proof.
  intros Hf Hdom. unfold update_one.
  rewrite bool_decide_eq_false_2 by (intros H; by apply H).
  by rewrite Hf.
Qed.

End MongoProperties.

(** ** The repository *)

Section RepositoryProperties.
Import Mongo Sys Repository Obs.

Lemma round_trip_fault {A} call (op : list document -> Py.result (A * list document)) w e :
  db_fault w = Some e ->
  round_trip call op w = (Py.Raise e, logged call (coll w) w).
Proof. unfold db_fault, round_trip. by intros ->. Qed.

Lemma round_trip_run {A} call (op : list document -> Py.result (A * list document)) w :
  db_fault w = None ->
  round_trip call op w
  = match op (coll w) with
    | Py.Ret (a, c) => (Py.Ret a, logged call c w)
    | Py.Raise e => (Py.Raise e, logged call (coll w) w)
    end.
Proof. unfold db_fault, round_trip. by intros ->. Qed.

Lemma coll_logged call c w : coll (logged call c w) = c.
Proof. reflexivity. Qed.

Lemma find_one_replaced u c i d d' :
  list_find (λ d, matches (mkQuery u []) d) c = Some (i, d) ->
  d' !! "url" = Some (VStr u) ->
  find_one (mkQuery u []) (<[i := d']> c) = Some d'.
Proof.
  intros Hf Hd'. apply find_one_Some. exists i.
  apply list_find_insert_Some. right. left.
  apply list_find_Some in Hf as (Hi & Hm & Hlt).
  repeat split; try done.
  - by eapply lookup_lt_Some.
  - rewrite matches_url_only. by apply has_url_lookup.
Qed.

Lemma find_one_appended u c d' :
  find_one (mkQuery u []) c = None ->
  d' !! "url" = Some (VStr u) ->
  find_one (mkQuery u []) (c ++ [d']) = Some d'.
Proof.
  intros Hf%find_one_None Hd'. unfold find_one.
  rewrite list_find_app_r by done. simpl.
  rewrite decide_True; [done|].
  rewrite matches_url_only. by apply has_url_lookup.
Qed.

(** The four outcomes of [mark_pending]. *)
Lemma mark_pending_absent url w :
  connected w -> db_fault w = None -> record_of url w = None ->
  exists call d',
    mark_pending url w = (Py.Ret true, logged call (coll w ++ [d']) w)
    /\ d' !! "url" = Some (VStr url)
    /\ d' !! "status" = Some (VStr "pending")
    /\ d' !! "created_at" = Some (VTime (clock w))
    /\ d' !! "updated_at" = Some (VTime (clock w)).
Proof.
  intros Hc Hq Hr.
  unfold mark_pending, try_except, mbind, M_bind, bind, datetime_now, get_collection.
  rewrite Hc. unfold coll_update_one. rewrite round_trip_run by done.
  erewrite update_one_inserted.
  - cbn [upserted_id modified_count]. do 2 eexists. split; [reflexivity|].
    repeat split; reflexivity.
  - by apply conditional_find_None.
  - reflexivity.
  - reflexivity.
  - reflexivity.
  - by apply key_taken_url_false.
Qed.

Lemma status_in_pending_false d :
  status_in ["completed"; "pending"] d = false ->
  d !! "status" <> Some (VStr "pending").
Proof.
  unfold status_in. intros H Hs. rewrite Hs in H.
  apply bool_decide_eq_false in H. apply H. set_solver.
Qed.

Lemma mark_pending_transition url w d :
  connected w -> db_fault w = None -> record_of url w = Some d ->
  status_in ["completed"; "pending"] d = false ->
  exists call i d',
    coll w !! i = Some d
    /\ mark_pending url w = (Py.Ret true, logged call (<[i := d']> (coll w)) w)
    /\ record_of url (logged call (<[i := d']> (coll w)) w) = Some d'
    /\ d' !! "status" = Some (VStr "pending")
    /\ d' !! "updated_at" = Some (VTime (clock w))
    /\ (forall k, k <> "status" -> k <> "updated_at" -> d' !! k = d !! k).
Proof.
  intros Hc Hq Hr Hs.
  apply find_one_Some in Hr as [i Hf].
  pose proof Hf as (Hi & Hm & _)%list_find_Some.
  rewrite matches_url_only in Hm. apply has_url_lookup in Hm.
  unfold mark_pending, try_except, mbind, M_bind, bind, datetime_now, get_collection.
  rewrite Hc. unfold coll_update_one. rewrite round_trip_run by done.
  set (upd := <["updated_at" := VTime (clock w)]> _).
  assert (Hurl : (upd ∪ d) !! "url" = Some (VStr url))
    by (by apply lookup_union_Some_l).
  assert (Hst : (upd ∪ d) !! "status" = Some (VStr "pending"))
    by (by apply lookup_union_Some_l).
  erewrite update_one_matched; [| by eapply conditional_find_Some | done | done
                                | by rewrite Hurl].
  rewrite (bool_decide_eq_false_2 (upd ∪ d = d)); cycle 1.
  { intros Heq. rewrite Heq in Hst. by apply status_in_pending_false in Hs. }
  cbn [upserted_id modified_count]. eexists; exists i, (upd ∪ d).
  split; [done|]. split; [reflexivity|].
  split; [by eapply find_one_replaced|]. split; [done|].
  split; [by apply lookup_union_Some_l|].
  intros k Hk1 Hk2. destruct (decide (k = "url")) as [->|Hk3]; [congruence|].
  apply lookup_union_r. subst upd.
  by rewrite !lookup_insert_ne, lookup_singleton_ne.
Qed.

Lemma mark_pending_blocked url w d :
  connected w -> db_fault w = None -> unique_urls (coll w) ->
  record_of url w = Some d ->
  status_in ["completed"; "pending"] d = true ->
  exists call, mark_pending url w = (Py.Ret false, logged call (coll w) w).
Proof.
  intros Hc Hq Hu Hr Hs.
  apply find_one_Some in Hr as [i Hf].
  pose proof Hf as (Hi & Hm & _)%list_find_Some.
  rewrite matches_url_only in Hm. apply has_url_lookup in Hm.
  unfold mark_pending, try_except, mbind, M_bind, bind, datetime_now, get_collection.
  rewrite Hc. unfold coll_update_one. rewrite round_trip_run by done.
  erewrite update_one_duplicate;
    [| by eapply conditional_find_blocked | reflexivity | reflexivity
     | reflexivity | by eapply key_taken_url_true].
  eexists. reflexivity.
Qed.

Lemma mark_pending_fault url w e :
  connected w -> db_fault w = Some e ->
  exists call,
    mark_pending url w
    = (match e with
       | Py.DuplicateKeyError _ => Py.Ret false
       | Py.PyMongoError _ => Py.Raise (Py.DatabaseError "mark_pending" (Py.str e))
       | _ => Py.Raise e
       end, logged call (coll w) w).
Proof.
  intros Hc Hq.
  unfold mark_pending, try_except, mbind, M_bind, bind, datetime_now, get_collection.
  rewrite Hc. unfold coll_update_one. rewrite (round_trip_fault _ _ _ e) by done.
  eexists. destruct e; reflexivity.
Qed.

Lemma completed_fields_lookup url now data k :
  completed_fields url now data !! k
  = if decide (k = "updated_at") then Some (VTime now)
    else if decide (k = "status") then Some (VStr "completed")
    else if decide (k = "url") then Some (VStr url)
    else data !! k.
Proof.
  unfold completed_fields.
  destruct (decide (k = "updated_at")) as [->|]; [by rewrite lookup_insert_eq|].
  rewrite lookup_insert_ne by done.
  destruct (decide (k = "status")) as [->|]; [by rewrite lookup_insert_eq|].
  rewrite lookup_insert_ne by done.
  destruct (decide (k = "url")) as [->|]; [by rewrite lookup_insert_eq|].
  by rewrite lookup_insert_ne.
Qed.

Lemma completed_fields_no_conflict url now data t :
  data !! "created_at" = None ->
  dom (completed_fields url now data) ∩ dom ({["created_at" := t]} : document) = ∅.
Proof.
  intros H%not_elem_of_dom. unfold completed_fields.
  rewrite !dom_insert_L, dom_singleton_L.
  apply elem_of_equiv_empty_L.
  intros x [Hx ->%elem_of_singleton]%elem_of_intersection.
  rewrite !elem_of_union, !elem_of_singleton in Hx.
  by destruct Hx as [?|[?|[?|?]]].
Qed.


Lemma db_fault_logged call c w : db_fault (logged call c w) = db_fault_after w.
Proof. reflexivity. Qed.

Lemma connected_logged call c w : connected (logged call c w) <-> connected w.
Proof. reflexivity. Qed.

Lemma find_by_url_run url w :
  connected w -> db_fault w = None ->
  find_by_url url w
  = (Py.Ret (record_of url w), logged (CallFindOne (mkQuery url [])) (coll w) w).
Proof.
  intros Hc Hq.
  unfold find_by_url, try_except, mbind, M_bind, bind, get_collection.
  rewrite Hc. unfold coll_find_one. by rewrite round_trip_run.
Qed.

Lemma find_by_url_fault url w e :
  connected w -> db_fault w = Some e ->
  find_by_url url w
  = (if Py.is_PyMongoError e
     then Py.Raise (Py.DatabaseError "find_by_url" (Py.str e))
     else Py.Raise e,
     logged (CallFindOne (mkQuery url [])) (coll w) w).
Proof.
  intros Hc Hq.
  unfold find_by_url, try_except, mbind, M_bind, bind, get_collection.
  rewrite Hc. unfold coll_find_one. rewrite (round_trip_fault _ _ _ e) by done.
  by destruct e.
Qed.

Lemma upsert_updates url data w d :
  connected w -> db_fault w = None -> db_fault_after w = None ->
  record_of url w = Some d ->
  data !! "_id" = None -> data !! "created_at" = None ->
  exists i d' w',
    coll w !! i = Some d
    /\ upsert url data w
       = (match d !! "_id" with
          | Some oid => Py.Ret (str_value oid)
          | None => Py.Raise (Py.OtherException "KeyError: '_id'")
          end, w')
    /\ coll w' = <[i := d']> (coll w)
    /\ record_of url w' = Some d'
    /\ d' !! "_id" = d !! "_id"
    /\ d' !! "created_at" = d !! "created_at"
    /\ (forall k, k <> "_id" -> k <> "created_at" ->
                  d' !! k = (completed_fields url (clock w) data ∪ d) !! k).
Proof.
  intros Hc Hq Hq2 Hr Hid Hca.
  apply find_one_Some in Hr as [i Hf].
  pose proof Hf as (Hi & Hm & _)%list_find_Some.
  rewrite matches_url_only in Hm. apply has_url_lookup in Hm.
  unfold upsert, try_except, mbind, M_bind, bind, datetime_now, get_collection.
  rewrite Hc. unfold coll_update_one. rewrite round_trip_run by done.
  fold (completed_fields url (clock w) data).
  set (upd := completed_fields url (clock w) data).
  assert (Hurl : (upd ∪ d) !! "url" = Some (VStr url)).
  { apply lookup_union_Some_l. subst upd. by rewrite completed_fields_lookup. }
  assert (Hnid : upd !! "_id" = None)
    by (subst upd; by rewrite completed_fields_lookup).
  assert (Hnca : upd !! "created_at" = None)
    by (subst upd; by rewrite completed_fields_lookup).
  erewrite update_one_matched;
    [| exact Hf | by apply completed_fields_no_conflict | done | by rewrite Hurl].
  cbn [upserted_id].
  assert (Hc' : forall call c, database (w_db (logged call c w)) = true) by done.
  rewrite Hc'. unfold coll_find_one.
  rewrite round_trip_run by (by rewrite db_fault_logged).
  rewrite coll_logged.
  erewrite (find_one_replaced url (coll w) i d (upd ∪ d)) by done.
  cbn [subscript_id]. rewrite (lookup_union_r upd d "_id") by done.
  exists i, (upd ∪ d). eexists. split; [done|].
  split; [destruct (d !! "_id"); reflexivity|].
  split; [done|].
  split; [unfold record_of; rewrite coll_logged; by eapply find_one_replaced|].
  split; [by rewrite lookup_union_r|].
  split; [by rewrite lookup_union_r|]. done.
Qed.


Lemma upsert_fault url data w e :
  connected w -> db_fault w = Some (Py.PyMongoError e) ->
  exists call,
    upsert url data w
    = (Py.Raise (Py.DatabaseError "upsert" e), logged call (coll w) w).
Proof.
  intros Hc Hq.
  unfold upsert, try_except, mbind, M_bind, bind, datetime_now, get_collection.
  rewrite Hc. unfold coll_update_one.
  rewrite (round_trip_fault _ _ _ (Py.PyMongoError e)) by done.
  eexists. reflexivity.
Qed.

(** [mark_failed] on a stored record, and under a fault. *)
Lemma mark_failed_run url reason w d :
  connected w -> db_fault w = None -> record_of url w = Some d ->
  exists call i d',
    coll w !! i = Some d
    /\ mark_failed url reason w = (Py.Ret (), logged call (<[i := d']> (coll w)) w)
    /\ record_of url (logged call (<[i := d']> (coll w)) w) = Some d'
    /\ d' !! "status" = Some (VStr "failed")
    /\ d' !! "error" = Some (VStr reason)
    /\ d' !! "updated_at" = Some (VTime (clock w))
    /\ (forall k, k <> "status" -> k <> "error" -> k <> "updated_at" ->
                  d' !! k = d !! k).
Proof.
  intros Hc Hq Hr.
  apply find_one_Some in Hr as [i Hf].
  pose proof Hf as (Hi & Hm & _)%list_find_Some.
  rewrite matches_url_only in Hm. apply has_url_lookup in Hm.
  unfold mark_failed, try_except, mbind, M_bind, bind, datetime_now, get_collection.
  rewrite Hc. unfold coll_update_one. rewrite round_trip_run by done.
  set (upd := <["updated_at" := VTime (clock w)]> _).
  erewrite update_one_matched;
    [| exact Hf | by rewrite dom_empty_L, intersection_empty_r_L | done
     | by rewrite lookup_union_r].
  eexists; exists i, (upd ∪ d).
  split; [done|]. split; [reflexivity|].
  split; [unfold record_of; rewrite coll_logged;
          eapply find_one_replaced; [done| by rewrite lookup_union_r]|].
  split; [by apply lookup_union_Some_l|].
  split; [by apply lookup_union_Some_l|].
  split; [by apply lookup_union_Some_l|].
  intros k Hk1 Hk2 Hk3. apply lookup_union_r. subst upd.
  by rewrite !lookup_insert_ne, lookup_singleton_ne.
Qed.

Lemma mark_failed_absent url reason w :
  connected w -> db_fault w = None -> record_of url w = None ->
  exists call, mark_failed url reason w = (Py.Ret (), logged call (coll w) w).
Proof.
  intros Hc Hq Hr.
  unfold mark_failed, try_except, mbind, M_bind, bind, datetime_now, get_collection.
  rewrite Hc. unfold coll_update_one. rewrite round_trip_run by done.
  erewrite update_one_absent;
    [| by apply conditional_find_None | by rewrite dom_empty_L, intersection_empty_r_L].
  eexists. reflexivity.
Qed.

Lemma mark_failed_fault url reason w e :
  connected w -> db_fault w = Some e ->
  exists call,
    mark_failed url reason w
    = (if Py.is_PyMongoError e then Py.Ret () else Py.Raise e,
       logged call (coll w) w).
Proof.
  intros Hc Hq.
  unfold mark_failed, try_except, mbind, M_bind, bind, datetime_now, get_collection.
  rewrite Hc. unfold coll_update_one. rewrite (round_trip_fault _ _ _ e) by done.
  eexists. by destruct e.
Qed.

End RepositoryProperties.

(** ** The store adapter, operation by operation *)

Section StoreAdapter.
Import Mongo Sys Repository Obs.

(** C3. [mark_pending] returns true and inserts a pending record stamped
    with the current time when no record exists; returns true and moves a
    failed record to pending, refreshing [updated_at] only; returns false
    and changes nothing when the record is completed or pending; and
    returns false, changing nothing, when the conditional insert loses a
    duplicate-key race. *)
Theorem mark_pending_spec url w :
  connected w -> unique_urls (coll w) ->
  let r := mark_pending url w in
  (db_fault w = None -> record_of url w = None ->
   fst r = Py.Ret true
   /\ exists d',
       coll (snd r) = coll w ++ [d']
       /\ record_of url (snd r) = Some d'
       /\ d' !! "url" = Some (VStr url)
       /\ d' !! "status" = Some (VStr "pending")
       /\ d' !! "created_at" = Some (VTime (clock w))
       /\ d' !! "updated_at" = Some (VTime (clock w)))
  /\ (db_fault w = None ->
      forall d, record_of url w = Some d ->
      d !! "status" = Some (VStr "failed") ->
      fst r = Py.Ret true
      /\ exists i d',
          coll w !! i = Some d
          /\ coll (snd r) = <[i := d']> (coll w)
          /\ record_of url (snd r) = Some d'
          /\ d' !! "status" = Some (VStr "pending")
          /\ d' !! "updated_at" = Some (VTime (clock w))
          /\ (forall k, k <> "status" -> k <> "updated_at" -> d' !! k = d !! k))
  /\ (db_fault w = None ->
      forall d, record_of url w = Some d ->
      d !! "status" = Some (VStr "completed")
      \/ d !! "status" = Some (VStr "pending") ->
      fst r = Py.Ret false /\ coll (snd r) = coll w)
  /\ (forall m, db_fault w = Some (Py.DuplicateKeyError m) ->
      fst r = Py.Ret false /\ coll (snd r) = coll w).
Proof.
  intros Hc Hu r. subst r. split; [|split; [|split]].
  - intros Hq Hr.
    destruct (mark_pending_absent url w) as (call & d' & -> & Hurl & Hd);
      [done..|].
    cbn [fst snd]. rewrite coll_logged. split; [done|]. exists d'.
    split; [done|]. split; [|done].
    unfold record_of. rewrite coll_logged. by apply find_one_appended.
  - intros Hq d Hr Hs.
    destruct (mark_pending_transition url w d)
      as (call & i & d' & Hi & -> & Hd); [done..| |].
    { unfold status_in. by rewrite Hs. }
    cbn [fst snd]. rewrite coll_logged. split; [done|]. by exists i, d'.
  - intros Hq d Hr Hs.
    destruct (mark_pending_blocked url w d) as (call & ->); [done..| |done].
    unfold status_in. by destruct Hs as [-> | ->].
  - intros m Hq.
    by destruct (mark_pending_fault url w (Py.DuplicateKeyError m))
      as (call & ->).
Qed.




(** A store error other than a duplicate key on the first round trip of
    [find_by_url], [upsert] or [mark_pending] reaches the caller as a
    [DatabaseError] carrying the name of the operation and the text of
    the cause. *)
Lemma store_errors_surface url f w cause :
  connected w -> db_fault w = Some (Py.PyMongoError cause) ->
  fst (find_by_url url w) = Py.Raise (Py.DatabaseError "find_by_url" cause)
  /\ fst (upsert url f w) = Py.Raise (Py.DatabaseError "upsert" cause)
  /\ fst (mark_pending url w) = Py.Raise (Py.DatabaseError "mark_pending" cause).
Proof.
  intros Hc Hq. split; [|split].
  - by rewrite (find_by_url_fault url w (Py.PyMongoError cause)).
  - by destruct (upsert_fault url f w cause) as (call & ->).
  - by destruct (mark_pending_fault url w (Py.PyMongoError cause)) as (call & ->).
Qed.

End StoreAdapter.

Section StoreWitnesses.
Import Mongo Sys Repository Obs.

Lemma mark_pending_spec_witness :
  fst (mark_pending Example.url (Example.world_with [] [])) = Py.Ret true
  /\ fst (mark_pending Example.url (Example.world_with [Example.doc "failed"] []))
     = Py.Ret true
  /\ fst (mark_pending Example.url (Example.world_with [Example.doc "completed"] []))
     = Py.Ret false
  /\ fst (mark_pending Example.url
            (Example.world_with [Example.doc "pending"]
               [Some (Py.DuplicateKeyError "E11000")]))
     = Py.Ret false.
Proof.
  split; [|split; [|split]].
  - destruct (mark_pending_spec Example.url (Example.world_with [] [])
                eq_refl NoDup_nil_2) as (H & _).
    by apply H.
  - destruct (mark_pending_spec Example.url
                (Example.world_with [Example.doc "failed"] [])
                eq_refl (NoDup_singleton _)) as (_ & H & _).
    by eapply H.
  - destruct (mark_pending_spec Example.url
                (Example.world_with [Example.doc "completed"] [])
                eq_refl (NoDup_singleton _)) as (_ & _ & H & _).
    eapply H; [reflexivity | reflexivity | left; reflexivity].
  - destruct (mark_pending_spec Example.url
                (Example.world_with [Example.doc "pending"]
                   [Some (Py.DuplicateKeyError "E11000")])
                eq_refl (NoDup_singleton _)) as (_ & _ & _ & H).
    by eapply H.
Defined.


(** C2. [mark_failed] moves a completed record to [failed]; and when
    the round trip meets a store error, [mark_pending] on a completed
    record raises instead of answering false. *)
Lemma mark_failed_leaves_completed :
  record_of Example.url (Example.world_with [Example.doc "completed"] [])
  = Some (Example.doc "completed")
  /\ Example.doc "completed" !! "status" = Some (VStr "completed")
  /\ fst (mark_failed Example.url "HTTP 404"
            (Example.world_with [Example.doc "completed"] [])) = Py.Ret ()
  /\ (record_of Example.url
        (snd (mark_failed Example.url "HTTP 404"
                (Example.world_with [Example.doc "completed"] [])))
      ≫= (λ d : document, d !! "status")) = Some (VStr "failed")
  /\ fst (mark_pending Example.url
            (Example.world_with [Example.doc "completed"]
               [Scenario.connection_closed]))
     = Py.Raise (Py.DatabaseError "mark_pending" "connection closed").
Proof. repeat split; vm_compute; reflexivity. Qed.


(** C9. When the connection drops, [find_by_url], [upsert] and
    [mark_pending] raise a [DatabaseError] that names the operation and
    carries the cause, on each of their round trips; [mark_failed]
    returns normally, with the record as it was: its caller is told
    nothing. *)
Theorem mark_failed_hides_store_error :
  fst (find_by_url Example.url
         (Scenario.store_with_faults [Scenario.connection_closed]))
  = Py.Raise (Py.DatabaseError "find_by_url" "connection closed")
  /\ fst (upsert Example.url Example.payload
            (Scenario.store_with_faults [Scenario.connection_closed]))
     = Py.Raise (Py.DatabaseError "upsert" "connection closed")
  /\ fst (upsert Example.url Example.payload
            (Scenario.store_with_faults [None; Scenario.connection_closed]))
     = Py.Raise (Py.DatabaseError "upsert" "connection closed")
  /\ fst (upsert Example.url Example.payload
            (Scenario.store_with_faults
               [Some (Py.DuplicateKeyError "E11000");
                Scenario.connection_closed]))
     = Py.Raise (Py.DatabaseError "find_by_url" "connection closed")
  /\ fst (mark_pending Example.url
            (Scenario.store_with_faults [Scenario.connection_closed]))
     = Py.Raise (Py.DatabaseError "mark_pending" "connection closed")
  /\ fst (mark_failed Example.url "HTTP 404"
            (Scenario.store_with_faults [Scenario.connection_closed]))
     = Py.Ret ()
  /\ record_of Example.url
       (snd (mark_failed Example.url "HTTP 404"
               (Scenario.store_with_faults [Scenario.connection_closed])))
     = Some (Example.doc "pending").
Proof. repeat split; vm_compute; reflexivity. Qed.

End StoreWitnesses.

(** ** The read path *)

Section ServiceProperties.
Import Mongo Sys Repository Obs.
Variable settings : Settings.
Variable ok : string -> bool.

(** A failed or successful [enqueue] leaves the store as it was. *)
Lemma enqueue_keeps_store url w :
  w_db (snd (Producer.enqueue settings url w)) = w_db w.
Proof.
  unfold Producer.enqueue, Producer.producer_is_none, try_except, mbind, M_bind,
    bind, Producer.produce.
  cbn. destruct (producer (w_kafka w)); cbn; [|done].
  destruct (next_fault (produce_faults (w_kafka w))) as [e|]; cbn; [|done].
  by destruct e.
Qed.

(** C8. Once the URL is canonicalized and looked up, [get_metadata]
    answers the record with [true] exactly when the lookup found a
    completed record.  Otherwise it calls [mark_pending]; when that
    returns true it calls [enqueue] once, whatever [enqueue] raises is
    dropped and the store is left as [mark_pending] left it; when it
    returns false nothing is enqueued; the answer is [(None, false)]. *)
Theorem get_metadata_spec raw url w doc w1 :
  UrlNormalizer.normalize_url ok raw = Py.Ret url ->
  find_by_url url w = (Py.Ret doc, w1) ->
  let r := Service.get_metadata settings ok raw w in
  (forall d, doc = Some d -> d !! "status" = Some (VStr "completed") ->
             r = (Py.Ret (Some (Service.from_mongo d), true), w1))
  /\ ((doc = None
       \/ exists d, doc = Some d /\ d !! "status" <> Some (VStr "completed")) ->
      match mark_pending url w1 with
      | (Py.Ret true, w2) =>
          r = (Py.Ret (None, false), snd (Producer.enqueue settings url w2))
          /\ w_db (snd r) = w_db w2
      | (Py.Ret false, w2) => r = (Py.Ret (None, false), w2)
      | (Py.Raise e, w2) => r = (Py.Raise e, w2)
      end)
  /\ (forall rec,
        fst r = Py.Ret (rec, true)
        <-> exists d, doc = Some d /\ d !! "status" = Some (VStr "completed")
                      /\ rec = Some (Service.from_mongo d)).
Proof.
  intros Hn Hf r.
  assert (Hmiss :
    (doc = None
     \/ exists d, doc = Some d /\ d !! "status" <> Some (VStr "completed")) ->
    r = (let '(m, w2) := mark_pending url w1 in
         match m with
         | Py.Ret true => (Py.Ret (None, false), snd (Producer.enqueue settings url w2))
         | Py.Ret false => (Py.Ret (None, false), w2)
         | Py.Raise e => (Py.Raise e, w2)
         end)).
  { intros Hd. subst r.
    unfold Service.get_metadata, lift, mbind, M_bind, bind. rewrite Hn, Hf.
    assert (Hgo : forall k : M (option Service.MetadataRecord * bool),
      match doc with
      | Some d => if bool_decide (d !! "status" = Some (VStr "completed"))
                  then ret (Some (Service.from_mongo d), true) else k
      | None => k
      end w1 = k w1).
    { intros k. destruct Hd as [-> | (d & -> & Hs)]; [done|].
      by rewrite bool_decide_eq_false_2. }
    rewrite Hgo. destruct (mark_pending url w1) as [[[]|e] w2]; [| |done].
    - unfold try_except.
      destruct (Producer.enqueue settings url w2) as [[[]|e] w3]; done.
    - done. }
  split; [|split].
  - intros d -> Hs. subst r.
    unfold Service.get_metadata, lift, mbind, M_bind, bind. rewrite Hn, Hf.
    by rewrite bool_decide_eq_true_2.
  - intros Hd. rewrite (Hmiss Hd).
    destruct (mark_pending url w1) as [[[]|e] w2]; try done.
    split; [done|]. apply enqueue_keeps_store.
  - intros rec. split.
    + intros Hr. destruct doc as [d|].
      * destruct (decide (d !! "status" = Some (VStr "completed"))) as [Hs|Hs].
        -- exists d. split; [done|]. split; [done|].
           subst r. revert Hr.
           unfold Service.get_metadata, lift, mbind, M_bind, bind.
           rewrite Hn, Hf. rewrite bool_decide_eq_true_2 by done.
           cbn. congruence.
        -- exfalso. rewrite Hmiss in Hr by eauto.
           by destruct (mark_pending url w1) as [[[]|e] w2].
      * exfalso. rewrite Hmiss in Hr by eauto.
        by destruct (mark_pending url w1) as [[[]|e] w2].
    + intros (d & -> & Hs & ->). subst r.
      unfold Service.get_metadata, lift, mbind, M_bind, bind. rewrite Hn, Hf.
      by rewrite bool_decide_eq_true_2.
Qed.

End ServiceProperties.

Lemma get_metadata_spec_witness :
  fst (Service.get_metadata Sys.default_settings (fun _ => true) "example.com"
         (Example.world_with [Example.doc "completed"] []))
  = Py.Ret (Some (Service.from_mongo (Example.doc "completed")), true)
  /\ fst (Service.get_metadata Sys.default_settings (fun _ => true) "example.com"
            (Example.world_with [Example.doc "pending"] []))
     = Py.Ret (None, false).
Proof.
  split.
  - destruct (get_metadata_spec Sys.default_settings (fun _ => true)
                "example.com" Example.url
                (Example.world_with [Example.doc "completed"] [])
                _ _ eq_refl eq_refl) as (H & _).
    by rewrite (H _ eq_refl eq_refl).
  - pose proof (get_metadata_spec Sys.default_settings (fun _ => true)
                  "example.com" Example.url
                  (Example.world_with [Example.doc "pending"] [])
                  _ _ eq_refl eq_refl) as H.
    cbv zeta in H. destruct H as (_ & H & _).
    assert (Hd : Some (Example.doc "pending") = None
                 \/ exists d, Some (Example.doc "pending") = Some d
                              /\ d !! "status" <> Some (Mongo.VStr "completed")).
    { right. exists (Example.doc "pending"). split; [done|]. by vm_compute. }
    specialize (H Hd).
    set (r := Service.get_metadata _ _ _ _) in *.
    clearbody r. vm_compute in H. by rewrite H.
Defined.

(** ** The worker loop *)

Section ConsumerProperties.
Import Mongo Sys Repository Obs Consumer.
Variable settings : Settings.

Lemma iteration_idle w log :
  quiet w ->
  topics (w_kafka w) !! kafka_topic settings = Some log ->
  position (w_kafka w) = length log ->
  iteration settings w = (Py.Ret (), w).
Proof.
  intros [Hc Hdb Hp Hpf Hpe Hcf Hsd] Hlog Hpos.
  destruct w as [d [prod tps pf pe pos cm cf sd] n clk]. cbn in *. subst.
  unfold iteration, mbind, M_bind, bind, poll. cbn. rewrite Hlog. cbn.
  by rewrite lookup_ge_None_2.
Qed.

Lemma iteration_retry url rc err0 w log exc_url reason :
  quiet w -> url <> "" ->
  topics (w_kafka w) !! kafka_topic settings = Some log ->
  log !! position (w_kafka w) = Some (Task (Some url) rc err0) ->
  Fetcher.classify settings url
    (answers (w_net w) (length (requests (w_net w))) url)
  = Py.Raise (Py.TransientCollectionError exc_url reason) ->
  (default 0 rc + 1 < kafka_max_retries settings)%Z ->
  exists w',
    iteration settings w = (Py.Ret (), w') /\ quiet w'
    /\ topics (w_kafka w')
       = <[kafka_topic settings :=
             log ++ [Task (Some url) (Some (default 0 rc + 1)%Z) None]]>
           (topics (w_kafka w))
    /\ position (w_kafka w') = S (position (w_kafka w))
    /\ committed (w_kafka w') = committed (w_kafka w) ++ [position (w_kafka w)]
    /\ w_net w' = mkNet (answers (w_net w)) (requests (w_net w) ++ [url])
    /\ w_db w' = w_db w.
Proof.
  intros [Hc Hdb Hp Hpf Hpe Hcf Hsd] Hurl Hlog Hmsg Hcl Hlt.
  destruct w as [d [prod tps pf pe pos cm cf sd] [ans reqs] clk]. cbn in *. subst.
  unfold iteration, mbind, M_bind, bind, poll. cbn. rewrite Hlog. cbn.
  rewrite Hmsg.
  replace (Text.is_empty url) with false by (by destruct url).
  unfold dispatch, try_except, mbind, M_bind, bind, process_url,
    Fetcher.fetch_url, mbind, M_bind, bind, Fetcher.client_get, lift.
  cbn [w_net answers requests set_net set_kafka]. rewrite Hcl.
  apply Z.leb_gt in Hlt. rewrite Hlt.
  unfold Producer.publish_with_retry, mbind, M_bind, bind,
    Producer.producer_is_none, Producer.produce, commit.
  cbn. rewrite Hlog. cbn.
  eexists. split; [reflexivity|]. split; [by constructor|]. done.
Qed.

Lemma iteration_exhausted url rc err0 w log d exc_url reason :
  quiet w -> url <> "" ->
  topics (w_kafka w) !! kafka_topic settings = Some log ->
  log !! position (w_kafka w) = Some (Task (Some url) rc err0) ->
  Fetcher.classify settings url
    (answers (w_net w) (length (requests (w_net w))) url)
  = Py.Raise (Py.TransientCollectionError exc_url reason) ->
  (kafka_max_retries settings <= default 0 rc + 1)%Z ->
  record_of url w = Some d ->
  exists w' d',
    iteration settings w = (Py.Ret (), w') /\ quiet w'
    /\ topics (w_kafka w')
       = <[kafka_dlq_topic settings :=
             topic_log (kafka_dlq_topic settings) w
             ++ [Task (Some url) (Some (default 0 rc + 1)%Z)
                      (Some (Py.str (Py.TransientCollectionError exc_url reason)))]]>
           (topics (w_kafka w))
    /\ position (w_kafka w') = S (position (w_kafka w))
    /\ committed (w_kafka w') = committed (w_kafka w) ++ [position (w_kafka w)]
    /\ w_net w' = mkNet (answers (w_net w)) (requests (w_net w) ++ [url])
    /\ record_of url w' = Some d'
    /\ d' !! "status" = Some (VStr "failed")
    /\ d' !! "error"
       = Some (VStr (Py.str (Py.TransientCollectionError exc_url reason))).
Proof.
  intros [Hc Hdb Hp Hpf Hpe Hcf Hsd] Hurl Hlog Hmsg Hcl Hge Hrec.
  destruct w as [[dbon c dbf calls] [prod tps pf pe pos cm cf sd] [ans reqs] clk].
  cbn in Hc, Hdb, Hp, Hpf, Hpe, Hcf, Hsd, Hlog, Hmsg, Hcl. subst.
  unfold iteration, mbind, M_bind, bind, poll. cbn. rewrite Hlog. cbn.
  rewrite Hmsg.
  replace (Text.is_empty url) with false by (by destruct url).
  unfold dispatch, try_except, mbind, M_bind, bind, process_url,
    Fetcher.fetch_url, mbind, M_bind, bind, Fetcher.client_get, lift.
  cbn [w_net answers requests set_net set_kafka]. rewrite Hcl.
  apply Z.leb_le in Hge. rewrite Hge.
  unfold to_dlq, try_except, Producer.publish_to_dlq, mbind, M_bind, bind,
    Producer.producer_is_none, Producer.produce, mark_failed_in_db, try_except,
    commit.
  cbn -[mark_failed Py.str].
  match goal with
  | |- context [mark_failed ?u ?r ?w0] =>
      destruct (mark_failed_run u r w0 d)
        as (call & i & d' & Hi & -> & Hr' & Hst & Herr & _); [done..|]
  end.
  cbn -[Py.str]. eexists; exists d'. split; [reflexivity|].
  split; [by constructor|]. split; [reflexivity|]. split; [reflexivity|].
  split; [reflexivity|]. split; [reflexivity|]. split; [exact Hr'|].
  split; [exact Hst|exact Herr].
Qed.

Lemma consume_loop_step n w w' :
  quiet w -> iteration settings w = (Py.Ret (), w') ->
  consume_loop settings (S n) w = consume_loop settings n w'.
Proof.
  intros Hq Hit. cbn [consume_loop]. rewrite (q_running _ Hq).
  unfold mbind, M_bind, bind. by rewrite Hit.
Qed.

Lemma consume_loop_idle n w log :
  quiet w ->
  topics (w_kafka w) !! kafka_topic settings = Some log ->
  position (w_kafka w) = length log ->
  consume_loop settings n w = (Py.Ret (), w).
Proof.
  intros Hq Hlog Hpos. induction n as [|n IH]; [done|].
  rewrite (consume_loop_step n w w); [done|done|by eapply iteration_idle].
Qed.

Lemma is_transient_inv {A} (r : Py.result A) :
  is_transient r = true -> exists u reason, r = Py.Raise (Py.TransientCollectionError u reason).
Proof. destruct r as [a|[]]; try done. eauto. Qed.

(** C1, as the worker loop has it. With [KAFKA_MAX_RETRIES = 3], a queued
    URL whose every fetch fails transiently is re-published twice, with
    retry counts 1 and 2; its third processing publishes one dead-letter
    message with retry count 3 and marks the record failed.  Each of the
    three messages is committed, and nothing more happens however long
    the loop keeps running. *)
Theorem retries_exhausted url w d pre fuel :
  kafka_max_retries settings = 3%Z ->
  kafka_topic settings <> kafka_dlq_topic settings ->
  quiet w -> url <> "" ->
  topics (w_kafka w) !! kafka_topic settings
  = Some (pre ++ [Task (Some url) None None]) ->
  position (w_kafka w) = length pre ->
  record_of url w = Some d ->
  (forall n, is_transient (Fetcher.classify settings url (answers (w_net w) n url))
             = true) ->
  3 <= fuel ->
  let r := consume_loop settings fuel w in
  fst r = Py.Ret ()
  /\ topic_log (kafka_topic settings) (snd r)
     = pre ++ [Task (Some url) None None;
               Task (Some url) (Some 1%Z) None;
               Task (Some url) (Some 2%Z) None]
  /\ (exists err,
        topic_log (kafka_dlq_topic settings) (snd r)
        = topic_log (kafka_dlq_topic settings) w
          ++ [Task (Some url) (Some 3%Z) (Some err)])
  /\ committed (w_kafka (snd r))
     = committed (w_kafka w) ++ [length pre; S (length pre); S (S (length pre))]
  /\ requests (w_net (snd r)) = requests (w_net w) ++ [url; url; url]
  /\ exists d', record_of url (snd r) = Some d'
                /\ d' !! "status" = Some (VStr "failed").
Proof.
  intros Hmax Hne Hq Hurl Hlog Hpos Hrec Htr Hfuel r. subst r.
  destruct fuel as [|[|[|k]]]; [lia..|].
  (* first processing: retry count 0, re-published with 1 *)
  destruct (is_transient_inv _ (Htr (length (requests (w_net w)))))
    as (u1 & r1 & Hc1).
  destruct (iteration_retry url None None w _ u1 r1 Hq Hurl Hlog)
    as (w1 & Hit1 & Hq1 & Htp1 & Hpos1 & Hcm1 & Hnet1 & Hdb1);
    [by rewrite Hpos, lookup_app_r, Nat.sub_diag by done | done
    | rewrite Hmax; cbn; lia |].
  rewrite (consume_loop_step _ w w1) by done.
  (* second processing: retry count 1, re-published with 2 *)
  assert (Hlog1 : topics (w_kafka w1) !! kafka_topic settings
                  = Some ((pre ++ [Task (Some url) None None])
                          ++ [Task (Some url) (Some 1%Z) None]))
    by (by rewrite Htp1, lookup_insert_eq).
  destruct (is_transient_inv _ (Htr (length (requests (w_net w) ++ [url]))))
    as (u2 & r2 & Hc2).
  destruct (iteration_retry url (Some 1%Z) None w1 _ u2 r2 Hq1 Hurl Hlog1)
    as (w2 & Hit2 & Hq2 & Htp2 & Hpos2 & Hcm2 & Hnet2 & Hdb2).
  { rewrite Hpos1, Hpos. rewrite lookup_app_r by (rewrite length_app; simpl; lia).
    rewrite length_app. simpl. by replace (S (length pre) - (length pre + 1)) with 0 by lia. }
  { rewrite Hnet1. exact Hc2. }
  { rewrite Hmax. cbn. lia. }
  rewrite (consume_loop_step _ w1 w2) by done.
  (* third processing: retry count 2, dead-lettered with 3 *)
  assert (Hlog2 : topics (w_kafka w2) !! kafka_topic settings
                  = Some (((pre ++ [Task (Some url) None None])
                           ++ [Task (Some url) (Some 1%Z) None])
                          ++ [Task (Some url) (Some 2%Z) None]))
    by (by rewrite Htp2, lookup_insert_eq).
  destruct (is_transient_inv _
              (Htr (length ((requests (w_net w) ++ [url]) ++ [url]))))
    as (u3 & r3 & Hc3).
  destruct (iteration_exhausted url (Some 2%Z) None w2 _ d u3 r3 Hq2 Hurl Hlog2)
    as (w3 & d' & Hit3 & Hq3 & Htp3 & Hpos3 & Hcm3 & Hnet3 & Hrec3 & Hst3 & _).
  { rewrite Hpos2, Hpos1, Hpos.
    rewrite lookup_app_r by (rewrite !length_app; simpl; lia).
    rewrite !length_app. simpl.
    by replace (S (S (length pre)) - (length pre + 1 + 1)) with 0 by lia. }
  { rewrite Hnet2, Hnet1. exact Hc3. }
  { rewrite Hmax. cbn. lia. }
  { unfold record_of, coll. by rewrite Hdb2, Hdb1. }
  rewrite (consume_loop_step _ w2 w3) by done.
  (* nothing is left to poll *)
  assert (Hlog3 : topics (w_kafka w3) !! kafka_topic settings
                  = Some (((pre ++ [Task (Some url) None None])
                           ++ [Task (Some url) (Some 1%Z) None])
                          ++ [Task (Some url) (Some 2%Z) None]))
    by (by rewrite Htp3, lookup_insert_ne).
  rewrite (consume_loop_idle k w3 _ Hq3 Hlog3)
    by (rewrite Hpos3, Hpos2, Hpos1, Hpos, !length_app; simpl; lia).
  cbn [fst snd]. split; [done|].
  split; [unfold topic_log; rewrite Hlog3; by rewrite <- !app_assoc|].
  split.
  { eexists. unfold topic_log at 1. rewrite Htp3, lookup_insert_eq. cbn.
    f_equal. unfold topic_log.
    by rewrite Htp2, lookup_insert_ne, Htp1, lookup_insert_ne. }
  split; [by rewrite Hcm3, Hcm2, Hcm1, Hpos2, Hpos1, Hpos, <- !app_assoc|].
  split; [by rewrite Hnet3, Hnet2, Hnet1; cbn; rewrite <- !app_assoc|].
  by exists d'.
Qed.

End ConsumerProperties.

(** C1. With every fetch answered 503 the main topic receives two re-publishes, not
    three: the third processing already dead-letters the message, and no
    fourth processing takes place. *)
Lemma three_republishes_do_not_occur :
  let w' := snd (Consumer.consume_loop Sys.default_settings 10
                   Example.always_unavailable) in
  Obs.topic_log "metadata-tasks" w'
  = [Sys.Task (Some Example.url) None None;
     Sys.Task (Some Example.url) (Some 1%Z) None;
     Sys.Task (Some Example.url) (Some 2%Z) None]
  /\ Obs.topic_log "metadata-tasks-dlq" w'
     = [Sys.Task (Some Example.url) (Some 3%Z)
          (Some "Failed to collect metadata for 'https://example.com/': HTTP 503 — server error, retryable")]
  /\ Sys.requests (Sys.w_net w') = [Example.url; Example.url; Example.url]
  /\ ~ In (Sys.Task (Some Example.url) (Some 3%Z) None)
          (Obs.topic_log "metadata-tasks" w').
Proof.
  vm_compute. repeat split; try reflexivity.
  intros [H|[H|[H|[]]]]; discriminate H.
Qed.

Lemma retries_exhausted_witness :
  let r := Consumer.consume_loop Sys.default_settings 5
             Example.always_unavailable in
  Obs.topic_log "metadata-tasks" (snd r)
  = [Sys.Task (Some Example.url) None None;
     Sys.Task (Some Example.url) (Some 1%Z) None;
     Sys.Task (Some Example.url) (Some 2%Z) None]
  /\ exists d' : Mongo.document,
       Obs.record_of Example.url (snd r) = Some d'
       /\ d' !! "status" = Some (Mongo.VStr "failed").
Proof.
  assert (Hq : Obs.quiet Example.always_unavailable) by (by constructor).
  assert (Hne : Sys.kafka_topic Sys.default_settings
                <> Sys.kafka_dlq_topic Sys.default_settings) by discriminate.
  assert (Hurl : Example.url <> "") by discriminate.
  assert (Hfuel : 3 <= 5) by lia.
  destruct (retries_exhausted Sys.default_settings Example.url
              Example.always_unavailable (Example.doc "pending") [] 5
              eq_refl Hne Hq Hurl eq_refl eq_refl eq_refl
              (fun n => eq_refl) Hfuel)
    as (_ & Hmain & _ & _ & _ & Hrec).
  split; [exact Hmain | exact Hrec].
Defined.

(** * Frames and invariants *)

Section FrameRules.
Import Mongo Sys Frame.
Context {A B : Type} (R : world -> world -> Prop).
Context `{!Reflexive R, !Transitive R}.

Lemma moves_ret (a : A) : moves R (ret a).
Proof. intros w. reflexivity. Qed.

Lemma moves_raise (e : Py.exn) : moves R (raise e : M A).
Proof. intros w. reflexivity. Qed.

Lemma moves_lift (r : Py.result A) : moves R (lift r).
Proof. intros w. reflexivity. Qed.

Lemma moves_bind (m : M A) (k : A -> M B) :
  moves R m -> (forall a, moves R (k a)) -> moves R (m ≫= k).
Proof.
  intros Hm Hk w. unfold mbind, M_bind, bind.
  specialize (Hm w). destruct (m w) as [[a|e] w1]; [|exact Hm].
  etransitivity; [exact Hm | apply Hk].
Qed.

Lemma moves_try_except (m : M A) (h : Py.exn -> option (M A)) :
  moves R m -> (forall e k, h e = Some k -> moves R k) ->
  moves R (try_except m h).
Proof.
  intros Hm Hh w. unfold try_except.
  specialize (Hm w). destruct (m w) as [[a|e] w1]; [exact Hm|].
  destruct (h e) as [k|] eqn:E; [|exact Hm].
  etransitivity; [exact Hm | by eapply Hh].
Qed.

End FrameRules.

(** ** The store under the repository *)

Section StoreFrames.
Import Mongo Sys Repository Frame Obs.

#[local] Instance writes_refl url : Reflexive (writes url).
Proof. intros w. apply rtc_refl. Qed.

#[local] Instance writes_trans url : Transitive (writes url).
Proof. intros w1 w2 w3 H1 H2. unfold writes in *. by etrans. Qed.

(** What a successful [update_one] does to the collection. *)
Lemma update_one_step q set oi up c r c' :
  update_one q set oi up c = Py.Ret (r, c') ->
  c' = c
  \/ (exists i d,
        list_find (λ d, matches q d) c = Some (i, d)
        /\ c' = <[i := set ∪ d]> c
        /\ (set ∪ d) !! "_id" = d !! "_id"
        /\ ((set ∪ d) !! "url" = d !! "url"
            \/ key_taken "url" ((set ∪ d) !! "url") c = false)
        /\ dom set ∩ dom oi = ∅)
  \/ (exists d1,
        list_find (λ d, matches q d) c = None
        /\ c' = c ++ [d1]
        /\ d1 !! "url" = (oi ∪ (set ∪ {["url" := VStr (q_url q)]})) !! "url"
        /\ key_taken "url" (d1 !! "url") c = false).
Proof.
  unfold update_one. case_bool_decide as Hdom; [done|].
  assert (Hd : dom set ∩ dom oi = ∅) by (by destruct (decide (dom set ∩ dom oi = ∅))).
  destruct (list_find _ c) as [[i d]|] eqn:Hf.
  - case_bool_decide as Hid; [done|].
    assert (Hid' : (set ∪ d) !! "_id" = d !! "_id")
      by (by destruct (decide ((set ∪ d) !! "_id" = d !! "_id"))).
    destruct (bool_decide _ && key_taken _ _ c) eqn:Hk; [done|].
    intros [= <- <-]. right. left. exists i, d. repeat split; try done.
    apply andb_false_iff in Hk as [Hk|Hk]; [left|by right].
    apply bool_decide_eq_false in Hk.
    by destruct (decide ((set ∪ d) !! "url" = d !! "url")).
  - destruct up; [|intros [= <- <-]; by left].
    set (d0 := oi ∪ (set ∪ {["url" := VStr (q_url q)]})).
    set (d1 := match d0 !! "_id" with Some _ => d0 | None => _ end).
    destruct (key_taken "url" (d1 !! "url") c || key_taken "_id" (d1 !! "_id") c)
      eqn:Hk; [done|].
    intros [= <- <-]. right. right. exists d1.
    apply orb_false_iff in Hk as [Hk _]. repeat split; try done.
    subst d1. destruct (d0 !! "_id"); [done|]. by rewrite lookup_insert_ne.
Qed.

Lemma key_not_taken_find_one url c :
  key_taken "url" (Some (VStr url)) c = false ->
  find_one (mkQuery url []) c = None.
Proof.
  intros Hk. apply find_one_None, list_find_None, Forall_forall.
  intros d Hin Hm. rewrite matches_url_only in Hm. apply has_url_lookup in Hm.
  apply list_elem_of_lookup in Hin as [i Hi].
  by rewrite (key_taken_url_true url c i d) in Hk.
Qed.

(** A round trip whose operation writes on [url] only. *)
Lemma moves_round_trip {T} url call
    (op : list document -> Py.result (T * list document)) :
  (forall c a c', op c = Py.Ret (a, c') -> rtc (write url) c c') ->
  moves (writes url) (round_trip call op).
Proof.
  intros Hop w. unfold round_trip, writes.
  destruct (next_fault _); [apply rtc_refl|].
  destruct (op (docs (w_db w))) as [[a c']|e] eqn:E; [|apply rtc_refl].
  by eapply Hop.
Qed.

Lemma moves_get_collection (R : world -> world -> Prop) `{!Reflexive R} :
  moves R get_collection.
Proof. intros w. unfold get_collection. by destruct (database (w_db w)). Qed.

Lemma moves_datetime_now (R : world -> world -> Prop) `{!Reflexive R} :
  moves R datetime_now.
Proof. intros w. reflexivity. Qed.

Lemma moves_subscript_id (R : world -> world -> Prop) `{!Reflexive R} doc :
  moves R (subscript_id doc).
Proof. intros w. unfold subscript_id. destruct doc as [d|]; [|done]. by destruct (d !! "_id"). Qed.

Lemma moves_find_one url q : moves (writes url) (coll_find_one q).
Proof.
  apply moves_round_trip. intros c a c' [= _ <-]. apply rtc_refl.
Qed.

(** An update whose filter and fields stay on [url] and that cannot
    touch the creation time of a stored document. *)
Lemma moves_update_one url l set oi up :
  (set !! "url" = None \/ set !! "url" = Some (VStr url)) ->
  oi !! "url" = None ->
  (set !! "created_at" = None \/ is_Some (oi !! "created_at")) ->
  moves (writes url) (coll_update_one (mkQuery url l) set oi up).
Proof.
  intros Hsu Hou Hca. apply moves_round_trip. intros c r c' Hu.
  apply update_one_step in Hu as [-> | [(i & d & Hf & -> & Hid & _ & Hdom) | (d1 & Hf & -> & Hd1 & Hk)]].
  - apply rtc_refl.
  - apply rtc_once.
    apply list_find_Some in Hf as (Hi & Hm & _).
    apply matches_has_url, has_url_lookup in Hm. cbn in Hm.
    apply (write_replace url c i d); try done.
    + destruct Hsu as [Hs|Hs]; [by rewrite lookup_union_r|by apply lookup_union_Some_l].
    + apply lookup_union_r. destruct Hca as [Hs|[v Hv]]; [done|].
      apply not_elem_of_dom. intros Hin.
      assert (Hx : "created_at" ∈ dom set ∩ dom oi)
        by (apply elem_of_intersection; split; [done|apply elem_of_dom; eauto]).
      rewrite Hdom in Hx. by apply elem_of_empty in Hx.
  - apply rtc_once.
    assert (Hurl : d1 !! "url" = Some (VStr url)).
    { rewrite Hd1. rewrite lookup_union_r by done. cbn.
      destruct Hsu as [Hs|Hs];
        [rewrite lookup_union_r by done; apply lookup_singleton_eq
        |by apply lookup_union_Some_l]. }
    apply write_append; [|done]. apply key_not_taken_find_one. by rewrite <- Hurl.
Qed.

Lemma moves_find_by_url url : moves (writes url) (find_by_url url).
Proof.
  unfold find_by_url. apply moves_try_except; [apply _| |].
  - apply moves_bind; [apply _|apply moves_get_collection; apply _ |].
    intros _. apply moves_find_one.
  - intros e k. destruct (Py.is_PyMongoError e); intros [= <-].
    apply moves_raise; apply _.
Qed.

Lemma moves_upsert url data : moves (writes url) (upsert url data).
Proof.
  unfold upsert. apply moves_try_except; [apply _| |].
  - apply moves_bind; [apply _|apply moves_datetime_now; apply _ |]. intros now.
    apply moves_bind; [apply _|apply moves_get_collection; apply _ |]. intros _.
    apply moves_bind; [apply _| |].
    + apply moves_update_one.
      * right. by rewrite lookup_insert_ne, lookup_insert_ne, lookup_insert_eq.
      * done.
      * right. by rewrite lookup_singleton_eq.
    + intros result. apply moves_bind; [apply _| |].
      * destruct (upserted_id result); [apply moves_ret; apply _|].
        apply moves_bind; [apply _|apply moves_get_collection; apply _ |]. intros _.
        apply moves_bind; [apply _|apply moves_find_one|]. intros found.
        apply moves_subscript_id; apply _.
      * intros i. apply moves_ret; apply _.
  - intros e k He. destruct e; simplify_eq.
    + apply moves_bind; [apply _|apply moves_find_by_url |].
      intros [d|]; [|apply moves_raise; apply _].
      apply moves_bind; [apply _|apply moves_subscript_id; apply _ |].
      intros i. apply moves_ret; apply _.
    + apply moves_raise; apply _.
Qed.

Lemma moves_mark_pending url : moves (writes url) (mark_pending url).
Proof.
  unfold mark_pending. apply moves_try_except; [apply _| |].
  - apply moves_bind; [apply _|apply moves_datetime_now; apply _ |]. intros now.
    apply moves_bind; [apply _|apply moves_get_collection; apply _ |]. intros _.
    apply moves_bind; [apply _| |].
    + apply moves_update_one.
      * right. by rewrite lookup_insert_ne, lookup_insert_ne, lookup_singleton_eq.
      * done.
      * right. by rewrite lookup_singleton_eq.
    + intros result. destruct (_ || _); apply moves_ret; apply _.
  - intros e k He. destruct e; simplify_eq.
    + apply moves_ret; apply _.
    + apply moves_raise; apply _.
Qed.

Lemma moves_mark_failed url reason : moves (writes url) (mark_failed url reason).
Proof.
  unfold mark_failed. apply moves_try_except; [apply _| |].
  - apply moves_bind; [apply _|apply moves_get_collection; apply _ |]. intros _.
    apply moves_bind; [apply _|apply moves_datetime_now; apply _ |]. intros now.
    apply moves_bind; [apply _| |].
    + apply moves_update_one; [by left | done | by left].
    + intros _. apply moves_ret; apply _.
  - intros e k. destruct (Py.is_PyMongoError e); intros [= <-].
    apply moves_ret; apply _.
Qed.

(** What one write keeps. *)
Lemma write_unique url c c' :
  unique_urls c -> write url c c' -> unique_urls c'.
Proof.
  unfold unique_urls. intros Hu [i d d' Hi Hd Hd' _ _ | d' Hf Hd'].
  - rewrite list_fmap_insert, list_insert_id; [done|].
    rewrite list_lookup_fmap, Hi. simpl. congruence.
  - rewrite fmap_app. apply NoDup_app. split; [done|]. split; [|apply NoDup_singleton].
    intros k Hk [->|[]%elem_of_nil]%elem_of_cons.
    apply list_elem_of_fmap in Hk as (d & Hdk & Hin).
    apply list_elem_of_lookup in Hin as [j Hj].
    apply key_taken_url_false in Hf.
    rewrite (key_taken_url_true url c j d) in Hf; [done..|]. congruence.
Qed.

Lemma list_find_replace_unmatched {T} (P : T -> Prop) `{!forall x, Decision (P x)}
    (l : list T) i x y :
  l !! i = Some x -> ~ P x -> ~ P y -> list_find P (<[i := y]> l) = list_find P l.
Proof.
  revert i. induction l as [|a l IH]; intros [|i] Hi Hx Hy; simplify_eq/=.
  - by rewrite !decide_False.
  - destruct (decide (P a)); [done|]. by rewrite (IH i).
Qed.

Lemma list_find_append_unmatched {T} (P : T -> Prop) `{!forall x, Decision (P x)}
    (l : list T) y :
  ~ P y -> list_find P (l ++ [y]) = list_find P l.
Proof.
  intros Hy. destruct (list_find P l) as [[i x]|] eqn:E.
  - by apply list_find_app_l.
  - rewrite list_find_app_r by done. simpl. by rewrite decide_False.
Qed.

Lemma write_other url u c c' :
  u <> url -> write url c c' ->
  find_one (mkQuery u []) c' = find_one (mkQuery u []) c.
Proof.
  intros Hne [i d d' Hi Hd Hd' _ _ | d' Hf Hd']; unfold find_one.
  - rewrite (list_find_replace_unmatched _ c i d d'); [done..| |];
      rewrite matches_url_only, has_url_lookup; congruence.
  - rewrite list_find_append_unmatched; [done|].
    rewrite matches_url_only, has_url_lookup; congruence.
Qed.

Lemma write_keeps_record url c c' d :
  find_one (mkQuery url []) c = Some d -> write url c c' ->
  exists d', find_one (mkQuery url []) c' = Some d'
             /\ d' !! "_id" = d !! "_id"
             /\ d' !! "created_at" = d !! "created_at".
Proof.
  intros Hr [i x x' Hi Hx Hx' Hid Hca | x' Hf Hx'].
  - apply find_one_Some in Hr as [j Hf].
    pose proof Hf as (Hj & Hm & Hlt)%list_find_Some.
    destruct (decide (i = j)) as [->|Hij].
    + assert (x = d) as -> by congruence.
      exists x'. split; [by apply (find_one_replaced url c j d x')|done].
    + exists d. split; [|done]. apply find_one_Some. exists j.
      apply list_find_Some. split; [by rewrite list_lookup_insert_ne|].
      split; [done|]. intros k y Hk Hkj.
      destruct (decide (k = i)) as [->|Hki].
      * intros _. apply (Hlt i x Hi Hkj).
        rewrite matches_url_only. by apply has_url_lookup.
      * rewrite list_lookup_insert_ne in Hk by done. exact (Hlt k y Hk Hkj).
  - congruence.
Qed.

End StoreFrames.

Section StoreInvariants.
Import Mongo Sys Repository Frame Obs.

Lemma writes_unique url w w' :
  writes url w w' -> unique_urls (coll w) -> unique_urls (coll w').
Proof.
  unfold writes, coll. induction 1 as [|c1 c2 c3 Hw _ IH]; [done|].
  intros Hu. apply IH. by eapply write_unique.
Qed.

Lemma writes_other url u w w' :
  u <> url -> writes url w w' -> record_of u w' = record_of u w.
Proof.
  intros Hne. unfold writes, record_of, coll.
  induction 1 as [|c1 c2 c3 Hw _ IH]; [done|].
  rewrite IH. by eapply write_other.
Qed.

Lemma writes_keeps_record url w w' d :
  writes url w w' -> record_of url w = Some d ->
  exists d', record_of url w' = Some d'
             /\ d' !! "_id" = d !! "_id"
             /\ d' !! "created_at" = d !! "created_at".
Proof.
  unfold writes, record_of, coll. intros H. revert d.
  induction H as [|c1 c2 c3 Hw _ IH]; intros d Hr; [by exists d|].
  destruct (write_keeps_record url c1 c2 d Hr Hw) as (d1 & Hr1 & Hid1 & Hca1).
  destruct (IH d1 Hr1) as (d2 & Hr2 & Hid2 & Hca2).
  exists d2. split; [done|]. split; congruence.
Qed.

(** The unique index holds after every repository operation, in every
    world: connected or not, whatever faults lie ahead, whether the
    operation returns or raises. *)
Theorem repository_keeps_unique_urls url data reason w :
  unique_urls (coll w) ->
  unique_urls (coll (snd (find_by_url url w)))
  /\ unique_urls (coll (snd (upsert url data w)))
  /\ unique_urls (coll (snd (mark_pending url w)))
  /\ unique_urls (coll (snd (mark_failed url reason w))).
Proof.
  intros Hu. repeat split; eapply writes_unique; try exact Hu.
  - apply moves_find_by_url.
  - apply moves_upsert.
  - apply moves_mark_pending.
  - apply moves_mark_failed.
Qed.

(** A repository operation on one URL never changes what is stored for
    another URL. *)
Theorem repository_leaves_other_urls url other data reason w :
  other <> url ->
  record_of other (snd (find_by_url url w)) = record_of other w
  /\ record_of other (snd (upsert url data w)) = record_of other w
  /\ record_of other (snd (mark_pending url w)) = record_of other w
  /\ record_of other (snd (mark_failed url reason w)) = record_of other w.
Proof.
  intros Hne. repeat split; apply (writes_other url); try done.
  - apply moves_find_by_url.
  - apply moves_upsert.
  - apply moves_mark_pending.
  - apply moves_mark_failed.
Qed.

(** A stored record is never deleted, and no repository operation
    changes its identifier or its creation time. *)
Theorem repository_keeps_identity url data reason w d :
  record_of url w = Some d ->
  let kept w' :=
    exists d', record_of url w' = Some d'
               /\ d' !! "_id" = d !! "_id"
               /\ d' !! "created_at" = d !! "created_at" in
  kept (snd (find_by_url url w))
  /\ kept (snd (upsert url data w))
  /\ kept (snd (mark_pending url w))
  /\ kept (snd (mark_failed url reason w)).
Proof.
  intros Hr kept. subst kept.
  repeat split; eapply (writes_keeps_record url w); try exact Hr.
  - apply moves_find_by_url.
  - apply moves_upsert.
  - apply moves_mark_pending.
  - apply moves_mark_failed.
Qed.

(** [find_by_url] never changes the collection, in any world, whether it
    returns or raises. *)
Theorem find_by_url_reads_only url w :
  coll (snd (find_by_url url w)) = coll w.
Proof.
  unfold find_by_url, try_except, mbind, M_bind, bind, get_collection,
    coll_find_one, round_trip.
  destruct (database (w_db w)); [|done].
  destruct (next_fault _) as [e|]; [|done].
  by destruct (Py.is_PyMongoError e).
Qed.

(** Before [connect_to_mongo], or after [close_mongo], each of the four
    operations raises the [RuntimeError] of [get_database] and makes no
    round trip; [mark_failed], which only handles store errors, lets it
    through as well. *)
Theorem repository_requires_connection url data reason w :
  database (w_db w) = false ->
  exists msg,
    find_by_url url w = (Py.Raise (Py.RuntimeError msg), w)
    /\ upsert url data w = (Py.Raise (Py.RuntimeError msg), w)
    /\ mark_pending url w = (Py.Raise (Py.RuntimeError msg), w)
    /\ mark_failed url reason w = (Py.Raise (Py.RuntimeError msg), w).
Proof.
  intros Hd. eexists.
  unfold find_by_url, upsert, mark_pending, mark_failed, try_except, mbind,
    M_bind, bind, get_collection, datetime_now.
  rewrite Hd. cbn. by repeat split.
Qed.

(** No store error leaves [mark_failed]: what it raises, if anything, is
    not a [PyMongoError]. *)
Theorem mark_failed_raises_no_store_error url reason w e :
  fst (mark_failed url reason w) = Py.Raise e -> Py.is_PyMongoError e = false.
Proof.
  unfold mark_failed, try_except.
  match goal with |- context [?m w] => destruct (m w) as [[[]|e0] w1] end;
    [done|].
  destruct (Py.is_PyMongoError e0) eqn:He0; [done|]. by intros [= <-].
Qed.

(** [mark_failed] never creates a record: on a URL that is not stored it
    leaves the collection as it was, in every world. *)
Theorem mark_failed_never_inserts url reason w :
  record_of url w = None ->
  coll (snd (mark_failed url reason w)) = coll w.
Proof.
  intros Hr.
  unfold mark_failed, try_except, mbind, M_bind, bind, get_collection,
    datetime_now, coll_update_one, round_trip.
  destruct (database (w_db w)); [|done].
  destruct (next_fault _) as [e|]; [by destruct (Py.is_PyMongoError e)|].
  unfold update_one. case_bool_decide; [done|].
  unfold record_of, find_one, coll in Hr.
  destruct (list_find _ (docs (w_db w))) as [[i d]|]; [done|]. done.
Qed.

Lemma status_in_pending d :
  d !! "status" = Some (VStr "pending") ->
  status_in ["completed"; "pending"] d = true.
Proof.
  intros H. unfold status_in. rewrite H. apply bool_decide_eq_true_2.
  apply elem_of_cons. right. apply elem_of_cons. by left.
Qed.

(** Asking twice schedules once: whatever the first [mark_pending]
    answered, a second one on the same URL answers false and changes
    nothing. *)
Theorem mark_pending_twice url w :
  connected w -> unique_urls (coll w) ->
  db_fault w = None -> db_fault_after w = None ->
  let r1 := mark_pending url w in
  let r2 := mark_pending url (snd r1) in
  (exists b, fst r1 = Py.Ret b)
  /\ fst r2 = Py.Ret false
  /\ coll (snd r2) = coll (snd r1).
Proof.
  intros Hc Hu Hf Hf2 r1 r2. subst r1 r2.
  assert (Hu1 : unique_urls (coll (snd (mark_pending url w))))
    by (eapply writes_unique; [apply moves_mark_pending|done]).
  assert (Hblocked : forall call c d,
    snd (mark_pending url w) = logged call c w ->
    find_one (mkQuery url []) c = Some d ->
    status_in ["completed"; "pending"] d = true ->
    fst (mark_pending url (snd (mark_pending url w))) = Py.Ret false
    /\ coll (snd (mark_pending url (snd (mark_pending url w))))
       = coll (snd (mark_pending url w))).
  { intros call c d Hw Hr Hs. rewrite Hw in Hu1 |- *.
    destruct (mark_pending_blocked url (logged call c w) d) as (call2 & ->);
      try done. }
  destruct (record_of url w) as [d|] eqn:Hr.
  - destruct (status_in ["completed"; "pending"] d) eqn:Hs.
    + destruct (mark_pending_blocked url w d) as (call & Hm); try done.
      split; [exists false; by rewrite Hm|].
      apply (Hblocked call (coll w) d); [by rewrite Hm|done..].
    + destruct (mark_pending_transition url w d)
        as (call & i & d' & Hi & Hm & Hr' & Hst & _); try done.
      split; [exists true; by rewrite Hm|].
      apply (Hblocked call (<[i := d']> (coll w)) d');
        [by rewrite Hm|done|by apply status_in_pending].
  - destruct (mark_pending_absent url w) as (call & d' & Hm & Hurl & Hst & _);
      try done.
    split; [exists true; by rewrite Hm|].
    apply (Hblocked call (coll w ++ [d']) d');
      [by rewrite Hm| |by apply status_in_pending].
    by apply find_one_appended.
Qed.

End StoreInvariants.

Section StoreInvariantWitnesses.
Import Mongo Sys Repository Frame Obs.

Lemma repository_keeps_unique_urls_witness :
  unique_urls (coll (Example.world_with [Example.doc "pending"] []))
  /\ unique_urls
       (coll (snd (upsert Example.url Example.payload
                     (Example.world_with [Example.doc "pending"] [])))).
Proof.
  split; [apply NoDup_singleton|].
  exact (proj1 (proj2 (repository_keeps_unique_urls Example.url Example.payload
                         "HTTP 404"
                         (Example.world_with [Example.doc "pending"] [])
                         (NoDup_singleton _)))).
Defined.

Lemma repository_leaves_other_urls_witness :
  record_of Example.url
    (snd (mark_pending "https://other.example/"
            (Example.world_with [Example.doc "completed"] [])))
  = Some (Example.doc "completed").
Proof.
  assert (Hne : Example.url <> "https://other.example/") by discriminate.
  destruct (repository_leaves_other_urls "https://other.example/" Example.url
              Example.payload "HTTP 404"
              (Example.world_with [Example.doc "completed"] []) Hne)
    as (_ & _ & H & _).
  rewrite H. reflexivity.
Defined.

Lemma repository_keeps_identity_witness :
  exists d' : document,
    record_of Example.url
      (snd (mark_failed Example.url "HTTP 404"
              (Example.world_with [Example.doc "pending"] []))) = Some d'
    /\ d' !! "_id" = Some (VOid 7)
    /\ d' !! "created_at" = Some (VTime 5).
Proof.
  destruct (repository_keeps_identity Example.url Example.payload "HTTP 404"
              (Example.world_with [Example.doc "pending"] [])
              (Example.doc "pending") eq_refl)
    as (_ & _ & _ & H).
  exact H.
Defined.

Lemma repository_requires_connection_witness :
  exists msg,
    upsert Example.url Example.payload
      (set_db (fun d => mkDb false (docs d) (db_faults d) (db_calls d))
              (Example.world_with [] []))
    = (Py.Raise (Py.RuntimeError msg),
       set_db (fun d => mkDb false (docs d) (db_faults d) (db_calls d))
              (Example.world_with [] [])).
Proof.
  destruct (repository_requires_connection Example.url Example.payload "HTTP 404"
              (set_db (fun d => mkDb false (docs d) (db_faults d) (db_calls d))
                      (Example.world_with [] []))
              eq_refl) as (msg & _ & H & _).
  by exists msg.
Defined.

Lemma mark_failed_raises_no_store_error_witness :
  Py.is_PyMongoError (Py.KafkaException "unexpected") = false.
Proof.
  exact (mark_failed_raises_no_store_error Example.url "HTTP 404"
           (Example.world_with [] [Some (Py.KafkaException "unexpected")])
           (Py.KafkaException "unexpected") eq_refl).
Defined.

Lemma mark_failed_never_inserts_witness :
  coll (snd (mark_failed Example.url "HTTP 404" (Example.world_with [] []))) = [].
Proof.
  exact (mark_failed_never_inserts Example.url "HTTP 404"
           (Example.world_with [] []) eq_refl).
Defined.

Lemma mark_pending_twice_witness :
  fst (mark_pending Example.url
         (snd (mark_pending Example.url (Example.world_with [] []))))
  = Py.Ret false.
Proof.
  destruct (mark_pending_twice Example.url (Example.world_with [] [])
              eq_refl NoDup_nil_2 eq_refl eq_refl) as (_ & H & _).
  exact H.
Defined.

End StoreInvariantWitnesses.

(** ** What becomes of a completed record *)

Section CompletedRecords.
Import Mongo Sys Repository Frame Obs.

#[local] Instance stays_completed_refl url : Reflexive (stays_completed url).
Proof. intros w d Hd Hs. by exists d. Qed.
#[local] Instance stays_completed_trans url : Transitive (stays_completed url).
Proof.
  intros w1 w2 w3 H12 H23 d Hd Hs.
  destruct (H12 d Hd Hs) as (d' & Hd' & Hs'). by apply (H23 d').
Qed.

Lemma stays_completed_read {T} url call
    (op : list document -> Py.result (T * list document)) :
  (forall c a c', op c = Py.Ret (a, c') -> c' = c) ->
  moves (stays_completed url) (round_trip call op).
Proof.
  intros Hop w. unfold round_trip.
  destruct (next_fault _); [by intros d Hd Hs; exists d|].
  destruct (op (docs (w_db w))) as [[a c']|e] eqn:E;
    [|by intros d Hd Hs; exists d].
  apply Hop in E as ->. intros d Hd Hs. by exists d.
Qed.

Lemma stays_completed_find_by_url url :
  moves (stays_completed url) (find_by_url url).
Proof.
  unfold find_by_url. apply moves_try_except; [apply _| |].
  - apply moves_bind; [apply _|apply moves_get_collection; apply _ |].
    intros _. apply stays_completed_read. by intros c a c' [= _ <-].
  - intros e k. destruct (Py.is_PyMongoError e); intros [= <-].
    apply moves_raise; apply _.
Qed.

(** The write of [upsert] on a completed record yields a completed
    record, whatever else the payload holds. *)
Lemma stays_completed_write url now data :
  moves (stays_completed url)
    (coll_update_one (mkQuery url []) (completed_fields url now data)
       {["created_at" := VTime now]} true).
Proof.
  intros w. unfold coll_update_one, round_trip.
  destruct (next_fault _); [by intros d Hd Hs; exists d|].
  destruct (update_one _ _ _ _ (docs (w_db w))) as [[r c']|e] eqn:E;
    [|by intros d Hd Hs; exists d].
  intros d Hd Hs. cbn [snd logged set_db w_db docs].
  apply update_one_step in E
    as [-> | [(i & d0 & Hf & -> & _) | (d1 & Hf & _)]].
  - by exists d.
  - exists (completed_fields url now data ∪ d0). split.
    + apply (find_one_replaced url _ i d0); [exact Hf|].
      apply lookup_union_Some_l. by rewrite completed_fields_lookup.
    + apply lookup_union_Some_l. by rewrite completed_fields_lookup.
  - unfold find_one in Hd. by rewrite Hf in Hd.
Qed.

Lemma stays_completed_upsert url data :
  moves (stays_completed url) (upsert url data).
Proof.
  unfold upsert. apply moves_try_except; [apply _| |].
  - apply moves_bind; [apply _|apply moves_datetime_now; apply _ |]. intros now.
    apply moves_bind; [apply _|apply moves_get_collection; apply _ |]. intros _.
    apply moves_bind; [apply _|apply stays_completed_write|].
    intros result. apply moves_bind; [apply _| |].
    + destruct (upserted_id result); [apply moves_ret; apply _|].
      apply moves_bind; [apply _|apply moves_get_collection; apply _ |]. intros _.
      apply moves_bind; [apply _| |].
      * apply stays_completed_read. by intros c a c' [= _ <-].
      * intros found. apply moves_subscript_id; apply _.
    + intros i. apply moves_ret; apply _.
  - intros e k He. destruct e; simplify_eq.
    + apply moves_bind; [apply _|apply stays_completed_find_by_url |].
      intros [d|]; [|apply moves_raise; apply _].
      apply moves_bind; [apply _|apply moves_subscript_id; apply _ |].
      intros i. apply moves_ret; apply _.
    + apply moves_raise; apply _.
Qed.

(** [mark_pending] writes nothing on a completed record, in any state
    of a store that keeps its URLs unique. *)
Lemma mark_pending_keeps_completed url w d :
  unique_urls (coll w) ->
  record_of url w = Some d -> d !! "status" = Some (VStr "completed") ->
  coll (snd (mark_pending url w)) = coll w.
Proof.
  intros Hu Hr Hs.
  destruct (database (w_db w)) eqn:Hdb.
  - destruct (db_fault w) as [e|] eqn:Hf.
    + by destruct (mark_pending_fault url w e) as (call & ->).
    + destruct (mark_pending_blocked url w d) as (call & ->); try done.
      unfold status_in. by rewrite Hs.
  - unfold mark_pending, try_except, mbind, M_bind, bind, get_collection,
      datetime_now. by rewrite Hdb.
Qed.

(** C2, as the store adapter has it.  A completed record stays completed
    under [upsert], whatever the payload and the state of the store, and
    whether the call returns or raises.  Where no two records share a
    URL, [mark_pending] leaves the collection as it was, and it answers
    false when the store is connected and the round trip meets no error
    other than a duplicate key.  [mark_failed] is unconditional: with
    the store connected and answering, it moves the record to
    [failed]. *)
Theorem completed_record_transitions url w d :
  record_of url w = Some d -> d !! "status" = Some (VStr "completed") ->
  (forall f,
     exists d', record_of url (snd (upsert url f w)) = Some d'
                /\ d' !! "status" = Some (VStr "completed"))
  /\ (unique_urls (coll w) ->
      coll (snd (mark_pending url w)) = coll w
      /\ (connected w ->
          db_fault w = None
          \/ (exists m, db_fault w = Some (Py.DuplicateKeyError m)) ->
          fst (mark_pending url w) = Py.Ret false))
  /\ (connected w -> db_fault w = None ->
      forall reason,
      exists d', record_of url (snd (mark_failed url reason w)) = Some d'
                 /\ d' !! "status" = Some (VStr "failed")).
Proof.
  intros Hr Hs. split; [|split].
  - intros f. exact (stays_completed_upsert url f w d Hr Hs).
  - intros Hu. split; [by eapply mark_pending_keeps_completed|].
    intros Hc [Hf | [m Hf]].
    + destruct (mark_pending_blocked url w d) as (call & ->); try done.
      unfold status_in. by rewrite Hs.
    + by destruct (mark_pending_fault url w (Py.DuplicateKeyError m))
        as (call & ->).
  - intros Hc Hf reason.
    destruct (mark_failed_run url reason w d)
      as (call & i & d' & Hi & -> & Hr' & Hst & _); [done..|].
    by exists d'.
Qed.

End CompletedRecords.

Lemma completed_record_transitions_witness :
  (exists d' : Mongo.document,
     Obs.record_of Example.url
       (snd (Repository.upsert Example.url {["created_at" := Mongo.VTime 1]}
               (Example.world_with [Example.doc "completed"] [])))
     = Some d'
     /\ d' !! "status" = Some (Mongo.VStr "completed"))
  /\ fst (Repository.mark_pending Example.url
            (Example.world_with [Example.doc "completed"] [])) = Py.Ret false
  /\ exists d' : Mongo.document,
       Obs.record_of Example.url
         (snd (Repository.mark_failed Example.url "HTTP 404"
                 (Example.world_with [Example.doc "completed"] [])))
       = Some d'
       /\ d' !! "status" = Some (Mongo.VStr "failed").
Proof.
  destruct (completed_record_transitions Example.url
              (Example.world_with [Example.doc "completed"] [])
              (Example.doc "completed") eq_refl eq_refl)
    as (Hu & Hp & Hf).
  split; [exact (Hu _)|]. split.
  - destruct (Hp (NoDup_singleton _)) as (_ & H).
    exact (H eq_refl (or_introl eq_refl)).
  - exact (Hf eq_refl eq_refl "HTTP 404").
Defined.

(** ** Which part of the world each layer touches *)

Section LayerFrames.
Import Mongo Sys Frame Obs.
Variable settings : Settings.

#[local] Instance only_store_refl : Reflexive only_store.
Proof. by intros w. Qed.
#[local] Instance only_store_trans : Transitive only_store.
Proof. intros w1 w2 w3 (?&?&?) (?&?&?). repeat split; congruence. Qed.
#[local] Instance only_net_refl : Reflexive only_net.
Proof. by intros w. Qed.
#[local] Instance only_net_trans : Transitive only_net.
Proof. intros w1 w2 w3 (?&?&?) (?&?&?). repeat split; congruence. Qed.
#[local] Instance only_topics_refl : Reflexive only_topics.
Proof. by intros w. Qed.
#[local] Instance only_topics_trans : Transitive only_topics.
Proof.
  intros w1 w2 w3 (?&?&?&?&?) (?&?&?&?&?). repeat split; congruence.
Qed.
#[local] Instance same_consumer_refl : Reflexive same_consumer.
Proof. by intros w. Qed.
#[local] Instance same_consumer_trans : Transitive same_consumer.
Proof. intros w1 w2 w3 H1 H2. unfold same_consumer in *. congruence. Qed.

Lemma moves_weaken {T} (R R' : world -> world -> Prop) (m : M T) :
  (forall w w', R w w' -> R' w w') -> moves R m -> moves R' m.
Proof. intros HR Hm w. apply HR, Hm. Qed.

Lemma only_store_round_trip {T} call
    (op : list document -> Py.result (T * list document)) :
  moves only_store (Repository.round_trip call op).
Proof.
  intros w. unfold Repository.round_trip.
  destruct (next_fault _); [done|]. by destruct (op _) as [[a c]|e].
Qed.

Lemma only_store_find_by_url url : moves only_store (Repository.find_by_url url).
Proof.
  unfold Repository.find_by_url. apply moves_try_except; [apply _| |].
  - apply moves_bind; [apply _|apply moves_get_collection; apply _|].
    intros _. apply only_store_round_trip.
  - intros e k. destruct (Py.is_PyMongoError e); intros [= <-].
    apply moves_raise; apply _.
Qed.

Lemma only_store_upsert url data : moves only_store (Repository.upsert url data).
Proof.
  unfold Repository.upsert. apply moves_try_except; [apply _| |].
  - apply moves_bind; [apply _|apply moves_datetime_now; apply _|]. intros now.
    apply moves_bind; [apply _|apply moves_get_collection; apply _|]. intros _.
    apply moves_bind; [apply _|apply only_store_round_trip|].
    intros result. apply moves_bind; [apply _| |].
    + destruct (upserted_id result); [apply moves_ret; apply _|].
      apply moves_bind; [apply _|apply moves_get_collection; apply _|]. intros _.
      apply moves_bind; [apply _|apply only_store_round_trip|]. intros found.
      apply moves_subscript_id; apply _.
    + intros i. apply moves_ret; apply _.
  - intros e k He. destruct e; simplify_eq.
    + apply moves_bind; [apply _|apply only_store_find_by_url|].
      intros [d|]; [|apply moves_raise; apply _].
      apply moves_bind; [apply _|apply moves_subscript_id; apply _|].
      intros i. apply moves_ret; apply _.
    + apply moves_raise; apply _.
Qed.

Lemma only_store_mark_pending url : moves only_store (Repository.mark_pending url).
Proof.
  unfold Repository.mark_pending. apply moves_try_except; [apply _| |].
  - apply moves_bind; [apply _|apply moves_datetime_now; apply _|]. intros now.
    apply moves_bind; [apply _|apply moves_get_collection; apply _|]. intros _.
    apply moves_bind; [apply _|apply only_store_round_trip|].
    intros result. destruct (_ || _); apply moves_ret; apply _.
  - intros e k He. destruct e; simplify_eq.
    + apply moves_ret; apply _.
    + apply moves_raise; apply _.
Qed.

Lemma only_store_mark_failed url reason :
  moves only_store (Repository.mark_failed url reason).
Proof.
  unfold Repository.mark_failed. apply moves_try_except; [apply _| |].
  - apply moves_bind; [apply _|apply moves_get_collection; apply _|]. intros _.
    apply moves_bind; [apply _|apply moves_datetime_now; apply _|]. intros now.
    apply moves_bind; [apply _|apply only_store_round_trip|].
    intros _. apply moves_ret; apply _.
  - intros e k. destruct (Py.is_PyMongoError e); intros [= <-].
    apply moves_ret; apply _.
Qed.

#[local] Instance same_link_refl : Reflexive same_link.
Proof. by intros w. Qed.
#[local] Instance same_link_trans : Transitive same_link.
Proof.
  intros w1 w2 w3 [H1 H1'] [H2 H2']. split; [congruence|]. auto.
Qed.

Lemma same_link_round_trip {T} call
    (op : list document -> Py.result (T * list document)) :
  moves same_link (Repository.round_trip call op).
Proof.
  intros w. unfold Repository.round_trip.
  assert (H : forall c, same_link w (Repository.logged call c w)).
  { intros c. split; [done|]. cbn. by intros ->. }
  destruct (next_fault _); [apply H|]. destruct (op _) as [[a c]|e]; apply H.
Qed.

Lemma same_link_upsert url data : moves same_link (Repository.upsert url data).
Proof.
  assert (Hfind : moves same_link (Repository.find_by_url url)).
  { unfold Repository.find_by_url. apply moves_try_except; [apply _| |].
    - apply moves_bind; [apply _|apply moves_get_collection; apply _|].
      intros _. apply same_link_round_trip.
    - intros e k. destruct (Py.is_PyMongoError e); intros [= <-].
      apply moves_raise; apply _. }
  unfold Repository.upsert. apply moves_try_except; [apply _| |].
  - apply moves_bind; [apply _|apply moves_datetime_now; apply _|]. intros now.
    apply moves_bind; [apply _|apply moves_get_collection; apply _|]. intros _.
    apply moves_bind; [apply _|apply same_link_round_trip|].
    intros result. apply moves_bind; [apply _| |].
    + destruct (upserted_id result); [apply moves_ret; apply _|].
      apply moves_bind; [apply _|apply moves_get_collection; apply _|]. intros _.
      apply moves_bind; [apply _|apply same_link_round_trip|]. intros found.
      apply moves_subscript_id; apply _.
    + intros i. apply moves_ret; apply _.
  - intros e k He. destruct e; simplify_eq.
    + apply moves_bind; [apply _|apply Hfind|].
      intros [d|]; [|apply moves_raise; apply _].
      apply moves_bind; [apply _|apply moves_subscript_id; apply _|].
      intros i. apply moves_ret; apply _.
    + apply moves_raise; apply _.
Qed.

(** [fetch_url]: one request on the network, nothing else. *)
Lemma only_net_fetch_url url : moves only_net (Fetcher.fetch_url settings url).
Proof.
  intros w. unfold Fetcher.fetch_url, mbind, M_bind, bind, Fetcher.client_get, lift.
  cbn -[Fetcher.classify].
  by destruct (Fetcher.classify settings url (answers (w_net w) (length (requests (w_net w))) url)).
Qed.

Lemma fetch_url_requests url w :
  requests (w_net (snd (Fetcher.fetch_url settings url w)))
  = requests (w_net w) ++ [url].
Proof.
  unfold Fetcher.fetch_url, mbind, M_bind, bind, Fetcher.client_get, lift.
  cbn -[Fetcher.classify].
  by destruct (Fetcher.classify settings url (answers (w_net w) (length (requests (w_net w))) url)).
Qed.

(** The producer: the topics and the script of its faults, nothing else. *)
Lemma only_topics_produce topic value : moves only_topics (Producer.produce topic value).
Proof.
  intros w. unfold Producer.produce. by destruct (next_fault _).
Qed.

Lemma only_topics_producer_is_none : moves only_topics Producer.producer_is_none.
Proof. by intros w. Qed.

Lemma only_topics_enqueue url : moves only_topics (Producer.enqueue settings url).
Proof.
  unfold Producer.enqueue. apply moves_bind; [apply _|apply only_topics_producer_is_none|].
  intros [|]; [apply moves_raise; apply _|].
  apply moves_try_except; [apply _|apply only_topics_produce|].
  intros e k He. destruct e; simplify_eq. apply moves_raise; apply _.
Qed.

Lemma only_topics_publish_with_retry url rc :
  moves only_topics (Producer.publish_with_retry settings url rc).
Proof.
  unfold Producer.publish_with_retry.
  apply moves_bind; [apply _|apply only_topics_producer_is_none|].
  intros [|]; [apply moves_raise; apply _|apply only_topics_produce].
Qed.

Lemma only_topics_publish_to_dlq url rc err :
  moves only_topics (Producer.publish_to_dlq settings url rc err).
Proof.
  unfold Producer.publish_to_dlq.
  apply moves_bind; [apply _|apply only_topics_producer_is_none|].
  intros [|]; [apply moves_raise; apply _|apply only_topics_produce].
Qed.

Lemma only_store_same_consumer w w' : only_store w w' -> same_consumer w w'.
Proof. intros (Hk & _). unfold same_consumer, consumer_state. by rewrite Hk. Qed.

Lemma only_net_same_consumer w w' : only_net w w' -> same_consumer w w'.
Proof. intros (_ & Hk & _). unfold same_consumer, consumer_state. by rewrite Hk. Qed.

Lemma only_topics_same_consumer w w' : only_topics w w' -> same_consumer w w'.
Proof. by intros (_ & _ & _ & Hc & _). Qed.

Lemma same_consumer_process_url url :
  moves same_consumer (Consumer.process_url settings url).
Proof.
  unfold Consumer.process_url.
  apply moves_bind; [apply _| |].
  - eapply moves_weaken; [exact only_net_same_consumer|apply only_net_fetch_url].
  - intros c. apply moves_bind; [apply _| |intros _; apply moves_ret; apply _].
    eapply moves_weaken; [exact only_store_same_consumer|apply only_store_upsert].
Qed.

Lemma same_consumer_to_dlq url rc err :
  moves same_consumer (Consumer.to_dlq settings url rc err).
Proof.
  unfold Consumer.to_dlq, Consumer.mark_failed_in_db.
  apply moves_try_except; [apply _| |].
  - apply moves_bind; [apply _| |].
    + eapply moves_weaken; [exact only_topics_same_consumer|].
      apply only_topics_publish_to_dlq.
    + intros _. apply moves_try_except; [apply _| |].
      * eapply moves_weaken; [exact only_store_same_consumer|].
        apply only_store_mark_failed.
      * intros e k [= <-]. apply moves_ret; apply _.
  - intros e k [= <-]. apply moves_ret; apply _.
Qed.

Lemma swallow_returns (m : M unit) w :
  fst (try_except m (fun _ => Some (ret ())) w) = Py.Ret ().
Proof. unfold try_except. by destruct (m w) as [[[]|e] w1]. Qed.

Lemma to_dlq_returns url rc err w :
  fst (Consumer.to_dlq settings url rc err w) = Py.Ret ().
Proof. apply swallow_returns. Qed.

Lemma same_consumer_republish url rc :
  moves same_consumer
    (try_except (Producer.publish_with_retry settings url rc)
                (fun _ => Some (ret ()))).
Proof.
  apply moves_try_except; [apply _| |].
  - eapply moves_weaken; [exact only_topics_same_consumer|].
    apply only_topics_publish_with_retry.
  - intros e k [= <-]. apply moves_ret; apply _.
Qed.

Lemma republish_returns url rc w :
  fst (try_except (Producer.publish_with_retry settings url rc)
                  (fun _ => Some (ret ())) w) = Py.Ret ().
Proof. apply swallow_returns. Qed.

Lemma commit_run offset w :
  next_fault (commit_faults (w_kafka w)) = None ->
  fst (Consumer.commit offset w) = Py.Ret ()
  /\ committed (w_kafka (snd (Consumer.commit offset w)))
     = committed (w_kafka w) ++ [offset]
  /\ position (w_kafka (snd (Consumer.commit offset w))) = position (w_kafka w).
Proof. intros H. unfold Consumer.commit. by rewrite H. Qed.

Lemma same_consumer_to_dlq_uncounted url v err :
  moves same_consumer (Consumer.to_dlq_uncounted settings url v err).
Proof.
  unfold Consumer.to_dlq_uncounted, Consumer.mark_failed_in_db,
    Producer.publish_to_dlq_uncounted.
  apply moves_try_except; [apply _| |].
  - apply moves_bind; [apply _| |].
    + eapply moves_weaken; [exact only_topics_same_consumer|].
      apply moves_bind; [apply _|apply only_topics_producer_is_none|].
      intros [|]; [apply moves_raise; apply _|apply only_topics_produce].
    + intros _. apply moves_try_except; [apply _| |].
      * eapply moves_weaken; [exact only_store_same_consumer|].
        apply only_store_mark_failed.
      * intros e k [= <-]. apply moves_ret; apply _.
  - intros e k [= <-]. apply moves_ret; apply _.
Qed.

(** A dispatched message is committed once, and the loop body then
    returns normally, whatever [process_url] does and whatever the store
    and the producer answer, as long as the commit itself goes through
    and the [retry_count] of the message is an integer or absent.  With
    a [retry_count] that is not a number the same holds when
    [process_url] returns or fails permanently; any other failure
    reaches [retry_count += 1], whose [TypeError] leaves the loop with
    nothing committed. *)
Theorem dispatch_commits_once offset url w :
  next_fault (commit_faults (w_kafka w)) = None ->
  (forall rc,
     let r := Consumer.dispatch settings offset url rc w in
     fst r = Py.Ret ()
     /\ committed (w_kafka (snd r)) = committed (w_kafka w) ++ [offset]
     /\ position (w_kafka (snd r)) = position (w_kafka w))
  /\ (forall v,
     let r := Consumer.dispatch_uncounted settings offset url v w in
     match fst (Consumer.process_url settings url w) with
     | Py.Ret _ | Py.Raise (Py.PermanentCollectionError _ _) =>
         fst r = Py.Ret ()
         /\ committed (w_kafka (snd r)) = committed (w_kafka w) ++ [offset]
     | Py.Raise _ =>
         fst r = Py.Raise (Consumer.increment_error v)
         /\ committed (w_kafka (snd r)) = committed (w_kafka w)
     end
     /\ position (w_kafka (snd r)) = position (w_kafka w)).
Proof.
  intros Hcf.
  assert (Hgo : forall w1, same_consumer w w1 ->
    fst (Consumer.commit offset w1) = Py.Ret ()
    /\ committed (w_kafka (snd (Consumer.commit offset w1)))
       = committed (w_kafka w) ++ [offset]
    /\ position (w_kafka (snd (Consumer.commit offset w1))) = position (w_kafka w)).
  { intros w1 Hs. unfold same_consumer, consumer_state in Hs.
    injection Hs as Hpe Hpos Hcm Hcf1 Hsd.
    destruct (commit_run offset w1) as (H1 & H2 & H3); [by rewrite Hcf1|].
    rewrite H1, H2, H3. by rewrite Hcm, Hpos. }
  assert (Hboth : forall w1 (m : M unit),
    same_consumer w w1 ->
    moves same_consumer m -> (forall w0, fst (m w0) = Py.Ret ()) ->
    fst ((let (r, w') := m w1 in
          match r with
          | Py.Ret _ => Consumer.commit offset w'
          | Py.Raise e0 => (Py.Raise e0, w')
          end)) = Py.Ret ()
    /\ committed (w_kafka (snd (let (r, w') := m w1 in
          match r with
          | Py.Ret _ => Consumer.commit offset w'
          | Py.Raise e0 => (Py.Raise e0, w')
          end))) = committed (w_kafka w) ++ [offset]
    /\ position (w_kafka (snd (let (r, w') := m w1 in
          match r with
          | Py.Ret _ => Consumer.commit offset w'
          | Py.Raise e0 => (Py.Raise e0, w')
          end))) = position (w_kafka w)).
  { intros w1 m Hp Hm Hret. specialize (Hm w1). specialize (Hret w1).
    destruct (m w1) as [[[]|e0] w2]; cbn in Hret, Hm; [|done].
    apply Hgo. unfold same_consumer in *. congruence. }
  split.
  - intros rc r. subst r.
    unfold Consumer.dispatch, try_except, mbind, M_bind, bind.
    pose proof (same_consumer_process_url url w) as Hp.
    destruct (Consumer.process_url settings url w) as [[[]|e] w1]; cbn [snd] in Hp.
    + specialize (Hgo w1 Hp).
      destruct (Consumer.commit offset w1) as [[[]|e] w2]; cbn in *; [done|].
      by destruct Hgo.
    + destruct e;
        try (destruct (kafka_max_retries settings <=? rc + 1)%Z;
             [apply (Hboth w1 _ Hp (same_consumer_to_dlq _ _ _) (to_dlq_returns _ _ _))
             |apply (Hboth w1 _ Hp (same_consumer_republish _ _) (republish_returns _ _))]).
      apply (Hboth w1 _ Hp (same_consumer_to_dlq _ _ _) (to_dlq_returns _ _ _)).
  - intros v r. subst r.
    unfold Consumer.dispatch_uncounted, try_except, mbind, M_bind, bind.
    pose proof (same_consumer_process_url url w) as Hp.
    destruct (Consumer.process_url settings url w) as [[[]|e] w1];
      cbn [fst snd] in Hp |- *.
    + specialize (Hgo w1 Hp).
      destruct (Consumer.commit offset w1) as [[[]|e] w2]; cbn in *;
        [by destruct Hgo as (_ & ? & ?)|by destruct Hgo].
    + assert (Hw1 : committed (w_kafka w1) = committed (w_kafka w)
                    /\ position (w_kafka w1) = position (w_kafka w)).
      { unfold same_consumer, consumer_state in Hp.
        by injection Hp as _ -> -> _ _. }
      destruct e; try (cbn; by destruct Hw1).
      destruct (Hboth w1 _ Hp (same_consumer_to_dlq_uncounted url v
                                 (Py.str (Py.PermanentCollectionError url0 reason)))
                  (swallow_returns _)) as (H1 & H2 & H3).
      split; [split; [exact H1|exact H2]|exact H3].
Qed.

(** The repository never publishes, never consumes and never makes an
    HTTP request: its four operations leave everything but the store as
    it was. *)
Theorem repository_touches_only_store url data reason w :
  only_store w (snd (Repository.find_by_url url w))
  /\ only_store w (snd (Repository.upsert url data w))
  /\ only_store w (snd (Repository.mark_pending url w))
  /\ only_store w (snd (Repository.mark_failed url reason w)).
Proof.
  split; [apply only_store_find_by_url|].
  split; [apply only_store_upsert|].
  split; [apply only_store_mark_pending|apply only_store_mark_failed].
Qed.

(** No [httpx] exception leaves [fetch_url] as it is: each becomes a
    collection error for the URL, permanent or transient, and the
    unclassified [CollectionError] only for an [HTTPStatusError] whose
    status is in neither list. *)
Theorem httpx_errors_become_collection_errors url cls msg w :
  let r := fst (Fetcher.fetch_url settings url
                  (Obs.answering (HttpxRaises cls msg) w)) in
  exists reason,
    r = Py.Raise (Py.PermanentCollectionError url reason)
    \/ r = Py.Raise (Py.TransientCollectionError url reason)
    \/ (r = Py.Raise (Py.CollectionError url reason)
        /\ exists status,
            cls = HTTPStatusError status
            /\ (status ∉ Fetcher.PERMANENT_STATUS_CODES)
            /\ (status ∉ Fetcher.TRANSIENT_STATUS_CODES)).
Proof.
  unfold Fetcher.fetch_url, mbind, M_bind, bind, Fetcher.client_get, lift,
    Obs.answering.
  cbn [fst snd w_net set_net answers requests Fetcher.classify].
  destruct cls; cbn [Fetcher.is_TimeoutException];
    try (eexists; right; left; reflexivity);
    try (eexists; left; reflexivity).
  - destruct (Fetcher.dns_failure_text _);
      [eexists; left; reflexivity|eexists; right; left; reflexivity].
  - unfold Fetcher.status_in. case_bool_decide as Hp;
      [eexists; left; reflexivity|].
    case_bool_decide as Ht; [eexists; right; left; reflexivity|].
    eexists. right. right. split; [reflexivity|]. by exists status.
Qed.

(** With a producer, [enqueue] appends one task for the URL, carrying no
    retry count, to the main topic and to no other; when [produce]
    raises, that exception reaches the caller and nothing is
    published. *)
Theorem enqueue_publishes_one_task url w :
  producer (w_kafka w) = true ->
  let r := Producer.enqueue settings url w in
  match next_fault (produce_faults (w_kafka w)) with
  | None =>
      fst r = Py.Ret ()
      /\ topics (w_kafka (snd r))
         = <[kafka_topic settings :=
               Obs.topic_log (kafka_topic settings) w ++ [Task (Some url) None None]]>
             (topics (w_kafka w))
  | Some e =>
      fst r = Py.Raise e /\ topics (w_kafka (snd r)) = topics (w_kafka w)
  end.
Proof.
  intros Hp.
  unfold Producer.enqueue, mbind, M_bind, bind, Producer.producer_is_none,
    try_except, Producer.produce.
  rewrite Hp. cbn.
  destruct (next_fault _) as [e|]; [|done].
  by destruct e.
Qed.

End LayerFrames.

Lemma enqueue_publishes_one_task_witness :
  Obs.topic_log "metadata-tasks"
    (snd (Producer.enqueue Sys.default_settings Example.url
            (Example.world_with [] [])))
  = [Sys.Task (Some Example.url) None None].
Proof.
  pose proof (enqueue_publishes_one_task Sys.default_settings Example.url
                (Example.world_with [] []) eq_refl) as H.
  cbv zeta in H. cbn [Sys.next_fault Sys.produce_faults Sys.w_kafka
                      Example.world_with Example.kafka0] in H.
  destruct H as (_ & H). unfold Obs.topic_log at 1. rewrite H. reflexivity.
Defined.

Lemma dispatch_commits_once_witness :
  Sys.committed
    (Sys.w_kafka (snd (Consumer.dispatch Sys.default_settings 0 Example.url 0
                         Example.always_unavailable)))
  = [0]
  /\ Sys.committed
       (Sys.w_kafka (snd (Consumer.dispatch_uncounted Sys.default_settings 0
                            Example.url Sys.NullCount
                            Example.always_unavailable)))
     = [].
Proof.
  destruct (dispatch_commits_once Sys.default_settings 0 Example.url
              Example.always_unavailable eq_refl) as (Hint & Hnan).
  split.
  - by destruct (Hint 0%Z) as (_ & H & _).
  - by destruct (Hnan Sys.NullCount) as ((_ & H) & _).
Defined.

(** ** The worker loop, message by message *)

Section WorkerSteps.
Import Mongo Sys Repository Obs Consumer Frame.
Variable settings : Settings.

(** A message that does not decode, or that carries no URL, is passed
    over: nothing is fetched, stored, published or committed, and the
    loop goes on.  A message whose JSON is not an object is not passed
    over: [data.get] raises [AttributeError], which no handler of the
    loop names, so the loop ends there, again with nothing fetched,
    stored, published or committed. *)
Theorem undecodable_message_is_skipped w log v :
  poll_events (w_kafka w) = [] ->
  topics (w_kafka w) !! kafka_topic settings = Some log ->
  log !! position (w_kafka w) = Some v ->
  (v = Undecodable \/ Trace.no_url v \/ exists ty, v = NotAnObject ty) ->
  let r := iteration settings w in
  (v = Undecodable \/ Trace.no_url v -> fst r = Py.Ret ())
  /\ (forall ty, v = NotAnObject ty ->
        fst r = Py.Raise (Py.OtherException
                  ("AttributeError: '" +:+ ty
                   +:+ "' object has no attribute 'get'"))
        /\ (shutdown (w_kafka w) = false ->
            forall fuel, consume_loop settings (S fuel) w = r))
  /\ position (w_kafka (snd r)) = S (position (w_kafka w))
  /\ committed (w_kafka (snd r)) = committed (w_kafka w)
  /\ topics (w_kafka (snd r)) = topics (w_kafka w)
  /\ w_db (snd r) = w_db w
  /\ w_net (snd r) = w_net w.
Proof.
  intros Hpe Hlog Hv Hbad r.
  assert (Hr : r = (match v with
                    | NotAnObject ty =>
                        Py.Raise (Py.OtherException
                          ("AttributeError: '" +:+ ty
                           +:+ "' object has no attribute 'get'"))
                    | _ => Py.Ret ()
                    end,
                    set_kafka (with_consumer [] (S (position (w_kafka w)))
                                 (committed (w_kafka w))
                                 (commit_faults (w_kafka w))) w)).
  { subst r. unfold iteration, mbind, M_bind, bind, poll.
    rewrite Hpe, Hlog. cbn. rewrite Hv.
    destruct Hbad as [-> | [Hno | [ty ->]]]; [done| |done].
    destruct v as [u rc err|u c err| |]; try done;
      by destruct Hno as [-> | ->]. }
  split; [|split].
  - rewrite Hr. intros [-> | Hno]; [done|].
    by destruct v.
  - intros ty ->. rewrite Hr. split; [done|].
    intros Hsd fuel. cbn [consume_loop]. rewrite Hsd.
    unfold mbind, M_bind, bind. fold r. by rewrite Hr.
  - by rewrite Hr.
Qed.

(** A permanent failure is dead-lettered at once, whatever the retry
    count of the message: the dead-letter topic receives the URL with
    the count as it came (0 when the message carries none) and the text
    of the error, the record becomes [failed] with that text, and the
    offset is committed.  Where the two topics have different names,
    the main topic is as it was. *)
Theorem permanent_failure_is_dead_lettered url rc err0 w log d exc_url reason :
  kafka_topic settings <> kafka_dlq_topic settings ->
  quiet w -> url <> "" ->
  topics (w_kafka w) !! kafka_topic settings = Some log ->
  log !! position (w_kafka w) = Some (Task (Some url) rc err0) ->
  Fetcher.classify settings url
    (answers (w_net w) (length (requests (w_net w))) url)
  = Py.Raise (Py.PermanentCollectionError exc_url reason) ->
  record_of url w = Some d ->
  exists w' d',
    iteration settings w = (Py.Ret (), w') /\ quiet w'
    /\ topic_log (kafka_dlq_topic settings) w'
       = topic_log (kafka_dlq_topic settings) w
         ++ [Task (Some url) (Some (default 0%Z rc))
                  (Some (Py.str (Py.PermanentCollectionError exc_url reason)))]
    /\ topic_log (kafka_topic settings) w' = log
    /\ (forall t, t <> kafka_dlq_topic settings ->
                  topic_log t w' = topic_log t w)
    /\ position (w_kafka w') = S (position (w_kafka w))
    /\ committed (w_kafka w') = committed (w_kafka w) ++ [position (w_kafka w)]
    /\ w_net w' = mkNet (answers (w_net w)) (requests (w_net w) ++ [url])
    /\ record_of url w' = Some d'
    /\ d' !! "status" = Some (VStr "failed")
    /\ d' !! "error"
       = Some (VStr (Py.str (Py.PermanentCollectionError exc_url reason))).
Proof.
  intros Hne [Hc Hdb Hp Hpf Hpe Hcf Hsd] Hurl Hlog Hmsg Hcl Hrec.
  destruct w as [[dbon c dbf calls] [prod tps pf pe pos cm cf sd] [ans reqs] clk].
  cbn in Hc, Hdb, Hp, Hpf, Hpe, Hcf, Hsd, Hlog, Hmsg, Hcl. subst.
  unfold iteration, mbind, M_bind, bind, poll. cbn. rewrite Hlog. cbn.
  rewrite Hmsg.
  replace (Text.is_empty url) with false by (by destruct url).
  unfold dispatch, try_except, mbind, M_bind, bind, process_url,
    Fetcher.fetch_url, mbind, M_bind, bind, Fetcher.client_get, lift.
  cbn [w_net answers requests set_net set_kafka]. rewrite Hcl.
  unfold to_dlq, try_except, Producer.publish_to_dlq, mbind, M_bind, bind,
    Producer.producer_is_none, Producer.produce, mark_failed_in_db, try_except,
    commit.
  cbn -[mark_failed Py.str].
  match goal with
  | |- context [mark_failed ?u ?r ?w0] =>
      destruct (mark_failed_run u r w0 d)
        as (call & i & d' & Hi & -> & Hr' & Hst & Herr & _); [done..|]
  end.
  cbn -[Py.str]. eexists; exists d'. split; [reflexivity|].
  split; [by constructor|].
  split; [unfold topic_log; cbn -[Py.str]; by rewrite lookup_insert_eq|].
  split; [unfold topic_log; cbn -[Py.str];
          by rewrite lookup_insert_ne, Hlog by done|].
  split; [intros t Ht; unfold topic_log; cbn -[Py.str];
          by rewrite lookup_insert_ne by done|].
  split; [reflexivity|]. split; [reflexivity|]. split; [reflexivity|].
  split; [exact Hr'|]. split; [exact Hst|exact Herr].
Qed.


(** Without a producer a message whose fetch fails is lost: nothing is
    published, on either topic, the record is not marked failed, and the
    offset is committed all the same. *)
Theorem failure_without_producer_is_dropped offset url rc w e :
  Fetcher.classify settings url
    (answers (w_net w) (length (requests (w_net w))) url) = Py.Raise e ->
  producer (w_kafka w) = false ->
  next_fault (commit_faults (w_kafka w)) = None ->
  let r := dispatch settings offset url rc w in
  fst r = Py.Ret ()
  /\ w_db (snd r) = w_db w
  /\ topics (w_kafka (snd r)) = topics (w_kafka w)
  /\ committed (w_kafka (snd r)) = committed (w_kafka w) ++ [offset].
Proof.
  intros Hcl Hp Hcf.
  destruct w as [dbs [prod tps pf pe pos cm cf sd] [ans reqs] clk].
  cbn in Hcl, Hp, Hcf. subst.
  unfold dispatch, try_except, mbind, M_bind, bind, process_url,
    Fetcher.fetch_url, mbind, M_bind, bind, Fetcher.client_get, lift.
  cbn [w_net answers requests set_net set_kafka]. rewrite Hcl.
  unfold to_dlq, try_except, Producer.publish_to_dlq,
    Producer.publish_with_retry, mbind, M_bind, bind,
    Producer.producer_is_none, commit.
  destruct e; try destruct (kafka_max_retries settings <=? rc + 1)%Z;
    cbn; by rewrite Hcf.
Qed.

(** A commit that fails after a successful fetch and store is handled
    like a failed fetch.  With retries left the URL, although stored as
    [completed], is published again with its count raised; with none
    left the record just completed is marked [failed] and the URL is
    dead-lettered with the text of the commit error.  The second commit
    goes through. *)
Theorem commit_failure_after_success offset url rc w data d oid msg cf' :
  connected w -> db_faults (w_db w) = [] ->
  producer (w_kafka w) = true -> produce_faults (w_kafka w) = [] ->
  commit_faults (w_kafka w) = Some (Py.KafkaException msg) :: cf' ->
  next_fault cf' = None ->
  Fetcher.classify settings url
    (answers (w_net w) (length (requests (w_net w))) url) = Py.Ret data ->
  record_of url w = Some d -> d !! "_id" = Some oid ->
  let r := dispatch settings offset url rc w in
  fst r = Py.Ret ()
  /\ committed (w_kafka (snd r)) = committed (w_kafka w) ++ [offset]
  /\ ((rc + 1 < kafka_max_retries settings)%Z ->
      topics (w_kafka (snd r))
      = <[kafka_topic settings :=
            topic_log (kafka_topic settings) w
            ++ [Task (Some url) (Some (rc + 1)%Z) None]]> (topics (w_kafka w))
      /\ exists d', record_of url (snd r) = Some d'
                    /\ d' !! "status" = Some (VStr "completed"))
  /\ ((kafka_max_retries settings <= rc + 1)%Z ->
      topics (w_kafka (snd r))
      = <[kafka_dlq_topic settings :=
            topic_log (kafka_dlq_topic settings) w
            ++ [Task (Some url) (Some (rc + 1)%Z) (Some msg)]]> (topics (w_kafka w))
      /\ exists d', record_of url (snd r) = Some d'
                    /\ d' !! "status" = Some (VStr "failed")
                    /\ d' !! "error" = Some (VStr msg)).
Proof.
  intros Hc Hdb Hp Hpf Hcf Hcf' Hcl Hr Hoid.
  destruct w as [[dbon c dbf calls] [prod tps pf pe pos cm cf sd] [ans reqs] clk].
  cbn in Hc, Hdb, Hp, Hpf, Hcf, Hcl. subst.
  unfold dispatch, try_except, mbind, M_bind, bind, process_url,
    Fetcher.fetch_url, mbind, M_bind, bind, Fetcher.client_get, lift.
  cbn [w_net answers requests set_net set_kafka]. rewrite Hcl.
  cbn -[upsert Service.payload_of].
  match goal with
  | |- context [upsert url ?f ?w0] =>
      pose proof (only_store_upsert url f w0) as (Hk & Hn & Hclk);
      pose proof (same_link_upsert url f w0) as (Hon & Hflt);
      destruct (upsert_updates url f w0 d)
        as (i & d' & w' & Hi & Hu & Hc' & Hr' & Hid' & Hca & Hk'); try done
  end.
  rewrite Hoid in Hu. rewrite Hu in Hk, Hn, Hclk, Hon, Hflt |- *.
  cbn [fst snd] in *. specialize (Hflt eq_refl).
  assert (Hst : d' !! "status" = Some (VStr "completed")).
  { rewrite Hk' by done. by rewrite lookup_union_l', completed_fields_lookup. }
  destruct w' as [[dbon' c' dbf' calls'] k' n' clk'].
  cbn in Hk, Hn, Hclk, Hon, Hflt. subst.
  unfold commit. cbn -[mark_failed].
  destruct (kafka_max_retries settings <=? rc + 1)%Z eqn:Hmax.
  - apply Z.leb_le in Hmax.
    unfold to_dlq, try_except, Producer.publish_to_dlq, mbind, M_bind, bind,
      Producer.producer_is_none, Producer.produce, mark_failed_in_db, try_except.
    cbn -[mark_failed].
    match goal with
    | |- context [mark_failed ?u ?r ?w0] =>
        destruct (mark_failed_run u r w0 d')
          as (call & j & d2 & Hj & -> & Hr2 & Hst2 & Herr2 & _); [done..|]
    end.
    cbn. rewrite Hcf'. cbn.
    split; [done|]. split; [done|]. split; [lia|]. intros _.
    split; [done|]. by exists d2.
  - apply Z.leb_gt in Hmax.
    unfold Producer.publish_with_retry, try_except, mbind, M_bind, bind,
      Producer.producer_is_none, Producer.produce.
    cbn. rewrite Hcf'. cbn.
    split; [done|]. split; [done|]. split; [|lia]. intros _.
    split; [done|]. by exists d'.
Qed.




End WorkerSteps.

Section WorkerWitnesses.
Import Mongo Sys Repository Obs Consumer.

Lemma undecodable_message_is_skipped_witness :
  (let r := iteration default_settings
              (Scenario.running [] [Undecodable] (Responds Example.hello)) in
   fst r = Py.Ret ()
   /\ position (w_kafka (snd r)) = 1 /\ committed (w_kafka (snd r)) = [])
  /\ (let r := consume_loop default_settings 3
                 (Scenario.running [] [NotAnObject "list"]
                    (Responds Example.hello)) in
      fst r = Py.Raise (Py.OtherException
                "AttributeError: 'list' object has no attribute 'get'")
      /\ committed (w_kafka (snd r)) = []).
Proof.
  split.
  - destruct (undecodable_message_is_skipped default_settings
                (Scenario.running [] [Undecodable] (Responds Example.hello))
                [Undecodable] Undecodable eq_refl eq_refl eq_refl
                (or_introl eq_refl))
      as (Hret & _ & Hpos & Hcm & _).
    split; [exact (Hret (or_introl eq_refl))|]. split; [exact Hpos|exact Hcm].
  - destruct (undecodable_message_is_skipped default_settings
                (Scenario.running [] [NotAnObject "list"] (Responds Example.hello))
                [NotAnObject "list"] (NotAnObject "list") eq_refl eq_refl eq_refl
                (or_intror (or_intror (ex_intro _ "list" eq_refl))))
      as (_ & Hraise & _ & Hcm & _).
    destruct (Hraise "list" eq_refl) as (Hr & Hloop).
    cbv zeta. rewrite (Hloop eq_refl 2). split; [exact Hr|exact Hcm].
Defined.

Lemma permanent_failure_is_dead_lettered_witness :
  exists w',
    iteration default_settings
      (Scenario.running [Example.doc "pending"]
         [Task (Some Example.url) None None] (Responds Scenario.not_found))
    = (Py.Ret (), w')
    /\ topic_log "metadata-tasks-dlq" w'
       = [Task (Some Example.url) (Some 0%Z)
               (Some "Failed to collect metadata for 'https://example.com/': HTTP 404 — permanent failure")]
    /\ topic_log "metadata-tasks" w' = [Task (Some Example.url) None None].
Proof.
  assert (Hne : kafka_topic default_settings <> kafka_dlq_topic default_settings)
    by discriminate.
  assert (Hq : quiet (Scenario.running [Example.doc "pending"]
                        [Task (Some Example.url) None None]
                        (Responds Scenario.not_found))) by (by constructor).
  assert (Hurl : Example.url <> "") by discriminate.
  destruct (permanent_failure_is_dead_lettered default_settings Example.url
              None None _ [Task (Some Example.url) None None]
              (Example.doc "pending") Example.url
              "HTTP 404 — permanent failure"
              Hne Hq Hurl eq_refl eq_refl eq_refl eq_refl)
    as (w' & d' & Hit & _ & Hdlq & Hmain & _).
  exists w'. split; [exact Hit|]. split; [exact Hdlq|exact Hmain].
Defined.


Lemma failure_without_producer_is_dropped_witness :
  let r := dispatch default_settings 0 Example.url 0
             (answering (Responds Example.unavailable) Example.without_producer) in
  fst r = Py.Ret ()
  /\ topics (w_kafka (snd r)) = ∅
  /\ committed (w_kafka (snd r)) = [0].
Proof.
  destruct (failure_without_producer_is_dropped default_settings 0 Example.url 0
              (answering (Responds Example.unavailable) Example.without_producer)
              (Py.TransientCollectionError Example.url
                 "HTTP 503 — server error, retryable")
              eq_refl eq_refl eq_refl)
    as (Hret & _ & Htp & Hcm).
  split; [exact Hret|]. split; [exact Htp|exact Hcm].
Defined.

Lemma commit_failure_after_success_witness :
  let r := dispatch default_settings 0 Example.url 2
             (Scenario.failing_commit "commit failed"
                (Scenario.running [Example.doc "pending"]
                   [Task (Some Example.url) (Some 2%Z) None]
                   (Responds Example.hello))) in
  exists d', record_of Example.url (snd r) = Some d'
             /\ d' !! "status" = Some (VStr "failed")
             /\ d' !! "error" = Some (VStr "commit failed").
Proof.
  destruct (commit_failure_after_success default_settings 0 Example.url 2
              (Scenario.failing_commit "commit failed"
                 (Scenario.running [Example.doc "pending"]
                    [Task (Some Example.url) (Some 2%Z) None]
                    (Responds Example.hello)))
              (Fetcher.mkCollected ∅ ∅ "<html>Hello</html>" 200)
              (Example.doc "pending") (VOid 7) "commit failed" []
              eq_refl eq_refl eq_refl eq_refl eq_refl eq_refl eq_refl
              eq_refl eq_refl)
    as (_ & _ & _ & H).
  assert (Hmax : (kafka_max_retries default_settings <= 2 + 1)%Z)
    by (unfold default_settings; simpl; lia).
  exact (proj2 (H Hmax)).
Defined.


End WorkerWitnesses.

(** ** The service layer *)

Section ServiceFrames.
Import Mongo Sys Repository Obs Frame.
Variable settings : Settings.
Variable ok : string -> bool.

#[local] Instance same_queue_refl : Reflexive same_queue.
Proof. by intros w. Qed.
#[local] Instance same_queue_trans : Transitive same_queue.
Proof. intros w1 w2 w3 H1 H2. unfold same_queue in *. congruence. Qed.
#[local] Instance same_net_refl : Reflexive same_net.
Proof. by intros w. Qed.
#[local] Instance same_net_trans : Transitive same_net.
Proof. intros w1 w2 w3 H1 H2. unfold same_net in *. congruence. Qed.

(** [create_metadata], the synchronous path, never touches the queue:
    it publishes nothing and leaves producer and consumer as they were,
    whatever happens. *)
Theorem create_metadata_never_publishes raw w :
  w_kafka (snd (Service.create_metadata settings ok raw w)) = w_kafka w.
Proof.
  revert w. change (moves same_queue (Service.create_metadata settings ok raw)).
  unfold Service.create_metadata.
  apply moves_bind; [apply _|apply moves_lift; apply _|]. intros url.
  apply moves_bind; [apply _| |].
  { eapply moves_weaken; [|apply only_net_fetch_url]. by intros w w' (_ & H & _). }
  intros collected. apply moves_bind; [apply _| |].
  { eapply moves_weaken; [|apply only_store_upsert]. by intros w w' (H & _). }
  intros doc_id. apply moves_bind; [apply _| |].
  { eapply moves_weaken; [|apply only_store_find_by_url]. by intros w w' (H & _). }
  intros [d|]; [apply moves_ret|apply moves_raise]; apply _.
Qed.

(** [get_metadata], the cached path, never makes an HTTP request,
    whatever happens. *)
Theorem get_metadata_never_fetches raw w :
  w_net (snd (Service.get_metadata settings ok raw w)) = w_net w.
Proof.
  revert w. change (moves same_net (Service.get_metadata settings ok raw)).
  unfold Service.get_metadata.
  apply moves_bind; [apply _|apply moves_lift; apply _|]. intros url.
  apply moves_bind; [apply _| |].
  { eapply moves_weaken; [|apply only_store_find_by_url]. by intros w w' (_ & H & _). }
  assert (Hmiss : moves same_net
    (was_marked ← mark_pending url;
     _ ← (if was_marked : bool
          then try_except (Producer.enqueue settings url) (fun exc => Some (ret ()))
          else ret ());
     ret (None : option Service.MetadataRecord, false))).
  { apply moves_bind; [apply _| |].
    { eapply moves_weaken; [|apply only_store_mark_pending].
      by intros w w' (_ & H & _). }
    intros b. apply moves_bind; [apply _| |].
    - destruct b; [|apply moves_ret; apply _].
      apply moves_try_except; [apply _| |].
      + eapply moves_weaken; [|apply only_topics_enqueue].
        by intros w w' (_ & H & _).
      + intros e k [= <-]. apply moves_ret; apply _.
    - intros _. apply moves_ret; apply _. }
  intros [d|]; [|exact Hmiss].
  cbv zeta. destruct (bool_decide _); [apply moves_ret; apply _|exact Hmiss].
Qed.

(** A URL that does not normalise stops both service calls before any
    I/O: the exception of [normalize_url] reaches the caller and the
    store, the queue and the network are as they were. *)
Lemma invalid_url_does_no_io raw e w :
  UrlNormalizer.normalize_url ok raw = Py.Raise e ->
  Service.create_metadata settings ok raw w = (Py.Raise e, w)
  /\ Service.get_metadata settings ok raw w = (Py.Raise e, w).
Proof.
  intros Hn.
  unfold Service.create_metadata, Service.get_metadata, mbind, M_bind, bind, lift.
  by rewrite Hn.
Qed.



(** What [get_metadata] does on a URL whose record is pending: the
    answer is [(None, false)], and neither the collection nor the queue
    changes. *)
Lemma get_metadata_pending raw url w d :
  connected w -> db_faults (w_db w) = [] -> unique_urls (coll w) ->
  UrlNormalizer.normalize_url ok raw = Py.Ret url ->
  record_of url w = Some d -> d !! "status" = Some (VStr "pending") ->
  let r := Service.get_metadata settings ok raw w in
  fst r = Py.Ret (None, false)
  /\ w_kafka (snd r) = w_kafka w
  /\ coll (snd r) = coll w.
Proof.
  intros Hc Hdb Hu Hn Hr Hst.
  unfold Service.get_metadata, mbind, M_bind, bind, lift. rewrite Hn.
  rewrite find_by_url_run; [|done|unfold db_fault; by rewrite Hdb].
  rewrite Hr. rewrite bool_decide_eq_false_2 by (rewrite Hst; discriminate).
  match goal with
  | |- context [mark_pending url ?w0] =>
      destruct (mark_pending_blocked url w0 d) as (call & ->);
        [done|unfold db_fault; cbn; by rewrite Hdb|done|done
        |by apply status_in_pending|]
  end.
  done.
Qed.

(** Polling twice schedules once.  For a URL that is not stored, the
    first [get_metadata] creates the pending record and publishes one
    task; the second, finding the record pending, publishes nothing.
    Both answer [(None, false)]. *)
Theorem get_metadata_schedules_once raw url w :
  connected w -> db_faults (w_db w) = [] -> unique_urls (coll w) ->
  producer (w_kafka w) = true -> produce_faults (w_kafka w) = [] ->
  UrlNormalizer.normalize_url ok raw = Py.Ret url ->
  record_of url w = None ->
  let r1 := Service.get_metadata settings ok raw w in
  let r2 := Service.get_metadata settings ok raw (snd r1) in
  fst r1 = Py.Ret (None, false)
  /\ topics (w_kafka (snd r1))
     = <[kafka_topic settings :=
           topic_log (kafka_topic settings) w ++ [Task (Some url) None None]]>
         (topics (w_kafka w))
  /\ fst r2 = Py.Ret (None, false)
  /\ w_kafka (snd r2) = w_kafka (snd r1)
  /\ exists d, record_of url (snd r2) = Some d
               /\ d !! "status" = Some (VStr "pending").
Proof.
  intros Hc Hdb Hu Hp Hpf Hn Hr r1.
  assert (H1 : exists call d',
    r1 = (Py.Ret (None, false),
          snd (Producer.enqueue settings url
                 (logged call (coll w ++ [d'])
                    (logged (CallFindOne (mkQuery url [])) (coll w) w))))
    /\ d' !! "url" = Some (VStr url)
    /\ d' !! "status" = Some (VStr "pending")).
  { subst r1.
    unfold Service.get_metadata, mbind, M_bind, bind, lift. rewrite Hn.
    rewrite find_by_url_run; [|done|unfold db_fault; by rewrite Hdb].
    rewrite Hr.
    match goal with
    | |- context [mark_pending url ?w0] =>
        destruct (mark_pending_absent url w0)
          as (call & d' & -> & Hurl & Hst & _);
          [done|unfold db_fault; cbn; by rewrite Hdb|done|]
    end.
    exists call, d'. split; [|done].
    unfold try_except.
    by destruct (Producer.enqueue settings url _) as [[[]|e] w3]. }
  destruct H1 as (call & d' & Hr1 & Hurl & Hst).
  set (w2 := logged call (coll w ++ [d'])
               (logged (CallFindOne (mkQuery url [])) (coll w) w)) in *.
  pose proof (enqueue_publishes_one_task settings url w2 Hp) as He.
  cbv zeta in He.
  replace (next_fault (produce_faults (w_kafka w2))) with (@None Py.exn) in He
    by (cbn; by rewrite Hpf).
  destruct He as (_ & Htp).
  pose proof (only_topics_enqueue settings url w2) as (Hdb3 & _).
  set (w3 := snd (Producer.enqueue settings url w2)) in *.
  assert (Hrec3 : record_of url w3 = Some d').
  { unfold record_of, coll. rewrite Hdb3. cbn.
    apply find_one_appended; [exact Hr|exact Hurl]. }
  intros r2. subst r2. rewrite Hr1. cbn [fst snd].
  split; [done|]. split; [exact Htp|].
  destruct (get_metadata_pending raw url w3 d') as (Hret & Hk & Hcoll);
    try done.
  - unfold connected. by rewrite Hdb3.
  - rewrite Hdb3. cbn. by rewrite Hdb.
  - apply (writes_unique url w w3); [|exact Hu].
    unfold Frame.writes. rewrite Hdb3. cbn.
    apply rtc_once. by apply Frame.write_append.
  - split; [exact Hret|]. split; [exact Hk|].
    exists d'. split; [|exact Hst].
    unfold record_of. rewrite Hcoll. exact Hrec3.
Qed.

(** A URL whose task could not be published is stranded.  Without a
    producer the first [get_metadata] still creates the pending record
    and answers [(None, false)], with nothing on the topic; once the
    producer is back, a further [get_metadata] finds the record pending
    and publishes nothing either. *)
Theorem failed_enqueue_strands_url raw url w :
  connected w -> db_faults (w_db w) = [] -> unique_urls (coll w) ->
  producer (w_kafka w) = false ->
  UrlNormalizer.normalize_url ok raw = Py.Ret url ->
  record_of url w = None ->
  let r1 := Service.get_metadata settings ok raw w in
  let r2 := Service.get_metadata settings ok raw
              (set_kafka (Producer.with_producer true) (snd r1)) in
  fst r1 = Py.Ret (None, false)
  /\ topics (w_kafka (snd r1)) = topics (w_kafka w)
  /\ fst r2 = Py.Ret (None, false)
  /\ topics (w_kafka (snd r2)) = topics (w_kafka w)
  /\ exists d, record_of url (snd r2) = Some d
               /\ d !! "status" = Some (VStr "pending").
Proof.
  intros Hc Hdb Hu Hp Hn Hr r1.
  assert (H1 : exists call d',
    r1 = (Py.Ret (None, false),
          logged call (coll w ++ [d'])
            (logged (CallFindOne (mkQuery url [])) (coll w) w))
    /\ d' !! "url" = Some (VStr url)
    /\ d' !! "status" = Some (VStr "pending")).
  { subst r1.
    unfold Service.get_metadata, mbind, M_bind, bind, lift. rewrite Hn.
    rewrite find_by_url_run; [|done|unfold db_fault; by rewrite Hdb].
    rewrite Hr.
    match goal with
    | |- context [mark_pending url ?w0] =>
        destruct (mark_pending_absent url w0)
          as (call & d' & -> & Hurl & Hst & _);
          [done|unfold db_fault; cbn; by rewrite Hdb|done|]
    end.
    exists call, d'. split; [|done].
    unfold try_except, Producer.enqueue, mbind, M_bind, bind,
      Producer.producer_is_none.
    cbn. by rewrite Hp. }
  destruct H1 as (call & d' & Hr1 & Hurl & Hst).
  intros r2. subst r2. rewrite Hr1. cbn [fst snd].
  split; [done|]. split; [done|].
  set (w2 := set_kafka _ _).
  assert (Hrec2 : record_of url w2 = Some d')
    by (apply find_one_appended; [exact Hr|exact Hurl]).
  destruct (get_metadata_pending raw url w2 d') as (Hret & Hk & Hcoll);
    try done.
  - cbn. by rewrite Hdb.
  - apply (writes_unique url w w2); [|exact Hu].
    unfold Frame.writes. cbn. apply rtc_once. by apply Frame.write_append.
  - split; [exact Hret|]. split; [by rewrite Hk|].
    exists d'. split; [|exact Hst].
    unfold record_of. rewrite Hcoll. exact Hrec2.
Qed.

End ServiceFrames.

Section ServiceWitnesses.
Import Mongo Sys Repository Obs.



Lemma get_metadata_schedules_once_witness :
  let r1 := Service.get_metadata default_settings (fun _ => true) "example.com"
              (Example.world_with [] []) in
  let r2 := Service.get_metadata default_settings (fun _ => true) "example.com"
              (snd r1) in
  topic_log "metadata-tasks" (snd r2) = [Task (Some Example.url) None None].
Proof.
  destruct (get_metadata_schedules_once default_settings (fun _ => true)
              "example.com" Example.url (Example.world_with [] [])
              eq_refl eq_refl NoDup_nil_2 eq_refl eq_refl eq_refl eq_refl)
    as (_ & Htp & _ & Hk & _).
  cbv zeta. unfold topic_log. rewrite Hk, Htp. reflexivity.
Defined.

Lemma failed_enqueue_strands_url_witness :
  let r1 := Service.get_metadata default_settings (fun _ => true) "example.com"
              Example.without_producer in
  let r2 := Service.get_metadata default_settings (fun _ => true) "example.com"
              (set_kafka (Producer.with_producer true) (snd r1)) in
  fst r2 = Py.Ret (None, false) /\ topics (w_kafka (snd r2)) = ∅.
Proof.
  destruct (failed_enqueue_strands_url default_settings (fun _ => true)
              "example.com" Example.url Example.without_producer
              eq_refl eq_refl NoDup_nil_2 eq_refl eq_refl eq_refl)
    as (_ & _ & Hret & Htp & _).
  split; [exact Hret|exact Htp].
Defined.

End ServiceWitnesses.

(** ** Connecting to the store *)

Section MongoLifeProperties.
Import MongoLife.
Variable max_retries : Z.
Variable base_delay : QArith_base.Q.

Lemma float_of_power_in_range e :
  (e < 1024)%Z -> float_of_power e = Py.Ret (QArith_base.inject_Z (2 ^ e)).
Proof.
  intros He. unfold float_of_power. by rewrite (proj2 (Z.leb_gt _ _)).
Qed.

Lemma attempts_S n attempt s :
  attempts max_retries base_delay (S n) attempt s
  = match answers s (pinged s) with
    | Reached =>
        (Py.Ret (), mkState true true (answers s) (S (pinged s)) (slept s))
    | Unreachable msg =>
        if (attempt =? max_retries)%Z then
          (Py.Raise (Py.PyMongoError
             ("Could not connect to MongoDB after "
              +:+ Text.str_of_Z max_retries +:+ " attempts")),
           dialled s)
        else
          match float_of_power (attempt - 1) with
          | Py.Raise e => (Py.Raise e, dialled s)
          | Py.Ret power =>
              attempts max_retries base_delay n (attempt + 1)
                (mkState true (database s) (answers s) (S (pinged s))
                   (slept s ++ [QArith_base.Qmult base_delay power]))
          end
    | Broken e => (Py.Raise e, dialled s)
    end.
Proof. reflexivity. Qed.

Lemma attempts_reach k : forall n attempt s,
  S k <= n ->
  (attempt - 1 + Z.of_nat k <= 1024)%Z ->
  (forall j, j < k -> exists msg, answers s (pinged s + j) = Unreachable msg) ->
  answers s (pinged s + k) = Reached ->
  (forall j, j < k -> (attempt + Z.of_nat j)%Z <> max_retries) ->
  attempts max_retries base_delay n attempt s
  = (Py.Ret (),
     mkState true true (answers s) (pinged s + S k)
       (slept s ++ ((fun j => QArith_base.Qmult base_delay
                                (QArith_base.inject_Z (2 ^ (attempt - 1 + Z.of_nat j))))
                    <$> seq 0 k))).
Proof.
  induction k as [|k IH]; intros n attempt s Hn Hfl Hdown Hup Hne;
    (destruct n as [|n]; [lia|]); rewrite attempts_S.
  - rewrite Nat.add_0_r in Hup. rewrite Hup. cbn.
    by rewrite app_nil_r, Nat.add_1_r.
  - destruct (Hdown 0) as [msg H0]; [lia|]. rewrite Nat.add_0_r in H0.
    rewrite H0.
    rewrite (proj2 (Z.eqb_neq _ _)) by (specialize (Hne 0); lia).
    rewrite float_of_power_in_range by lia.
    rewrite IH; cbn [answers pinged slept database].
    + f_equal. f_equal; [lia|].
      rewrite <- app_assoc. f_equal. cbn [seq fmap list_fmap app]. f_equal.
      * do 3 f_equal. lia.
      * rewrite <- fmap_S_seq, <- list_fmap_compose. apply list_fmap_ext.
        intros _ j _. cbn. do 3 f_equal. lia.
    + lia.
    + lia.
    + intros j Hj. destruct (Hdown (S j)) as [m Hm]; [lia|].
      exists m. by rewrite <- Hm, Nat.add_succ_r.
    + by rewrite <- Hup, Nat.add_succ_r.
    + intros j Hj. specialize (Hne (S j)). lia.
Qed.

Lemma attempts_give_up k : forall attempt s,
  (attempt + Z.of_nat k)%Z = max_retries ->
  (attempt - 1 + Z.of_nat k <= 1024)%Z ->
  (forall j, j <= k -> exists msg, answers s (pinged s + j) = Unreachable msg) ->
  attempts max_retries base_delay (S k) attempt s
  = (Py.Raise (Py.PyMongoError
       ("Could not connect to MongoDB after "
        +:+ Text.str_of_Z max_retries +:+ " attempts")),
     mkState true (database s) (answers s) (pinged s + S k)
       (slept s ++ ((fun j => QArith_base.Qmult base_delay
                                (QArith_base.inject_Z (2 ^ (attempt - 1 + Z.of_nat j))))
                    <$> seq 0 k))).
Proof.
  induction k as [|k IH]; intros attempt s Hmax Hfl Hdown;
    (destruct (Hdown 0) as [msg H0]; [lia|]); rewrite Nat.add_0_r in H0;
    rewrite attempts_S, H0.
  - rewrite (proj2 (Z.eqb_eq _ _)) by lia. unfold dialled. cbn.
    by rewrite app_nil_r, Nat.add_1_r.
  - rewrite (proj2 (Z.eqb_neq _ _)) by lia.
    rewrite float_of_power_in_range by lia.
    rewrite IH; cbn [answers pinged slept database].
    + f_equal. f_equal; [lia|].
      rewrite <- app_assoc. f_equal. cbn [seq fmap list_fmap app]. f_equal.
      * do 3 f_equal. lia.
      * rewrite <- fmap_S_seq, <- list_fmap_compose. apply list_fmap_ext.
        intros _ j _. cbn. do 3 f_equal. lia.
    + lia.
    + lia.
    + intros j Hj. destruct (Hdown (S j)) as [m Hm]; [lia|].
      exists m. by rewrite <- Hm, Nat.add_succ_r.
Qed.

Lemma backoff_from_one k :
  (fun j => QArith_base.Qmult base_delay (QArith_base.inject_Z (2 ^ (1 - 1 + Z.of_nat j)))) <$> seq 0 k
  = backoff base_delay k.
Proof. unfold backoff. apply list_fmap_ext. intros _ j _. by rewrite Z.sub_diag. Qed.

(** Exponential backoff.  When the server misses [k] pings and answers
    the next one, with [k] below [max_retries], [connect_to_mongo]
    returns with the database handle set after [k + 1] pings, having
    slept [base_delay], twice that, four times that, ... once after
    each miss.  This is for at most 1024 misses, so that every power of
    two converts to a float, and for delays that are finite floats. *)
Theorem connect_to_mongo_backs_off k s :
  (Z.of_nat k < max_retries)%Z ->
  k <= 1024 ->
  Forall finite (backoff base_delay k) ->
  (forall j, j < k -> exists msg, answers s (pinged s + j) = Unreachable msg) ->
  answers s (pinged s + k) = Reached ->
  let r := connect_to_mongo max_retries base_delay s in
  fst r = Py.Ret ()
  /\ database (snd r) = true
  /\ get_database (snd r) = Py.Ret ()
  /\ pinged (snd r) = pinged s + S k
  /\ slept (snd r) = slept s ++ backoff base_delay k.
Proof.
  intros Hk Hfl _ Hdown Hup. unfold connect_to_mongo.
  rewrite (attempts_reach k); [|lia|lia|done|done|lia].
  by rewrite backoff_from_one.
Qed.

(** Giving up.  When the server misses [max_retries] pings in a row,
    [connect_to_mongo] raises the [ConnectionFailure] that names the
    number of attempts; it has slept after every miss but the last, and
    leaves a client but no database handle, so [get_database] raises.
    This is for at most 1025 attempts, so that every power of two
    converts to a float, and for delays that are finite floats. *)
Theorem connect_to_mongo_gives_up s :
  (0 < max_retries <= 1025)%Z -> database s = false ->
  Forall finite (backoff base_delay (Z.to_nat max_retries - 1)) ->
  (forall j, j < Z.to_nat max_retries ->
             exists msg, answers s (pinged s + j) = Unreachable msg) ->
  let r := connect_to_mongo max_retries base_delay s in
  fst r = Py.Raise (Py.PyMongoError
            ("Could not connect to MongoDB after "
             +:+ Text.str_of_Z max_retries +:+ " attempts"))
  /\ client (snd r) = true
  /\ (exists msg, get_database (snd r) = Py.Raise (Py.RuntimeError msg))
  /\ pinged (snd r) = pinged s + Z.to_nat max_retries
  /\ slept (snd r) = slept s ++ backoff base_delay (Z.to_nat max_retries - 1).
Proof.
  intros Hpos Hdb _ Hdown. unfold connect_to_mongo.
  destruct (Z.to_nat max_retries) as [|k] eqn:Hk; [lia|].
  rewrite (attempts_give_up k); [|lia|lia|intros j Hj; apply Hdown; lia].
  cbn [fst snd client pinged slept]. rewrite backoff_from_one.
  split; [done|]. split; [done|].
  split; [unfold get_database; cbn; rewrite Hdb; by eexists|].
  split; [done|]. by replace (S k - 1) with k by lia.
Qed.

(** Past the range of floats.  When the server misses 1025 pings in a
    row and more attempts remain, the power of two of the next delay no
    longer converts to a float: [connect_to_mongo] raises
    [OverflowError] from inside its handler. *)
Lemma connect_to_mongo_overflows s :
  (1025 < max_retries)%Z ->
  (forall j, j < 1025 -> exists msg, answers s (pinged s + j) = Unreachable msg) ->
  let r := connect_to_mongo max_retries base_delay s in
  fst r = Py.Raise (Py.OtherException
                      "OverflowError: int too large to convert to float")
  /\ pinged (snd r) = pinged s + 1025
  /\ database (snd r) = database s.
Proof.
  intros Hmax Hdown. unfold connect_to_mongo.
  assert (Hgo : forall k n attempt s0,
    (attempt + Z.of_nat k = 1025)%Z -> (1 <= attempt)%Z -> S k <= n ->
    (attempt + Z.of_nat k < max_retries)%Z ->
    (forall j, j <= k -> exists msg, answers s0 (pinged s0 + j) = Unreachable msg) ->
    let r := attempts max_retries base_delay n attempt s0 in
    fst r = Py.Raise (Py.OtherException
                        "OverflowError: int too large to convert to float")
    /\ pinged (snd r) = pinged s0 + S k
    /\ database (snd r) = database s0).
  { induction k as [|k IH]; intros n attempt s0 Hat H1 Hn Hlt Hd;
      (destruct n as [|n]; [lia|]);
      (destruct (Hd 0) as [msg H0]; [lia|]); rewrite Nat.add_0_r in H0;
      cbv zeta; rewrite attempts_S, H0;
      rewrite (proj2 (Z.eqb_neq _ _)) by lia.
    - unfold float_of_power. rewrite (proj2 (Z.leb_le _ _)) by lia.
      cbn. split; [done|]. split; [lia|done].
    - rewrite float_of_power_in_range by lia.
      destruct (IH n (attempt + 1)%Z
                  (mkState true (database s0) (answers s0) (S (pinged s0))
                     (slept s0 ++ [QArith_base.Qmult base_delay
                                     (QArith_base.inject_Z (2 ^ (attempt - 1)))])))
        as (Hr & Hp & Hdb); [lia|lia|lia|lia| |].
      + intros j Hj. cbn. destruct (Hd (S j)) as [m Hm]; [lia|].
        exists m. by rewrite <- Hm, Nat.add_succ_r.
      + cbn in Hp, Hdb. split; [done|]. split; [lia|done]. }
  destruct (Hgo 1024 (Z.to_nat max_retries) 1%Z s) as (Hr & Hp & Hdb);
    [lia|lia|lia|lia|intros j Hj; apply Hdown; lia|].
  cbv zeta in Hr, Hp, Hdb. split; [done|]. split; [lia|done].
Qed.

(** With [max_retries] at zero or below the loop has no turn:
    [connect_to_mongo] returns normally without a single ping, and the
    process is left without a database handle. *)
Theorem connect_to_mongo_without_attempts s :
  (max_retries <= 0)%Z -> database s = false ->
  connect_to_mongo max_retries base_delay s = (Py.Ret (), s)
  /\ exists msg,
       get_database (snd (connect_to_mongo max_retries base_delay s))
       = Py.Raise (Py.RuntimeError msg).
Proof.
  intros Hmax Hdb. unfold connect_to_mongo.
  replace (Z.to_nat max_retries) with 0 by lia. cbn.
  split; [done|]. unfold get_database. rewrite Hdb. by eexists.
Qed.

End MongoLifeProperties.

Section MongoLifeWitnesses.
Import MongoLife.

Lemma finite_one_two : Forall finite (backoff (QArith_base.Qmake 1 1) 2).
Proof. repeat constructor; vm_compute; discriminate. Qed.

Lemma connect_to_mongo_backs_off_witness :
  let r := connect_to_mongo 5 (QArith_base.Qmake 1 1) (down_for 2) in
  fst r = Py.Ret () /\ pinged (snd r) = 3
  /\ slept (snd r) = [QArith_base.Qmake 1 1; QArith_base.Qmake 2 1].
Proof.
  assert (Hk : (Z.of_nat 2 < 5)%Z) by lia.
  assert (Hfl : 2 <= 1024) by lia.
  assert (Hdown : forall j, j < 2 ->
    exists msg, answers (down_for 2) (pinged (down_for 2) + j) = Unreachable msg).
  { intros j Hj. exists "connection refused". cbn.
    destruct j as [|[|j]]; [done|done|lia]. }
  destruct (connect_to_mongo_backs_off 5 (QArith_base.Qmake 1 1) 2 (down_for 2)
              Hk Hfl finite_one_two Hdown eq_refl) as (Hret & _ & _ & Hp & Hs).
  split; [exact Hret|]. split; [exact Hp|exact Hs].
Defined.

Lemma connect_to_mongo_gives_up_witness :
  let r := connect_to_mongo 3 (QArith_base.Qmake 1 1) (down_for 3) in
  fst r = Py.Raise (Py.PyMongoError "Could not connect to MongoDB after 3 attempts")
  /\ slept (snd r) = [QArith_base.Qmake 1 1; QArith_base.Qmake 2 1].
Proof.
  assert (Hpos : (0 < 3 <= 1025)%Z) by lia.
  assert (Hdown : forall j, j < Z.to_nat 3 ->
    exists msg, answers (down_for 3) (pinged (down_for 3) + j) = Unreachable msg).
  { intros j Hj. exists "connection refused". cbn.
    destruct j as [|[|[|j]]]; [done|done|done|]. cbn in Hj. lia. }
  destruct (connect_to_mongo_gives_up 3 (QArith_base.Qmake 1 1) (down_for 3)
              Hpos eq_refl finite_one_two Hdown) as (Hret & _ & _ & _ & Hs).
  split; [exact Hret|exact Hs].
Defined.

Lemma connect_to_mongo_without_attempts_witness :
  connect_to_mongo 0 (QArith_base.Qmake 1 1) (down_for 0) = (Py.Ret (), down_for 0).
Proof.
  assert (Hmax : (0 <= 0)%Z) by lia.
  exact (proj1 (connect_to_mongo_without_attempts 0 (QArith_base.Qmake 1 1) (down_for 0)
                  Hmax eq_refl)).
Defined.

End MongoLifeWitnesses.

(** ** The shape of a normalised URL *)

Section NormalizerShape.
Import Text UrlLib UrlNormalizer.
Variable ok : string -> bool.

Lemma lower_char_h c : lower_char c = "h"%char -> c = "h"%char \/ c = "H"%char.
Proof. destruct c as [[] [] [] [] [] [] [] []]; vm_compute; intros H; try discriminate H; auto. Qed.
Lemma lower_char_t c : lower_char c = "t"%char -> c = "t"%char \/ c = "T"%char.
Proof. destruct c as [[] [] [] [] [] [] [] []]; vm_compute; intros H; try discriminate H; auto. Qed.
Lemma lower_char_p c : lower_char c = "p"%char -> c = "p"%char \/ c = "P"%char.
Proof. destruct c as [[] [] [] [] [] [] [] []]; vm_compute; intros H; try discriminate H; auto. Qed.
Lemma lower_char_s c : lower_char c = "s"%char -> c = "s"%char \/ c = "S"%char.
Proof. destruct c as [[] [] [] [] [] [] [] []]; vm_compute; intros H; try discriminate H; auto. Qed.
Lemma lower_char_colon c : lower_char c = ":"%char -> c = ":"%char.
Proof. destruct c as [[] [] [] [] [] [] [] []]; vm_compute; intros H; try discriminate H; auto. Qed.
Lemma lower_char_slash c : lower_char c = "/"%char -> c = "/"%char.
Proof. destruct c as [[] [] [] [] [] [] [] []]; vm_compute; intros H; try discriminate H; auto. Qed.

Lemma prefix_cons a b s t :
  String.prefix (String a s) (String b t) = true -> b = a /\ String.prefix s t = true.
Proof. cbn. destruct (ascii_dec a b); [by subst|done]. Qed.

Lemma prefix_nil_r a s : String.prefix (String a s) EmptyString = true -> False.
Proof. done. Qed.

(** The text [urlsplit] takes for the scheme. *)
Lemma split_scheme_http url :
  startswith "http://" (lower url) = true ->
  exists rest,
    split_scheme (remove_chars unsafe_url_byte (lstrip c0_control_or_space url))
    = ("http", String "/" (String "/" rest)).
Proof.
  unfold startswith. intros H.
  destruct url as [|c1 [|c2 [|c3 [|c4 [|c5 [|c6 [|c7 rest]]]]]]];
    try (repeat (apply prefix_cons in H as [? H]); by apply prefix_nil_r in H);
    try by apply prefix_nil_r in H.
  cbn [lower] in H.
  apply prefix_cons in H as [H1 H]. apply prefix_cons in H as [H2 H].
  apply prefix_cons in H as [H3 H]. apply prefix_cons in H as [H4 H].
  apply prefix_cons in H as [H5 H]. apply prefix_cons in H as [H6 H].
  apply prefix_cons in H as [H7 _].
  apply lower_char_h in H1 as [-> | ->]; apply lower_char_t in H2 as [-> | ->];
    apply lower_char_t in H3 as [-> | ->]; apply lower_char_p in H4 as [-> | ->];
    apply lower_char_colon in H5 as ->; apply lower_char_slash in H6 as ->;
    apply lower_char_slash in H7 as ->;
    eexists; reflexivity.
Qed.

Lemma split_scheme_https url :
  startswith "https://" (lower url) = true ->
  exists rest,
    split_scheme (remove_chars unsafe_url_byte (lstrip c0_control_or_space url))
    = ("https", String "/" (String "/" rest)).
Proof.
  unfold startswith. intros H.
  destruct url as [|c1 [|c2 [|c3 [|c4 [|c5 [|c6 [|c7 [|c8 rest]]]]]]]];
    try (repeat (apply prefix_cons in H as [? H]); by apply prefix_nil_r in H);
    try by apply prefix_nil_r in H.
  cbn [lower] in H.
  apply prefix_cons in H as [H1 H]. apply prefix_cons in H as [H2 H].
  apply prefix_cons in H as [H3 H]. apply prefix_cons in H as [H4 H].
  apply prefix_cons in H as [H5 H]. apply prefix_cons in H as [H6 H].
  apply prefix_cons in H as [H7 H]. apply prefix_cons in H as [H8 _].
  apply lower_char_h in H1 as [-> | ->]; apply lower_char_t in H2 as [-> | ->];
    apply lower_char_t in H3 as [-> | ->]; apply lower_char_p in H4 as [-> | ->];
    apply lower_char_s in H5 as [-> | ->];
    apply lower_char_colon in H6 as ->; apply lower_char_slash in H7 as ->;
    apply lower_char_slash in H8 as ->;
    eexists; reflexivity.
Qed.

(** [urlparse] reads the scheme of a text that starts with one of the
    two prefixes, in any case, as that scheme in lower case. *)
Lemma urlparse_scheme url sch parsed :
  (exists rest,
     split_scheme (remove_chars unsafe_url_byte (lstrip c0_control_or_space url))
     = (sch, String "/" (String "/" rest))) ->
  urlparse ok url = Py.Ret parsed -> scheme parsed = sch.
Proof.
  intros [rest Hs]. unfold urlparse, urlsplit. rewrite Hs.
  destruct (splitnetloc rest) as [n r].
  destruct (_ || _); [done|]. destruct (_ && _); [done|].
  cbn [mbind Py.bind].
  unfold mbind, result_bind, Py.bind.
  destruct (partition "#" r) as [[u1 f1] frag].
  destruct (partition "?" u1) as [[u2 f2] qry]. cbn.
  destruct (_ && _); [destruct (splitparams u2)|]; by intros [= <-].
Qed.

(** What [urlunparse] builds for a scheme that uses a network
    location starts with the scheme and two slashes. *)
Lemma urlunparse_http nl p q :
  exists rest, urlunparse "http" nl p "" q "" = "http://" +:+ rest.
Proof.
  unfold urlunparse, urlunsplit. cbn [is_empty]. 
  replace (mem "http" uses_netloc) with true by reflexivity.
  cbn [negb andb].
  destruct (negb (is_empty nl) || negb (startswith "//" p)) eqn:Hc.
  - destruct (_ && _); destruct (is_empty q); cbn; eexists; reflexivity.
  - apply orb_false_iff in Hc as [_ Hp]. apply negb_false_iff in Hp.
    unfold startswith in Hp.
    destruct p as [|a [|b p]]; [done| |].
    { apply prefix_cons in Hp as [_ Hp]. by apply prefix_nil_r in Hp. }
    apply prefix_cons in Hp as [-> Hp]. apply prefix_cons in Hp as [-> _].
    destruct (is_empty q); cbn; eexists; reflexivity.
Qed.

Lemma urlunparse_https nl p q :
  exists rest, urlunparse "https" nl p "" q "" = "https://" +:+ rest.
Proof.
  unfold urlunparse, urlunsplit. cbn [is_empty]. 
  replace (mem "https" uses_netloc) with true by reflexivity.
  cbn [negb andb].
  destruct (negb (is_empty nl) || negb (startswith "//" p)) eqn:Hc.
  - destruct (_ && _); destruct (is_empty q); cbn; eexists; reflexivity.
  - apply orb_false_iff in Hc as [_ Hp]. apply negb_false_iff in Hp.
    unfold startswith in Hp.
    destruct p as [|a [|b p]]; [done| |].
    { apply prefix_cons in Hp as [_ Hp]. by apply prefix_nil_r in Hp. }
    apply prefix_cons in Hp as [-> Hp]. apply prefix_cons in Hp as [-> _].
    destruct (is_empty q); cbn; eexists; reflexivity.
Qed.

(** Every normalised URL starts with a scheme in lower case, and the
    scheme is one of two: [http://] exactly when the input starts with
    [http://] in any case, [https://] otherwise, whether the input
    carried it or had none. *)
Theorem normalize_url_has_scheme raw u :
  normalize_url ok raw = Py.Ret u ->
  exists rest,
    u = (if startswith "http://" (lower raw) then "http://" else "https://")
        +:+ rest.
Proof.
  unfold normalize_url.
  set (url := if negb _ then _ else raw).
  assert (Hpre : if startswith "http://" (lower raw)
                 then startswith "http://" (lower url) = true
                 else startswith "https://" (lower url) = true).
  { subst url.
    destruct (startswith "http://" (lower raw)) eqn:H1; [done|].
    destruct (startswith "https://" (lower raw)) eqn:H2; [done|].
    cbn [negb orb]. unfold startswith. simpl. by destruct raw. }
  assert (Hsch : forall parsed, urlparse ok url = Py.Ret parsed ->
    scheme parsed
    = if startswith "http://" (lower raw) then "http" else "https").
  { intros parsed Hp.
    destruct (startswith "http://" (lower raw));
      (eapply urlparse_scheme; [|exact Hp]);
      [by apply split_scheme_http|by apply split_scheme_https]. }
  clearbody url.
  unfold mbind, result_bind, Py.bind.
  destruct (urlparse ok url) as [parsed|e]; [|done].
  specialize (Hsch parsed eq_refl).
  destruct (UrlLib.port parsed) as [pt|e]; [|done].
  intros [= <-]. rewrite Hsch.
  destruct (startswith "http://" (lower raw)).
  - match goal with
    | |- exists rest, urlunparse (lower "http") ?nl ?p "" ?q "" = _ =>
        destruct (urlunparse_http nl p q) as [rest Hr]; exists rest; exact Hr
    end.
  - match goal with
    | |- exists rest, urlunparse (lower "https") ?nl ?p "" ?q "" = _ =>
        destruct (urlunparse_https nl p q) as [rest Hr]; exists rest; exact Hr
    end.
Qed.

End NormalizerShape.

Lemma normalize_url_has_scheme_witness :
  exists rest, "http://example.com/a" = "http://" +:+ rest.
Proof.
  exact (normalize_url_has_scheme (fun _ => true) "HTTP://Example.COM:80/a/"
           "http://example.com/a" eq_refl).
Defined.

(** ** No fragment in a normalised URL *)

Section NormalizerFragment.
Import Text UrlLib UrlNormalizer Shape.
Variable ok : string -> bool.


Lemma clean_cons a s : clean (String a s) <-> Ascii.eqb a "#" = false /\ clean s.
Proof. unfold clean. cbn. apply orb_false_iff. Qed.

Lemma clean_app a b : clean (a +:+ b) <-> clean a /\ clean b.
Proof.
  induction a as [|c a IH].
  - change ("" +:+ b) with b. split; [by intros ?|by intros [_ ?]].
  - change (String c a +:+ b) with (String c (a +:+ b)).
    rewrite !clean_cons, IH. tauto.
Qed.

Lemma partition_clean c s :
  clean s -> clean (partition c s).1.1 /\ clean (partition c s).2.
Proof.
  induction s as [|a s IH]; [done|]. intros [Ha Hs]%clean_cons. cbn.
  destruct (Ascii.eqb a c); [done|].
  destruct (partition c s) as [[h f] r]. cbn in *.
  destruct (IH Hs) as [Hh Hr]. split; [|done]. by apply clean_cons.
Qed.

Lemma partition_hash_clean s : clean (partition "#" s).1.1.
Proof.
  induction s as [|a s IH]; [done|]. cbn.
  destruct (Ascii.eqb a "#") eqn:Ha; [done|].
  destruct (partition "#" s) as [[h f] r]. cbn in *. by apply clean_cons.
Qed.

Lemma rpartition_clean c s :
  clean s -> clean (rpartition c s).1.1 /\ clean (rpartition c s).2.
Proof.
  induction s as [|a s IH]; [done|]. intros [Ha Hs]%clean_cons. cbn.
  destruct (rpartition c s) as [[h f] r]. cbn in *.
  destruct (IH Hs) as [Hh Hr].
  destruct f; [split; [by apply clean_cons|done]|].
  destruct (Ascii.eqb a c); [done|]. split; [done|by apply clean_cons].
Qed.

Lemma lower_char_hash c : Ascii.eqb (lower_char c) "#" = Ascii.eqb c "#".
Proof. destruct c as [[] [] [] [] [] [] [] []]; reflexivity. Qed.

Lemma lower_clean s : clean s -> clean (lower s).
Proof.
  induction s as [|a s IH]; [done|]. intros [Ha Hs]%clean_cons. cbn [lower].
  apply clean_cons. split; [by rewrite lower_char_hash|auto].
Qed.

Lemma rstrip_clean c s : clean s -> clean (rstrip c s).
Proof.
  induction s as [|a s IH]; [done|]. intros [Ha Hs]%clean_cons. cbn [rstrip].
  destruct (_ && _); [done|]. apply clean_cons. auto.
Qed.

Lemma string_of_uint_clean d : clean (NilEmpty.string_of_uint d).
Proof. induction d; cbn; done. Qed.

Lemma str_of_N_clean n : clean (str_of_N n).
Proof. apply string_of_uint_clean. Qed.

Lemma always_safe_hash c : always_safe c = true -> Ascii.eqb c "#" = false.
Proof. destruct c as [[] [] [] [] [] [] [] []]; vm_compute; congruence. Qed.

Lemma hex_digits_hash c :
  Ascii.eqb (hex_digit (nat_of_ascii c / 16)) "#" = false
  /\ Ascii.eqb (hex_digit (nat_of_ascii c mod 16)) "#" = false.
Proof. destruct c as [[] [] [] [] [] [] [] []]; vm_compute; done. Qed.

Lemma quote_plus_clean s : clean (quote_plus s).
Proof.
  induction s as [|a s IH]; [done|]. cbn [quote_plus].
  destruct (always_safe a) eqn:Hs.
  - apply clean_cons. split; [by apply always_safe_hash|done].
  - destruct (Ascii.eqb a " "); [by apply clean_cons|].
    destruct (hex_digits_hash a) as [H1 H2].
    apply clean_cons. split; [done|]. apply clean_cons. split; [done|].
    apply clean_cons. by split.
Qed.

Lemma join_clean sep l : clean sep -> Forall (fun s => clean s) l -> clean (join sep l).
Proof.
  intros Hsep. induction 1 as [|x l Hx Hl IH]; [done|]. cbn [join].
  destruct l as [|y l]; [done|].
  apply clean_app. split; [done|]. apply clean_app. by split.
Qed.

Lemma urlencode_clean q : clean (urlencode q).
Proof.
  unfold urlencode. apply join_clean; [done|].
  induction q as [|kv q IH]; constructor; [|exact IH].
  apply clean_app. split; [apply quote_plus_clean|].
  apply clean_app. split; [done|apply quote_plus_clean].
Qed.

Lemma splitnetloc_clean s : clean (splitnetloc s).1.
Proof.
  induction s as [|a s IH]; [done|]. cbn [splitnetloc].
  destruct (contains_char a "/?#") eqn:Ha; [done|].
  destruct (splitnetloc s) as [n r]. cbn in *. apply clean_cons. split; [|done].
  apply orb_false_iff in Ha as [_ Ha]. apply orb_false_iff in Ha as [_ Ha].
  apply orb_false_iff in Ha as [Ha _]. by rewrite Ascii.eqb_sym.
Qed.


Lemma scheme_char_hash c : scheme_char c = true -> Ascii.eqb c "#" = false.
Proof. destruct c as [[] [] [] [] [] [] [] []]; vm_compute; congruence. Qed.

Lemma scheme_chars_clean s : forallb_string scheme_char s = true -> clean s.
Proof.
  induction s as [|a s IH]; [done|]. cbn [forallb_string].
  intros [Ha Hs]%andb_true_iff. apply clean_cons.
  split; [by apply scheme_char_hash|auto].
Qed.

Lemma split_scheme_clean url : clean (split_scheme url).1.
Proof.
  unfold split_scheme. destruct (partition ":" url) as [[before found] after].
  destruct before as [|c0 before]; [done|].
  destruct (found && is_alpha c0 && forallb_string scheme_char (String c0 before))
    eqn:Hc; [|done].
  apply andb_true_iff in Hc as [_ Hc]. cbn [fst].
  by apply lower_clean, scheme_chars_clean.
Qed.

Lemma splitparams_clean p : clean p -> clean (splitparams p).1.
Proof.
  intros Hp. unfold splitparams. destruct (contains_char "/" p).
  - pose proof (rpartition_clean "/" p Hp) as [Hd Hl].
    destruct (rpartition "/" p) as [[dir f] last]. cbn [fst snd] in *.
    pose proof (partition_clean ";" last Hl) as [Hs _].
    destruct (partition ";" last) as [[seg found] par]. cbn [fst snd] in *.
    destruct found; [|done]. cbn [fst].
    apply clean_app. split; [done|]. apply clean_app. by split.
  - pose proof (partition_clean ";" p Hp) as [Hs _].
    by destruct (partition ";" p) as [[seg f] par].
Qed.

(** What [urlparse] hands over as scheme, network location and path
    holds no [#]. *)
Lemma urlparse_clean url parsed :
  urlparse ok url = Py.Ret parsed ->
  clean (scheme parsed) /\ clean (netloc parsed) /\ clean (path parsed).
Proof.
  unfold urlparse, urlsplit.
  pose proof (split_scheme_clean
                (remove_chars unsafe_url_byte (lstrip c0_control_or_space url)))
    as Hsch.
  destruct (split_scheme _) as [sch rest0]. cbn [fst] in Hsch.
  assert (Hgo : forall nl r,
    clean nl ->
    (let '(url0, _, frag) := partition "#" r in
     let '(url1, _, qry) := partition "?" url0 in
     Py.Ret (mkSplit sch nl url1 qry frag)) ≫=
    (fun r0 : SplitResult =>
       let '(p, par) :=
         if mem (s_scheme r0) uses_params && contains_char ";" (s_path r0)
         then splitparams (s_path r0) else (s_path r0, EmptyString) in
       Py.Ret (mkParse (s_scheme r0) (s_netloc r0) p par (s_query r0)
                 (s_fragment r0))) = Py.Ret parsed ->
    clean (scheme parsed) /\ clean (netloc parsed) /\ clean (path parsed)).
  { intros nl r Hnl.
    pose proof (partition_hash_clean r) as H0.
    destruct (partition "#" r) as [[url0 f0] frag]. cbn [fst] in H0.
    pose proof (partition_clean "?" url0 H0) as [H1 _].
    destruct (partition "?" url0) as [[url1 f1] qry]. cbn [fst] in H1.
    cbn. destruct (_ && _).
    - pose proof (splitparams_clean url1 H1) as H2.
      destruct (splitparams url1) as [p par]. by intros [= <-].
    - by intros [= <-]. }
  match goal with
  | |- (?X ≫= _) ≫= _ = _ -> _ =>
      assert (HX : forall nl r, X = Py.Ret (nl, r) -> clean nl);
        [|destruct X as [[nl r]|e]; [|done]]
  end.
  { intros nl r. destruct rest0 as [|a [|b rest]]; [by intros [= <- _]| |].
    - repeat case_match; by intros [= <- _].
    - pose proof (splitnetloc_clean rest) as Hn.
      destruct (splitnetloc rest) as [n r']. cbn [fst] in Hn.
      repeat case_match; intros [= <- _]; done. }
  exact (Hgo nl r (HX nl r eq_refl)).
Qed.

Lemma hostname_clean parsed :
  clean (netloc parsed) -> clean (lower (default EmptyString (hostname parsed))).
Proof.
  intros Hn. unfold hostname, hostinfo.
  pose proof (rpartition_clean "@" (netloc parsed) Hn) as [_ H1].
  destruct (rpartition "@" (netloc parsed)) as [[x1 x2] hi]. cbn [snd] in H1.
  pose proof (partition_clean "[" hi H1) as [_ H2].
  destruct (partition "[" hi) as [[y1 have_open_br] bracketed]. cbn [snd] in H2.
  assert (Hh : forall h p,
    clean h ->
    clean (lower (default EmptyString
      (let h0 := (h, if is_empty p then None else Some p).1 in
       if is_empty h0 then None
       else let '(h1, percent, zone) := partition "%" h0 in
            Some (lower h1 +:+ (if percent then "%" else EmptyString) +:+ zone))))).
  { intros h p Hh. cbn [fst]. destruct (is_empty h); [done|].
    pose proof (partition_clean "%" h Hh) as [Ha Hb].
    destruct (partition "%" h) as [[h1 percent] zone]. cbn [fst snd] in *.
    cbn [default]. apply lower_clean, clean_app. split; [by apply lower_clean|].
    apply clean_app. split; [by destruct percent|done]. }
  destruct have_open_br.
  - pose proof (partition_clean "]" bracketed H2) as [H3 _].
    destruct (partition "]" bracketed) as [[h z1] p0]. cbn [fst] in H3.
    destruct (partition ":" p0) as [[z2 z3] p]. by apply Hh.
  - pose proof (partition_clean ":" hi H1) as [H3 _].
    destruct (partition ":" hi) as [[h z1] p]. by apply Hh.
Qed.

Lemma urlunparse_clean sch nl p q :
  clean sch -> clean nl -> clean p -> clean q ->
  clean (urlunparse sch nl p "" q "").
Proof.
  intros Hs Hn Hp Hq. unfold urlunparse, urlunsplit. cbn [is_empty].
  repeat match goal with
         | |- context [if ?b then _ else _] => destruct b
         end;
    repeat (apply clean_app; split); done.
Qed.

(** No fragment survives: the text [normalize_url] returns holds no
    [#], whatever the input. *)
Theorem normalize_url_drops_fragment raw u :
  normalize_url ok raw = Py.Ret u -> contains_char "#" u = false.
Proof.
  unfold normalize_url.
  set (url := if negb _ then _ else raw). clearbody url.
  unfold mbind, result_bind, Py.bind.
  destruct (urlparse ok url) as [parsed|e] eqn:Hparse; [|done].
  destruct (urlparse_clean url parsed Hparse) as (Hs & Hn & Hp).
  destruct (UrlLib.port parsed) as [pt|e]; [|done].
  intros [= <-].
  pose proof (hostname_clean parsed Hn) as Hh.
  apply urlunparse_clean.
  - by apply lower_clean.
  - match goal with
    | |- clean (match ?o with Some _ => _ | None => _ end) =>
        destruct o as [n|]; [|done]
    end.
    destruct (n =? 0)%N; [done|].
    apply clean_app. split; [done|]. apply clean_app.
    split; [done|apply str_of_N_clean].
  - destruct (is_empty _) eqn:He; [done|].
    destruct (_ && _) in He |- *; [by apply rstrip_clean|done].
  - destruct (parse_qs (query parsed)); [done|apply urlencode_clean].
Qed.

End NormalizerFragment.

Lemma normalize_url_drops_fragment_witness :
  Text.contains_char "#" "https://example.com/page" = false.
Proof.
  exact (normalize_url_drops_fragment (fun _ => true)
           "https://example.com/page#section" "https://example.com/page" eq_refl).
Defined.
